(** * The graph-store layer over the document index (database/elasticsearch.js)

    A shallow embedding of the access filter builder, the cache-augmented
    lookup, the relation projection codec, the pagination engine and the
    cascading deletion engine, with the properties the design document
    states about them. *)

From Stdlib Require Import ZArith Lia Ascii.
From stdpp Require Import base strings list gmap pretty.

#[local] Set Warnings "-register-all,-clear-no-such-hyp".
#[local] Open Scope string_scope.
#[local] Open Scope list_scope.

(** ** Names imported from modules that are not part of these sources

    [database/elasticsearch.js] imports its schema constants, attribute
    tables and key builders from [../schema/*], [../utils/access] and
    [./utils].  They are taken, with the runtime's [decodeURIComponent]
    ([None] where it throws), as an environment every definition is
    parameterised by. *)

Class Schema := {
  BYPASS : string;
  RELATION_CREATED_BY : string;
  RELATION_KILL_CHAIN_PHASE : string;
  RELATION_OBJECT_LABEL : string;
  RELATION_OBJECT_MARKING : string;
  RELATION_INDICATES : string;
  ABSTRACT_BASIC_RELATIONSHIP : string;
  BASE_TYPE_RELATION : string;
  ID_INTERNAL : string;
  ID_STANDARD : string;
  IDS_STIX : string;
  INTERNAL_IDS_ALIASES : string;
  INTERNAL_FROM_FIELD : string;
  INTERNAL_TO_FIELD : string;
  dateAttributes : list string;
  numericOrBooleanAttributes : list string;
  buildRefRelationKey : string → string;
  buildRefRelationSearchKey : string → string;
  getParentTypes : string → list string;
  isBasicRelationship : string → bool;
  isStixRelationShipExceptMeta : option string → bool;
  isStixObjectAliased : option string → bool;
  convertEntityTypeToStixType : option string → string;
  decodeURIComponent : string → option string;
}.

(** A sample environment, with names in the style of the platform's
    schema, used to run the definitions on concrete inputs.  The sample
    decoder accepts the texts without a percent sign, which decode to
    themselves. *)
Fixpoint str_has_percent (s : string) : bool :=
  match s with
  | EmptyString => false
  | String c rest => Ascii.eqb c "%"%char || str_has_percent rest
  end.

Definition platform_schema : Schema := {|
  BYPASS := "BYPASS";
  RELATION_CREATED_BY := "created-by";
  RELATION_KILL_CHAIN_PHASE := "kill-chain-phase";
  RELATION_OBJECT_LABEL := "object-label";
  RELATION_OBJECT_MARKING := "object-marking";
  RELATION_INDICATES := "indicates";
  ABSTRACT_BASIC_RELATIONSHIP := "basic-relationship";
  BASE_TYPE_RELATION := "RELATION";
  ID_INTERNAL := "internal_id";
  ID_STANDARD := "standard_id";
  IDS_STIX := "x_opencti_stix_ids";
  INTERNAL_IDS_ALIASES := "i_aliases_ids";
  INTERNAL_FROM_FIELD := "i_relations_from";
  INTERNAL_TO_FIELD := "i_relations_to";
  dateAttributes := ["created_at"; "updated_at"; "created"; "modified"; "published"];
  numericOrBooleanAttributes := ["confidence"; "x_opencti_score"; "revoked"];
  buildRefRelationKey := λ t, "rel_" +:+ t +:+ ".internal_id";
  buildRefRelationSearchKey := λ t, "rel_" +:+ t +:+ ".internal_id.keyword";
  getParentTypes := λ t,
    if bool_decide (t = "basic-relationship") then []
    else if bool_decide (t = "uses") || bool_decide (t = "related-to")
            || bool_decide (t = "indicates")
         then ["basic-relationship"; "stix-relationship"; "stix-core-relationship"]
    else if bool_decide (t = "object-marking") || bool_decide (t = "created-by")
         then ["basic-relationship"; "stix-relationship"; "stix-meta-relationship"]
    else ["Basic-Object"; "Stix-Object"; "Stix-Core-Object"; "Stix-Domain-Object"];
  isBasicRelationship := λ t,
    bool_decide (t ∈ ["basic-relationship"; "uses"; "related-to"; "indicates";
                      "object-marking"; "created-by"]);
  isStixRelationShipExceptMeta := λ t,
    bool_decide (t ∈ [Some "uses"; Some "related-to"; Some "indicates"]);
  isStixObjectAliased := λ t,
    bool_decide (t ∈ [Some "Malware"; Some "Threat-Actor"; Some "Intrusion-Set"]);
  convertEntityTypeToStixType := λ t,
    match t with
    | Some "uses" | Some "related-to" | Some "indicates" => "relationship"
    | Some t => t
    | None => "undefined"
    end;
  decodeURIComponent := λ s, if str_has_percent s then None else Some s;
|}.

(** ** JavaScript idioms shared by the components *)

(** A [for] loop whose body pushes zero or more items onto an accumulator
    array. *)
Definition for_push {A B} (l : list A) (body : A → list B) : list B :=
  fold_left (λ acc x, acc ++ body x) l [].

(** [R.groupBy]: an object from key to the sub-list of items with that key,
    items in their original order, keys in order of first appearance. *)
Fixpoint group_add {A} (k : string) (x : A) (o : list (string * list A))
  : list (string * list A) :=
  match o with
  | [] => [(k, [x])]
  | (k', g) :: rest =>
      if bool_decide (k' = k) then (k', g ++ [x]) :: rest
      else (k', g) :: group_add k x rest
  end.

Definition groupBy {A} (key : A → string) (l : list A) : list (string * list A) :=
  fold_left (λ o x, group_add (key x) x o) l [].

(** Property read [o[k]] on such an object. *)
Fixpoint prop_get {V} (o : list (string * V)) (k : string) : option V :=
  match o with
  | [] => None
  | (k', v) :: rest => if bool_decide (k' = k) then Some v else prop_get rest k
  end.

(** [Object.keys] and [Object.values]. *)
Definition object_keys {V} (o : list (string * V)) : list string := o.*1.

Definition object_values {V} (o : list (string * V)) : list V := o.*2.

(** Objects keyed by id, as built by [R.mergeAll] and the spread syntax: a
    later value for a key replaces the earlier one in place. *)
Fixpoint obj_set {V} (k : string) (v : V) (o : list (string * V)) : list (string * V) :=
  match o with
  | [] => [(k, v)]
  | (k', v') :: rest =>
      if bool_decide (k' = k) then (k', v) :: rest else (k', v') :: obj_set k v rest
  end.

Definition obj_merge {V} (o1 o2 : list (string * V)) : list (string * V) :=
  fold_left (λ o kv, obj_set kv.1 kv.2 o) o2 o1.

(** [a || []] on a possibly undefined array. *)
Definition or_empty {A} (a : option (list A)) : list A := default [] a.

(** [array.includes(x)] on strings. *)
Definition includes (l : list string) (x : string) : bool := bool_decide (x ∈ l).

(** [R.uniq]: the first occurrence of each item is kept. *)
Fixpoint uniq_from {A} `{EqDecision A} (seen l : list A) : list A :=
  match l with
  | [] => []
  | x :: l' =>
      if bool_decide (x ∈ seen) then uniq_from seen l' else x :: uniq_from (x :: seen) l'
  end.

Definition uniq {A} `{EqDecision A} (l : list A) : list A := uniq_from [] l.

(** [R.splitEvery n]: consecutive chunks of [n] items, the last one shorter. *)
Fixpoint chunks {A} (n : N) (cur : list A) (k : N) (l : list A) : list (list A) :=
  match l with
  | [] => match cur with [] => [] | _ => [rev cur] end
  | x :: l' =>
      if (k + 1 =? n)%N then rev (x :: cur) :: chunks n [] 0 l'
      else chunks n (x :: cur) (k + 1) l'
  end.

Definition splitEvery {A} (n : N) (l : list A) : list (list A) := chunks n [] 0 l.

(** Values of the attributes that are carried through untouched. *)
Inductive value :=
| VNull
| VBool (b : bool)
| VNum (z : Z)
| VStr (s : string)
| VArr (l : list value)
| VObj (o : gmap string value).

(** *** Strings *)

(** [R.includes(sub, s)] on two strings: [s.indexOf(sub) >= 0]. *)
Definition str_includes (sub s : string) : bool :=
  match String.index 0 sub s with Some _ => true | None => false end.

Definition quote : ascii := "034"%char.
Definition backslash : ascii := "092"%char.

(** White space is that of [\s] and [trim] within the ASCII range
    ([Ascii.is_space]). *)
Fixpoint trim_start (s : string) : string :=
  match s with
  | String c rest => if Ascii.is_space c then trim_start rest else s
  | EmptyString => EmptyString
  end.

(** [s.trim()]. *)
Definition trim (s : string) : string :=
  String.rev (trim_start (String.rev (trim_start s))).

(** [s.endsWith(c)] for a single character. *)
Definition ends_with (c : ascii) (s : string) : bool :=
  match String.rev s with
  | String c' _ => Ascii.eqb c' c
  | EmptyString => false
  end.

(** [s.replace(pat, '')] for a string pattern: the first occurrence goes. *)
Definition remove_first (pat s : string) : string :=
  match String.index 0 pat s with
  | Some n =>
      String.substring 0 n s
      +:+ String.substring (n + String.length pat) (String.length s) s
  | None => s
  end.

(** Replacing every character [c] with [p c], as a global regular
    expression replacement over single characters does. *)
Fixpoint replace_chars (p : ascii → string) (s : string) : string :=
  match s with
  | EmptyString => EmptyString
  | String c rest => p c +:+ replace_chars p rest
  end.

(** [s.split(/[\s/]+/)]: the pieces between the runs of separators, an
    empty piece before a leading run and after a trailing one. *)
Fixpoint split_runs (sep : ascii → bool) (cur : string) (in_run : bool) (s : string)
  : list string :=
  match s with
  | EmptyString => [String.rev cur]
  | String c rest =>
      if sep c then
        if in_run then split_runs sep cur true rest
        else String.rev cur :: split_runs sep EmptyString true rest
      else split_runs sep (String c cur) false rest
  end.

(** ** Failures and effects *)

(** Error classes: the three constructors the module imports from
    [config/errors], and the two further classes the design document names
    (no code path of the module constructs those). *)
Inductive ErrorClass :=
| ConfigurationError | DatabaseError | FunctionalError
| DataIntegrityError | OutOfRangeError.

(** What a rejected engine response exposes to the code:
    [err.meta.body.error.root_cause], a list of causes with their [reason]. *)
Record RootCause := { reason : string }.

Inductive Exn :=
| AppError (class : ErrorClass) (message : string)
| ResponseError (root_cause : list RootCause)
| TypeError.

(** The result of running a call: a value, a thrown exception (a rejected
    promise), or a recursion that has not finished within the allowed depth. *)
Inductive Outcome (A : Type) :=
| Return (a : A)
| Throw (e : Exn)
| OutOfFuel.
Arguments Return {A} a.
Arguments Throw {A} e.
Arguments OutOfFuel {A}.

(** Calls that read or change a world [W] (the engine's documents, the log
    of requests sent to the collaborators). *)
Definition M (W A : Type) : Type := W → Outcome A * W.

#[export] Instance M_ret {W} : MRet (M W) := λ A a w, (Return a, w).

#[export] Instance M_bind {W} : MBind (M W) := λ A B f m w,
  match m w with
  | (Return a, w') => f a w'
  | (Throw e, w') => (Throw e, w')
  | (OutOfFuel, w') => (OutOfFuel, w')
  end.

Definition throw {W A} (e : Exn) : M W A := λ w, (Throw e, w).

Definition modify {W} (f : W → W) : M W unit := λ w, (Return (), f w).

Definition gets {W A} (f : W → A) : M W A := λ w, (Return (f w), w).

(** [Promise.map] / [Promise.all] over a list, run one call after the other. *)
Fixpoint mapM {W A B} (f : A → M W B) (l : list A) : M W (list B) :=
  match l with
  | [] => mret []
  | x :: l' => y ← f x; ys ← mapM f l'; mret (y :: ys)
  end.

(** ** Engine queries and what they match *)

Module Query.

(** The clauses the module builds.  [Bool] carries the four parts of a
    [bool] query; an absent part is the empty list, an absent
    [minimum_should_match] is [None].  [Range] lists its bounds as pairs of
    an operator ([gte], [lte], ...) and a value. *)
Inductive t :=
| Exists (field : string)
| Match (field : string) (v : string)
| MatchPhrase (field : string) (v : string)
| Term (field : string) (v : string)
| MultiMatch (fields : list string) (v : string)
| QueryString (query : string) (analyze_wildcard : bool) (fields : list string)
| Range (field : string) (bounds : list (string * string))
| Nested (path : string) (query : t)
| Bool (must must_not should : list t) (minimum_should_match : option nat).

(** A document, as the engine sees it: the values indexed under a field
    name (or field pattern), and its own verdict on the two kinds of clause
    that need text analysis or an order on values.  The values of a field of
    nested objects are those of all the nested objects; every nested query
    built here that is evaluated constrains a single field, so matching
    against them is exact. *)
Record Document := {
  values : string → list string;
  query_string : string → bool → list string → bool;
  in_range : string → string → string → bool;
}.

(** The engine's default for an absent [minimum_should_match]: 1 when the
    query has should clauses and no must clause, 0 otherwise. *)
Definition msm_default (must should : list t) : nat :=
  match must, should with
  | [], _ :: _ => 1
  | _, _ => 0
  end.

Fixpoint matches (d : Document) (q : t) : bool :=
  match q with
  | Exists f => bool_decide (values d f ≠ [])
  | Match f v | MatchPhrase f v | Term f v => bool_decide (v ∈ values d f)
  | MultiMatch fs v => existsb (λ f, bool_decide (v ∈ values d f)) fs
  | QueryString q w fs => query_string d q w fs
  | Range f bounds => forallb (λ b, in_range d f b.1 b.2) bounds
  | Nested _ q => matches d q
  | Bool must must_not should msm =>
      forallb (matches d) must
      && forallb (λ c, negb (matches d c)) must_not
      && (default (msm_default must should) msm
            <=? length (List.filter (matches d) should))%nat
  end.

(** The fragments every read path splices into its own [bool] query. *)
Record Restriction := { must : list t; must_not : list t }.

(** A document passes a restriction when it matches every [must] clause
    and no [must_not] clause. *)
Definition visible (d : Document) (r : Restriction) : bool :=
  forallb (matches d) (must r) && forallb (λ c, negb (matches d c)) (must_not r).

(** The clause on the type of a document that the read paths share: the
    type itself or one of its parent types. *)
Definition type_clause (type : string) : t :=
  Bool [] []
    [ MatchPhrase "entity_type.keyword" type;
      MatchPhrase "parent_types.keyword" type ]
    (Some 1).

End Query.

(** ** Access filter builder and cache-augmented lookup *)

Module Access.

Record Capability := { name : string }.

Record Marking := { internal_id : string; definition_type : string }.

#[export] Instance Marking_eq_dec : EqDecision Marking.
Proof. solve_decision. Defined.

(** [capabilities] may be missing on a user (the code guards every read
    with [|| []]); the marking lists are arrays. *)
Record User := {
  capabilities : option (list Capability);
  allowed_marking : list Marking;
  all_marking : list Marking;
}.

Section WithSchema.
Context `{Schema}.

(** Holding the bypass capability, as a property of the user. *)
Definition holds_bypass (user : User) : Prop :=
  ∃ c, c ∈ or_empty (capabilities user) ∧ name c = BYPASS.

(** A marking of the universe the user lacks. *)
Definition forbidden_marking (user : User) (M : Marking) : Prop :=
  M ∈ all_marking user ∧ M ∉ allowed_marking user.

Definition isBypass (user : User) : bool :=
  match find (λ s, bool_decide (name s = BYPASS)) (or_empty (capabilities user)) with
  | Some _ => true
  | None => false
  end.

(** Per marking group of the universe, the ids the user has no access
    to; groups where nothing is forbidden are skipped. *)
Definition mustNotHaveOneOf (user : User) : list (list string) :=
  let userGroupedMarkings := groupBy definition_type (allowed_marking user) in
  let allGroupedMarkings := groupBy definition_type (all_marking user) in
  let markingGroups := object_keys allGroupedMarkings in
  for_push markingGroups (λ markingGroup,
    let markingsForGroup :=
      internal_id <$> or_empty (prop_get allGroupedMarkings markingGroup) in
    let userMarkingsForGroup :=
      internal_id <$> or_empty (prop_get userGroupedMarkings markingGroup) in
    let res := List.filter (λ m, negb (includes userMarkingsForGroup m)) markingsForGroup in
    if (0 <? length res)%nat then [res] else []).

Definition mustNotMarkingTerms (user : User) : list Query.t :=
  for_push (mustNotHaveOneOf user) (λ markings,
    let should :=
      (λ m, Query.Match (buildRefRelationSearchKey RELATION_OBJECT_MARKING) m) <$> markings in
    [Query.Bool [] [] should (Some 1)]).

Definition markingBool (user : User) : Query.t :=
  Query.Bool [] []
    [ Query.Bool []
        [Query.Exists (buildRefRelationSearchKey RELATION_OBJECT_MARKING)] [] None;
      Query.Bool [] (mustNotMarkingTerms user) [] None ]
    (Some 1).

Definition buildMarkingRestriction (user : User) : Query.Restriction :=
  if isBypass user then {| Query.must := []; Query.must_not := [] |}
  else if (length (allowed_marking user) =? 0)%nat then
    {| Query.must := [];
       Query.must_not := [Query.Exists (buildRefRelationKey RELATION_OBJECT_MARKING)] |}
  else {| Query.must := [markingBool user]; Query.must_not := [] |}.

End WithSchema.

End Access.

(** ** Relation projection codec *)

Module Codec.

(** A resolved endpoint: the element object found for [from] or [to]. *)
Module Entity.
Record t := { internal_id : string; name : option string; entity_type : string }.
End Entity.

(** An endpoint record embedded in a stored relationship document. *)
Module Connection.
Record t := {
  internal_id : string;
  name : option string;
  types : list string;
  role : option string;
}.
End Connection.

(** A relationship object handed to the indexer.  An absent ([undefined]
    or [null]) endpoint or role is [None]; [fields] holds every attribute
    other than the named ones. *)
Module Thing.
Record t := {
  internal_id : string;
  entity_type : string;
  base_type : string;
  from : option Entity.t;
  fromId : option string;
  fromRole : option string;
  to : option Entity.t;
  toId : option string;
  toRole : option string;
  fields : gmap string value;
}.
End Thing.

(** A stored document ([_source] of a hit). *)
Module Concept.
Record t := {
  internal_id : string;
  entity_type : string;
  base_type : string;
  connections : list Connection.t;
  fields : gmap string value;
}.
End Concept.

(** A decoded relationship.  [from] and [to] are always [null] in the
    decoded shape and are left out. *)
Module Relation.
Record t := {
  internal_id : string;
  entity_type : string;
  base_type : string;
  fromId : string;
  fromRole : option string;
  fromType : option string;
  source_ref : string;
  toId : string;
  toRole : option string;
  toType : option string;
  target_ref : string;
  relationship_type : option string;
  fields : gmap string value;
}.
Definition set_relationship_type (v : string) (r : t) : t :=
  {| internal_id := internal_id r; entity_type := entity_type r;
     base_type := base_type r;
     fromId := fromId r; fromRole := fromRole r; fromType := fromType r;
     source_ref := source_ref r;
     toId := toId r; toRole := toRole r; toType := toType r;
     target_ref := target_ref r;
     relationship_type := Some v; fields := fields r |}.
End Relation.

(** What the decoder returns: a decoded relationship, or the concept
    unchanged when its base type is not the relation base type. *)
Inductive Rebuilt :=
| IsRelation (r : Relation.t)
| Unchanged (c : Concept.t).

Section WithSchema.
Context `{Schema}.

Definition connection_of (e : Entity.t) (role : option string) : Connection.t :=
  {| Connection.internal_id := Entity.internal_id e;
     Connection.name := Entity.name e;
     Connection.types := Entity.entity_type e :: getParentTypes (Entity.entity_type e);
     Connection.role := role |}.

Definition prepareRelation (thing : Thing.t) : Exn + Concept.t :=
  match Thing.fromRole thing, Thing.toRole thing with
  | Some fromRole, Some toRole =>
      match Thing.from thing, Thing.to thing with
      | Some from, Some to =>
          let connections :=
            [connection_of from (Some fromRole); connection_of to (Some toRole)] in
          inr {| Concept.internal_id := Thing.internal_id thing;
                 Concept.entity_type := Thing.entity_type thing;
                 Concept.base_type := Thing.base_type thing;
                 Concept.connections := connections;
                 Concept.fields :=
                   delete INTERNAL_FROM_FIELD (delete INTERNAL_TO_FIELD (Thing.fields thing)) |}
      | _, _ =>
          inl (AppError DatabaseError
                 ("[ELASTIC] Cant index relation " +:+ Thing.internal_id thing
                  +:+ ", error resolving dependency IDs"))
      end
  | _, _ =>
      inl (AppError DatabaseError
             ("[ELASTIC] Cant index relation " +:+ Thing.internal_id thing
              +:+ " connections without from or to"))
  end.

Definition role_is (r : string) (connection : Connection.t) : bool :=
  bool_decide (Connection.role connection = Some r).

Definition elMergeRelation (concept : Concept.t)
    (fromConnection toConnection : option Connection.t) : Exn + Relation.t :=
  match fromConnection, toConnection with
  | Some fromC, Some toC =>
      let fromType := head (Connection.types fromC) in
      let toType := head (Connection.types toC) in
      inr {| Relation.internal_id := Concept.internal_id concept;
             Relation.entity_type := Concept.entity_type concept;
             Relation.base_type := Concept.base_type concept;
             Relation.fromId := Connection.internal_id fromC;
             Relation.fromRole := Connection.role fromC;
             Relation.fromType := fromType;
             Relation.source_ref := convertEntityTypeToStixType fromType +:+ "--temporary";
             Relation.toId := Connection.internal_id toC;
             Relation.toRole := Connection.role toC;
             Relation.toType := toType;
             Relation.target_ref := convertEntityTypeToStixType toType +:+ "--temporary";
             Relation.relationship_type := None;
             Relation.fields := Concept.fields concept |}
  | _, _ =>
      inl (AppError DatabaseError "[ELASTIC] Something fail in reconstruction of the relation")
  end.

Definition elRebuildRelation (concept : Concept.t) : Exn + Rebuilt :=
  if bool_decide (Concept.base_type concept = BASE_TYPE_RELATION) then
    let connections := Concept.connections concept in
    let entityType := Concept.entity_type concept in
    let fromConnection := find (role_is (entityType +:+ "_from")) connections in
    let toConnection := find (role_is (entityType +:+ "_to")) connections in
    match elMergeRelation concept fromConnection toConnection with
    | inr relation =>
        inr (IsRelation
               (Relation.set_relationship_type (Relation.entity_type relation) relation))
    | inl e => inl e
    end
  else inr (Unchanged concept).

End WithSchema.

End Codec.

(** ** Stored elements, the engine's documents and the collaborators *)

(** An element as the read paths return it (a converted hit).  For a
    relationship, [fromId] and [toId] are the ids of its two connections;
    [refs] holds the denormalized reference arrays by field key. *)
Module Element.
Record t := {
  _index : string;
  internal_id : string;
  standard_id : string;
  entity_type : string;
  relationship_type : option string;
  fromId : option string;
  toId : option string;
  object_marking_refs : option (list string);
  refs : gmap string (list string);
  level : option nat;
}.

(** [{ ...s, level }]. *)
Definition with_level (lv : nat) (s : t) : t :=
  {| _index := _index s; internal_id := internal_id s; standard_id := standard_id s;
     entity_type := entity_type s; relationship_type := relationship_type s;
     fromId := fromId s; toId := toId s;
     object_marking_refs := object_marking_refs s; refs := refs s;
     level := Some lv |}.

Definition with_refs (r : gmap string (list string)) (s : t) : t :=
  {| _index := _index s; internal_id := internal_id s; standard_id := standard_id s;
     entity_type := entity_type s; relationship_type := relationship_type s;
     fromId := fromId s; toId := toId s;
     object_marking_refs := object_marking_refs s; refs := r;
     level := level s |}.
End Element.

(** The scripted update of the cleanup:
    [if (ctx._source[field] != null) ctx._source[field].removeIf(rel -> rel == params.key)]. *)
Record Script := { field : string; key : option string }.

Inductive BulkOp :=
| Update (_index : string) (_id : string) (script : Script)
| Delete (_index : string) (_id : string).

(** Requests that change something outside the process. *)
Inductive Event :=
| CacheDel (ids : list string)
| CacheSet (ids : list string)
| ElBulk (body : list BulkOp).

(** The engine's documents, in its default sort order, and the requests
    sent so far. *)
Record World := { docs : list Element.t; trace : list Event }.

Definition emit (ev : Event) : M World unit :=
  modify (λ w, {| docs := docs w; trace := trace w ++ [ev] |}).

(** What the code relies on but does not define: how the engine indexes an
    element's fields, what the cache answers, and the id helper of
    [schema/identifier]. *)
Class Collaborators := {
  indexed : Element.t → Query.Document;
  cacheGet : list (option string) → option (list (string * option Element.t));
  getInstanceIds : Element.t → list string;
}.

(** The platform's defaults: an element is indexed under its id fields,
    its type and type lineage, the ids of its connections and its reference
    arrays (the marking references also under the search key), with no
    analysed text and no ordered value; the cache is switched off
    ([redis.use_as_cache] is [false] in [config/default.json]). *)
Definition platform_collaborators : Collaborators := {|
  indexed := λ e,
    {| Query.values := λ f,
         if bool_decide (f = "internal_id.keyword") then [Element.internal_id e]
         else if bool_decide (f = "standard_id.keyword") then [Element.standard_id e]
         else if bool_decide (f = "entity_type.keyword") then [Element.entity_type e]
         else if bool_decide (f = "parent_types.keyword")
           then getParentTypes (Schema := platform_schema) (Element.entity_type e)
         else if bool_decide (f = "connections.internal_id")
           then omap (λ i, i) [Element.fromId e; Element.toId e]
         else if bool_decide (f = "rel_object-marking.internal_id.keyword")
           then default [] (Element.refs e !! "rel_object-marking.internal_id")
         else default [] (Element.refs e !! f);
       Query.query_string := λ _ _ _, false;
       Query.in_range := λ _ _ _, false |};
  cacheGet := λ _, None;
  getInstanceIds := λ e, [Element.internal_id e; Element.standard_id e];
|}.

(** ** Configuration ([config/default.json]) and the module's constants *)

Record Config := {
  ES_MAX_CONCURRENCY : Z;
  ES_IGNORE_THROTTLED : bool;
  ES_MAX_PAGINATION : Z;
}.

Definition default_config : Config := {|
  ES_MAX_CONCURRENCY := 2;
  ES_IGNORE_THROTTLED := false;
  ES_MAX_PAGINATION := 5000;
|}.

Definition MAX_SPLIT : N := 250.
Definition MAX_JS_PARAMS : N := 65536.
Definition MAX_SEARCH_SIZE : Z := 5000.
Definition ROLE_FROM : string := "from".
Definition ROLE_TO : string := "to".

(** ** Pagination engine *)

Module Paginate.
Import Access.

(** A numeric option as JavaScript passes it: left out, [null], or a number. *)
Inductive Count := Omitted | Null | Num (n : Z).

Module NestedFilter.
Record t := { key : string; values : list string; operator : option string }.
End NestedFilter.

(** A filter of the domain layer.  A [null] entry of [values] is [None];
    the other entries are the texts [toString] gives. *)
Module Filter.
Record t := {
  key : string;
  values : option (list (option string));
  nested : option (list NestedFilter.t);
  operator : option string;
  filterMode : option string;
}.
End Filter.

(** The options of a call; an option left out is [None]. *)
Record Options := {
  ids : option (list string);
  first : Count;
  after : option string;
  orderBy : option string;
  orderMode : option string;
  types : option (list string);
  filters : option (list Filter.t);
  filterMode : option string;
  search : option string;
  connectionFormat : option bool;
}.

(** [{ ...options, first, after, connectionFormat }]. *)
Definition with_page (first : Count) (after : option string) (connectionFormat : bool)
    (o : Options) : Options :=
  {| ids := ids o; first := first; after := after; orderBy := orderBy o;
     orderMode := orderMode o; types := types o; filters := filters o;
     filterMode := filterMode o; search := search o;
     connectionFormat := Some connectionFormat |}.

(** [specialElasticCharsEscape]: a backslash before each reserved character. *)
Definition is_special (c : ascii) : bool :=
  bool_decide (c ∈ ["+"; "|"; "-"; "*"; "("; ")"; "~"; "="; "{"; "}"; "["; "]"; ":"; "?";
                    backslash]%char).

Definition specialElasticCharsEscape (query : string) : string :=
  replace_chars (λ c, if is_special c then String backslash (String c EmptyString)
                      else String c EmptyString) query.

Section WithSchema.
Context `{Schema}.

(** The text searched for, from the [search] option. *)
Definition finalSearch (search : string) : string :=
  let decodedSearch := default search (decodeURIComponent search) in
  let cleanSearch := specialElasticCharsEscape (trim decodedSearch) in
  if String.prefix "http\://" cleanSearch then
    String quote ("*" +:+ remove_first "http\://" cleanSearch +:+ "*" +:+ String quote "")
  else if String.prefix "https\://" cleanSearch then
    String quote ("*" +:+ remove_first "https\://" cleanSearch +:+ "*" +:+ String quote "")
  else if String.prefix (String quote "") cleanSearch && ends_with quote cleanSearch then
    cleanSearch
  else
    let splitSearch :=
      split_runs (λ c, Ascii.is_space c || Ascii.eqb c "/"%char) EmptyString false
        (replace_chars (λ c, if Ascii.eqb c quote
                             then String backslash (String quote EmptyString)
                             else String c EmptyString) cleanSearch) in
    String.concat " " ((λ n, "*" +:+ n +:+ "*") <$> splitSearch).

Definition ids_clause (ids : list string) : list Query.t :=
  if (0 <? length ids)%nat then
    let elementTypes := [ID_INTERNAL; ID_STANDARD; IDS_STIX] in
    let idsTermsPerType :=
      for_push ids (λ id,
        for_push elementTypes (λ elementType,
          [Query.Term (elementType +:+ ".keyword") id])) in
    [Query.Bool [] [] idsTermsPerType (Some 1)]
  else [].

Definition types_clause (types : option (list string)) : list Query.t :=
  match types with
  | Some types =>
      if (0 <? length types)%nat then
        let should :=
          types ≫= (λ typeValue,
            [ Query.MatchPhrase "entity_type.keyword" typeValue;
              Query.MatchPhrase "parent_types.keyword" typeValue ]) in
        [Query.Bool [] [] should (Some 1)]
      else []
  | None => []
  end.

Definition min_match (localFilterMode : string) (should : list Query.t) : option nat :=
  Some (if bool_decide (localFilterMode = "or") then 1%nat else length should).

Definition nested_clause (key localFilterMode : string) (nested : list NestedFilter.t)
  : Query.t :=
  let nestedMust :=
    for_push nested (λ nestedElement,
      let nestedKey := NestedFilter.key nestedElement in
      let nestedOperator := default "eq" (NestedFilter.operator nestedElement) in
      let nestedShould :=
        for_push (NestedFilter.values nestedElement) (λ v,
          if bool_decide (nestedOperator = "wildcard")
          then [Query.QueryString v false [key +:+ "." +:+ nestedKey]]
          else [Query.MatchPhrase (key +:+ "." +:+ nestedKey) v]) in
      [Query.Bool [] [] nestedShould (min_match localFilterMode nestedShould)]) in
  Query.Nested key (Query.Bool nestedMust [] [] None).

(** One value of a filter: a [null] adds to the must-not list, the others
    to the alternatives of the filter. *)
Definition value_step (key operator : string) (st : list Query.t * list Query.t)
    (v : option string) : list Query.t * list Query.t :=
  let '(mustnot, valuesFiltering) := st in
  match v with
  | None => (mustnot ++ [Query.Exists key], valuesFiltering)
  | Some v =>
      if bool_decide (v = "EXISTS") then (mustnot, valuesFiltering ++ [Query.Exists key])
      else if bool_decide (operator = "eq") then
        let isDateOrNumber :=
          includes dateAttributes key || includes numericOrBooleanAttributes key in
        (mustnot,
         valuesFiltering
         ++ [Query.MatchPhrase (if isDateOrNumber then key else key +:+ ".keyword") v])
      else if bool_decide (operator = "match") then
        (mustnot, valuesFiltering ++ [Query.MatchPhrase key v])
      else if bool_decide (operator = "wildcard") then
        (mustnot,
         valuesFiltering
         ++ [Query.QueryString (String quote (v +:+ String quote "")) false [key]])
      else (mustnot, valuesFiltering ++ [Query.Range key [(operator, v)]])
  end.

(** One turn of the loop over the valid filters. *)
Definition filter_step (st : list Query.t * list Query.t) (f : Filter.t)
  : list Query.t * list Query.t :=
  let '(mustnot, mustFilters) := st in
  let key := Filter.key f in
  let operator := default "eq" (Filter.operator f) in
  let localFilterMode := default "or" (Filter.filterMode f) in
  match Filter.nested f with
  | Some nested => (mustnot, mustFilters ++ [nested_clause key localFilterMode nested])
  | None =>
      let '(mustnot, valuesFiltering) :=
        fold_left (value_step key operator) (or_empty (Filter.values f)) (mustnot, []) in
      (mustnot,
       mustFilters
       ++ [Query.Bool [] [] valuesFiltering (min_match localFilterMode valuesFiltering)])
  end.

Definition valid_filter (f : Filter.t) : bool :=
  (0 <? length (or_empty (Filter.values f)))%nat
  || (0 <? length (or_empty (Filter.nested f)))%nat.

Definition search_clause (search : string) : Query.t :=
  let finalSearch := finalSearch search in
  Query.Bool [] []
    [ Query.QueryString finalSearch true ["name^5"; "*"];
      Query.Nested "connections"
        (Query.Bool
           [Query.QueryString finalSearch true ["connections.name^5"; "connections.*"]]
           [] [] None) ]
    (Some 1).

Definition nonempty (s : option string) : bool :=
  match s with
  | Some s => negb (bool_decide (s = ""))
  | None => false
  end.

Record Clauses := {
  must : list Query.t;
  mustnot : list Query.t;
  ordering : list (string * string);
}.

(** The must, must-not and ordering lists of the request. *)
Definition clauses (user : User) (options : Options) : Clauses :=
  let ids := or_empty (ids options) in
  let orderMode := default "asc" (orderMode options) in
  let filterMode := default "and" (filterMode options) in
  let markingRestrictions := buildMarkingRestriction user in
  let must := Query.must markingRestrictions in
  let mustnot := Query.must_not markingRestrictions in
  let must := must ++ ids_clause ids in
  let must := must ++ types_clause (types options) in
  let validFilters := List.filter valid_filter (or_empty (filters options)) in
  let '(mustnot, mustFilters) := fold_left filter_step validFilters (mustnot, []) in
  let must :=
    if bool_decide (filterMode = "or") then must ++ [Query.Bool [] [] mustFilters (Some 1)]
    else must ++ mustFilters in
  let must :=
    if nonempty (search options)
    then must ++ [search_clause (default "" (search options))]
    else must in
  if nonempty (orderBy options) then
    let orderBy := default "" (orderBy options) in
    let orderKeyword :=
      if includes dateAttributes orderBy || includes numericOrBooleanAttributes orderBy
      then orderBy else orderBy +:+ ".keyword" in
    {| must := must ++ [Query.Exists orderKeyword]; mustnot := mustnot;
       ordering := [(orderKeyword, orderMode)] |}
  else if nonempty (search options) then
    {| must := must; mustnot := mustnot; ordering := [("_score", "desc")] |}
  else
    {| must := must; mustnot := mustnot; ordering := [("standard_id.keyword", "asc")] |}.

End WithSchema.

Section WithEngine.
(** [SortKey] is what [cursorToOffset] decodes, [Hit] a raw hit and [Node]
    a converted one; the search is answered by [engine]. *)
Context `{Schema} (conf : Config).
Context {SortKey Hit Node : Type}.

Record Body := {
  size : Z;
  sort : list (string * string);
  query_must : list Query.t;
  query_must_not : list Query.t;
  search_after : option SortKey;
}.

Record Request := { index : string; track_total_hits : bool; body : Body }.

(** The engine's answer to a search: hits with their total, or a rejection
    whose response body lists root causes. *)
Inductive Response :=
| Data (hits : list Hit) (total : Z)
| Rejected (root_cause : list RootCause).

Inductive Event :=
| LogDebug (message : string)
| Search (query : Request)
| LogError (message : string) (error : Exn).

(** The arguments given to [buildPagination]. *)
Record Pagination := {
  limit : Count;
  searchAfter : option SortKey;
  nodeHits : list Node;
  globalCount : Z;
}.

Inductive Result :=
| Connection (page : Pagination)
| Plain (convertedHits : list Node).

Context (cursorToOffset : string → SortKey).
Context (elDataConverter : Hit → Exn + Node).
Context (engine : Request → Response).

Definition log (ev : Event) : M (list Event) unit := modify (λ t, t ++ [ev]).

Definition el_search (query : Request) : M (list Event) Response :=
  _ ← log (Search query); mret (engine query).

Fixpoint convert_all (hits : list Hit) : Exn + list Node :=
  match hits with
  | [] => inr []
  | n :: rest =>
      match elDataConverter n with
      | inl e => inl e
      | inr c => match convert_all rest with
                 | inl e => inl e
                 | inr cs => inr (c :: cs)
                 end
      end
  end.

(** [first || 10]. *)
Definition querySize (first : Count) : Z :=
  match first with
  | Num n => if (n =? 0)%Z then 10 else n
  | _ => 10
  end.

(** The destructuring default [first = 200]: only an omitted value takes it. *)
Definition first_or_default (options : Options) : Count :=
  match first options with
  | Omitted => Num 200
  | c => c
  end.

Definition is_mapping_cause (r : string) : bool :=
  str_includes "No mapping found for" r || str_includes "no such index" r.

(** A root cause that is a missing-index or missing-mapping condition. *)
Definition missing_mapping (r : RootCause) : Prop :=
  is_mapping_cause (reason r) = true.

(** What the caller gets when the error is swallowed: the empty page, or
    the empty list without the connection format. *)
Definition empty_result (options : Options) : Result :=
  if default true (connectionFormat options)
  then Connection {| limit := Num 0; searchAfter := None;
                     nodeHits := []; globalCount := 0 |}
  else Plain [].

(** The rejection handler of the search promise.  An error that is not an
    engine response has no [meta], so reading its root causes throws. *)
Definition on_search_error (connectionFormat : bool) (err : Exn) : M (list Event) Result :=
  match err with
  | ResponseError root_cause =>
      let numberOfCauses := length root_cause in
      let invalidMappingCauses := List.filter is_mapping_cause (reason <$> root_cause) in
      if (length invalidMappingCauses <? numberOfCauses)%nat then
        _ ← log (LogError "[ELASTICSEARCH] Paginate fail" err);
        throw err
      else
        mret (if connectionFormat
              then Connection {| limit := Num 0; searchAfter := None;
                                 nodeHits := []; globalCount := 0 |}
              else Plain [])
  | _ => throw TypeError
  end.

Definition search_after_of (options : Options) : option SortKey :=
  match after options with
  | Some c => if bool_decide (c = "") then None else Some (cursorToOffset c)
  | None => None
  end.

(** The request [elPaginate] builds (the constant request settings are
    left out). *)
Definition paginate_query (user : User) (indexName : string) (options : Options)
  : Request :=
  let first := first_or_default options in
  let searchAfter := search_after_of options in
  let clauses := clauses user options in
  let querySize := querySize first in
  let body := {| size := querySize; sort := ordering clauses;
                 query_must := must clauses; query_must_not := mustnot clauses;
                 search_after := searchAfter |} in
  {| index := indexName; track_total_hits := true; body := body |}.

Definition elPaginate (user : User) (indexName : string) (options : Options)
  : M (list Event) Result :=
  let first := first_or_default options in
  let connectionFormat := default true (connectionFormat options) in
  let searchAfter := search_after_of options in
  let query := paginate_query user indexName options in
  if (ES_MAX_PAGINATION conf <? size (body query))%Z then
    throw (AppError DatabaseError
             ("You cannot ask for more than " +:+ pretty (ES_MAX_PAGINATION conf)
              +:+ " results. If you need more, please use pagination"))
  else
    _ ← log (LogDebug "[ELASTICSEARCH] paginate");
    response ← el_search query;
    match response with
    | Data hits total =>
        match convert_all hits with
        | inr convertedHits =>
            mret (if connectionFormat
                  then Connection {| limit := first; searchAfter := searchAfter;
                                     nodeHits := convertedHits; globalCount := total |}
                  else Plain convertedHits)
        | inl e => on_search_error connectionFormat e
        end
    | Rejected root_cause => on_search_error connectionFormat (ResponseError root_cause)
    end.

End WithEngine.

End Paginate.

(** ** Date histogram *)

Module Histogram.
Import Access.

Record Filter := {
  isRelation : option bool;
  isNested : option bool;
  type : string;
  value : string;
  operator : option string;
}.

Record DateHistogram := {
  field : string;
  calendar_interval : string;
  format : string;
  keyed : bool;
}.

Record Request := {
  must : list Query.t;
  must_not : list Query.t;
  count_over_time : DateHistogram;
}.

Inductive Event :=
| LogDebug (message : string)
| Search (query : Request).

Record Bucket := { date : string; value_ : Z }.

(** [s.split('.')[0]]. *)
Fixpoint before_dot (s : string) : string :=
  match s with
  | EmptyString => EmptyString
  | String c rest => if Ascii.eqb c "."%char then EmptyString else String c (before_dot rest)
  end.

Section WithEngine.
Context `{Schema}.
(** The engine's answer: the keyed buckets with their document counts, or a
    rejection. *)
Context (engine : Request → Exn + list (string * Z)).

Definition histogramFilter (f : Filter) : Query.t :=
  if default false (isNested f) then
    let path := before_dot (type f) in
    Query.Nested path (Query.Bool [Query.MatchPhrase (type f) (value f)] [] [] None)
  else
    let key := type f +:+ ".keyword" in
    let key := if bool_decide (default "eq" (operator f) = "wilcard") then type f else key in
    let key :=
      if default false (isRelation f)
      then buildRefRelationSearchKey (if bool_decide (type f = "") then "*" else type f)
      else key in
    Query.MultiMatch [key] (value f).

Definition dateFormatOf (interval : string) : Exn + string :=
  if bool_decide (interval = "year") then inr "yyyy"
  else if bool_decide (interval = "month") then inr "yyyy-MM"
  else if bool_decide (interval = "day") then inr "yyyy-MM-dd"
  else inl (AppError FunctionalError
              "Unsupported interval, please choose between year, month or day").

(** The request sent once the interval is accepted. *)
Definition histogram_query (user : User) (type : option string)
    (field interval dateFormat : string) (start end_ : string)
    (toTypes : list string) (filters : list Filter) : Request :=
  let histogramFilters := histogramFilter <$> filters in
  let baseFilters := [Query.Range field [("gte", start); ("lte", end_)]] in
  let baseFilters :=
    match type with
    | Some t => if bool_decide (t = "") then baseFilters
                else baseFilters ++ [Query.type_clause t]
    | None => baseFilters
    end in
  let typesFilters :=
    for_push toTypes (λ t, [Query.MatchPhrase "connections.types.keyword" t]) in
  let baseFilters :=
    if (0 <? length typesFilters)%nat
    then baseFilters
         ++ [Query.Nested "connections" (Query.Bool [] [] typesFilters (Some 1))]
    else baseFilters in
  let must := baseFilters ++ histogramFilters in
  let markingRestrictions := buildMarkingRestriction user in
  let must := must ++ Query.must markingRestrictions in
  {| must := must;
     must_not := Query.must_not markingRestrictions;
     count_over_time :=
       {| field := field; calendar_interval := interval;
          format := dateFormat; keyed := true |} |}.

(** The filters are mapped first, the interval is checked next, and only
    then is the request built and sent. *)
Definition elHistogramCount (user : User) (type : option string) (field interval : string)
    (start end_ : string) (toTypes : list string) (filters : list Filter)
  : M (list Event) (list Bucket) :=
  match dateFormatOf interval with
  | inl e => throw e
  | inr dateFormat =>
      let query :=
        histogram_query user type field interval dateFormat start end_ toTypes filters in
      _ ← modify (λ t, t ++ [LogDebug "[ELASTICSEARCH] histogramCount"]);
      _ ← modify (λ t, t ++ [Search query]);
      match engine query with
      | inl e => throw e
      | inr buckets => mret ((λ b, {| date := b.1; value_ := b.2 |}) <$> buckets)
      end
  end.

End WithEngine.

End Histogram.

(** ** Cache-augmented lookup *)

Module Lookup.
Import Access.

Section WithSchema.
Context `{Schema} `{Collaborators}.

(** The filter [loadFromCache] applies to each cached value. *)
Definition cache_accessible (user : User) (type : option string)
    (instance : option Element.t) : bool :=
  match instance with
  | None => false
  | Some instance =>
      let isUserHaveAccess :=
        if isBypass user then true
        else
          let dataMarkings := or_empty (Element.object_marking_refs instance) in
          let userMarkings := internal_id <$> allowed_marking user in
          (length dataMarkings =? 0)%nat
          || forallb (λ m, includes userMarkings m) dataMarkings in
      if isUserHaveAccess then
        let dataTypes :=
          Element.entity_type instance :: getParentTypes (Element.entity_type instance) in
        match type with
        | Some t => negb (negb (bool_decide (t = "")) && negb (includes dataTypes t))
        | None => true
        end
      else false
  end.

Record Cached := { cached : list string; accessible : list (string * Element.t) }.

Definition loadFromCache (user : User) (id : list (option string)) (type : option string)
  : Cached :=
  let data := cacheGet id in
  let cachedValues := omap (λ e, e) (object_values (or_empty data)) in
  let cached := cachedValues ≫= getInstanceIds in
  let accessible :=
    List.filter (λ kv, cache_accessible user type kv.2) (or_empty data) in
  let uniqByInternal :=
    fold_left
      (λ o kv, match kv.2 with
               | Some v => obj_set (Element.internal_id v) v o
               | None => o
               end)
      accessible [] in
  {| cached := cached; accessible := uniqByInternal |}.

(** The engine: the documents matching a query, in the engine's order, at
    most [size] of them.  It answers from its documents, already converted;
    a rejected search (rethrown as a [DatabaseError]) does not arise. *)
Definition el_search (ds : list Element.t) (size : nat) (query : Query.t)
  : list Element.t :=
  take size (List.filter (λ e, Query.matches (indexed e) query) ds).

(** The query [elFindByIds] sends for one group of ids. *)
Definition find_query (user : User) (type : option string) (workingIds : list string)
  : Query.t :=
  let truthy_type := match type with
                     | Some t => negb (bool_decide (t = ""))
                     | None => false
                     end in
  let elementTypes :=
    [ID_INTERNAL; ID_STANDARD; IDS_STIX]
    ++ (if isStixObjectAliased type then [INTERNAL_IDS_ALIASES] else []) in
  let idsTermsPerType :=
    for_push workingIds (λ id,
      for_push elementTypes (λ elementType,
        [Query.Term (elementType +:+ ".keyword") id])) in
  let should := Query.Bool [] [] idsTermsPerType (Some 1) in
  let markingRestrictions := buildMarkingRestriction user in
  let mustTerms :=
    [should]
    ++ (if truthy_type then [Query.type_clause (default "" type)] else [])
    ++ Query.must markingRestrictions in
  Query.Bool mustTerms (Query.must_not markingRestrictions) [] None.

Definition search_groups (user : User) (type : option string)
    (groupIds : list (list string)) : M World (list (string * Element.t)) :=
  fold_left
    (λ acc workingIds,
       elasticHits ← acc;
       ds ← gets docs;
       let hits := el_search ds (Z.to_nat MAX_SEARCH_SIZE) (find_query user type workingIds) in
       let elasticHits :=
         fold_left (λ o element, obj_set (Element.internal_id element) element o)
                   hits elasticHits in
       _ ← emit (CacheSet (Element.internal_id <$> object_values elasticHits));
       mret elasticHits)
    groupIds (mret []).

(** [elFindByIds] with [toMap] left at its default: the values of the
    merged hits. *)
Definition elFindByIds (user : User) (ids : list (option string)) (type : option string)
  : M World (list Element.t) :=
  let processIds := omap (λ i, match i with
                              | Some s => if bool_decide (s = "") then None else Some s
                              | None => None
                              end) ids in
  if (length processIds =? 0)%nat then mret []
  else
    let c := loadFromCache user ids type in
    let cacheHits := accessible c in
    let remainingIds := List.filter (λ i, negb (includes (cached c) i)) processIds in
    elasticHits ←
      (if (0 <? length remainingIds)%nat
       then search_groups user type (splitEvery MAX_SPLIT remainingIds)
       else mret []);
    let hits := obj_merge cacheHits elasticHits in
    mret (object_values hits).

End WithSchema.

End Lookup.

(** ** Cascading deletion engine *)

Module Deletion.
Import Access.

(** A JavaScript [Map] object: its entries (written by [set], asked by
    [has]) and its own properties (read by [cache[k]]); [new Map()] has
    neither.  Internal ids are engine-assigned identifiers, never the name
    of an inherited member of [Map]. *)
Record JsMap := { props : gmap string value; entries : gmap string string }.

Definition new_Map : JsMap := {| props := ∅; entries := ∅ |}.

Definition map_set (k v : string) (c : JsMap) : JsMap :=
  {| props := props c; entries := <[k := v]> (entries c) |}.

Definition map_has (c : JsMap) (k : option string) : bool :=
  match k with
  | Some k => bool_decide (is_Some (entries c !! k))
  | None => false
  end.

Definition truthy (v : value) : bool :=
  match v with
  | VNull => false
  | VBool b => b
  | VNum z => negb (z =? 0)%Z
  | VStr s => negb (bool_decide (s = ""))
  | VArr _ | VObj _ => true
  end.

(** [!cache[f]]: the property [f] of the object is undefined or falsy. *)
Definition not_prop (c : JsMap) (f : string) : bool :=
  match props c !! f with
  | Some v => negb (truthy v)
  | None => true
  end.

Fixpoint foldM {W A S} (f : S → A → M W S) (l : list A) (s : S) : M W S :=
  match l with
  | [] => mret s
  | x :: l' => s' ← f s x; foldM f l' s'
  end.

Record Impact := { relation : Element.t; isFromCleanup : bool; isToCleanup : bool }.

Record Loaders (Loaded : Type) := { stixLoadById : User → string → M World Loaded }.
Arguments stixLoadById {Loaded} _ _ _.

Section WithSchema.
Context `{Schema} `{Collaborators} (conf : Config).

Definition UNIMPACTED_ENTITIES_ROLE : list string :=
  [ RELATION_CREATED_BY +:+ "_" +:+ ROLE_TO;
    RELATION_OBJECT_MARKING +:+ "_" +:+ ROLE_TO;
    RELATION_OBJECT_LABEL +:+ "_" +:+ ROLE_TO;
    RELATION_KILL_CHAIN_PHASE +:+ "_" +:+ ROLE_TO;
    RELATION_INDICATES +:+ "_" +:+ ROLE_TO ].

Definition isImpactedTypeAndSide (type side : string) : bool :=
  negb (includes UNIMPACTED_ENTITIES_ROLE (type +:+ "_" +:+ side)).

Definition isImpactedRole (role : string) : bool :=
  negb (includes UNIMPACTED_ENTITIES_ROLE role).

(** The options [getRelatedRelations] gives to the listing: the nested
    filter on the connections' ids and the relationship abstraction as type. *)
Definition related_options (elementIds : list string) : Paginate.Options :=
  let filters :=
    [ {| Paginate.Filter.key := "connections";
         Paginate.Filter.values := None;
         Paginate.Filter.nested :=
           Some [ {| Paginate.NestedFilter.key := "internal_id";
                     Paginate.NestedFilter.values := elementIds;
                     Paginate.NestedFilter.operator := None |} ];
         Paginate.Filter.operator := None;
         Paginate.Filter.filterMode := None |} ] in
  {| Paginate.ids := None; Paginate.first := Paginate.Omitted; Paginate.after := None;
     Paginate.orderBy := None; Paginate.orderMode := None;
     Paginate.types := Some [ABSTRACT_BASIC_RELATIONSHIP];
     Paginate.filters := Some filters; Paginate.filterMode := None;
     Paginate.search := None; Paginate.connectionFormat := Some false |}.

(** [elements.length < options.first]; the comparison with an omitted
    ([undefined]) [first] is false. *)
Definition shorter_than (n : nat) (first : Paginate.Count) : bool :=
  match first with
  | Paginate.Num k => (Z.of_nat n <? k)%Z
  | Paginate.Null => (Z.of_nat n <? 0)%Z
  | Paginate.Omitted => false
  end.

(** The loop of [elList] over the documents that match, in pages of
    [MAX_SEARCH_SIZE]: an empty page, or one shorter than [options.first],
    is the last.  Each page removes at least one document from what remains,
    so a [fuel] above their number is never exhausted. *)
Fixpoint list_pages (fuel : nat) (first : Paginate.Count) (remaining : list Element.t)
  : list Element.t :=
  match fuel with
  | O => []
  | S fuel =>
      let elements := take (Z.to_nat MAX_SEARCH_SIZE) remaining in
      if (length elements =? 0)%nat || shorter_than (length elements) first then elements
      else elements ++ list_pages fuel first (drop (Z.to_nat MAX_SEARCH_SIZE) remaining)
  end.

(** [elList] without a callback and without a starting cursor, over the
    engine's documents.  Every page is asked through [elPaginate] with
    [{ ...options, first: MAX_SEARCH_SIZE, connectionFormat: false }], whose
    page-size guard must accept it. *)
Definition elList (user : User) (options : Paginate.Options) : M World (list Element.t) :=
  let opts := Paginate.with_page (Paginate.Num MAX_SEARCH_SIZE) None false options in
  if (ES_MAX_PAGINATION conf <? Paginate.querySize (Paginate.first_or_default opts))%Z then
    throw (AppError DatabaseError
             ("You cannot ask for more than " +:+ pretty (ES_MAX_PAGINATION conf)
              +:+ " results. If you need more, please use pagination"))
  else
    ds ← gets docs;
    let clauses := Paginate.clauses user opts in
    let query :=
      Query.Bool (Paginate.must clauses) (Paginate.mustnot clauses) [] None in
    let matching := List.filter (λ e, Query.matches (indexed e) query) ds in
    mret (list_pages (S (length matching)) (Paginate.first options) matching).

(** One turn of the loop over [groupResults]. *)
Definition collect (level : nat)
    (st : list Element.t * JsMap * list string) (subRels : list Element.t)
  : list Element.t * JsMap * list string :=
  let '(elements, cache, foundRelations) := st in
  let elements := (Element.with_level level <$> subRels) ++ elements in
  let internalIds := Element.internal_id <$> subRels in
  let resolvedIds := List.filter (λ f, not_prop cache f) internalIds in
  let foundRelations := foundRelations ++ resolvedIds in
  let cache := fold_left (λ c id, map_set id "" c) resolvedIds cache in
  (elements, cache, foundRelations).

(** [elements] and [cache] are shared mutable objects: they are threaded
    through the calls.  The groups of one level are fetched one after the
    other ([Promise.map] may interleave up to [ES_MAX_CONCURRENCY] of them);
    [fuel] bounds the depth of the recursion. *)
Fixpoint getRelatedRelations (fuel : nat) (user : User) (targetIds : list string)
    (level : nat) (st : list Element.t * JsMap) : M World (list Element.t * JsMap) :=
  match fuel with
  | O => λ w, (OutOfFuel, w)
  | S fuel =>
      hits ← elList user (related_options targetIds);
      let groupResults := splitEvery MAX_JS_PARAMS hits in
      let '(elements, cache, foundRelations) :=
        fold_left (collect level) groupResults (st.1, st.2, []) in
      if (0 <? length foundRelations)%nat then
        let groups := splitEvery MAX_SPLIT foundRelations in
        foldM (λ st gIds, getRelatedRelations fuel user gIds (level + 1) st)
              groups (elements, cache)
      else mret (elements, cache)
  end.

Definition getRelationsToRemove (fuel : nat) (user : User) (elements : list Element.t)
  : M World (list Element.t * JsMap) :=
  let relationsToRemoveMap := new_Map in
  let relationsToRemove := [] in
  let ids := Element.internal_id <$> elements in
  getRelatedRelations fuel user ids 0 (relationsToRemove, relationsToRemoveMap).

(** The engine applying one bulk item to its documents; an update of a
    missing document is an item-level failure. *)
Definition addressed (idx id : string) (e : Element.t) : bool :=
  bool_decide (Element._index e = idx) && bool_decide (Element.internal_id e = id).

Definition run_script (s : Script) (e : Element.t) : Element.t :=
  match Element.refs e !! field s with
  | Some arr =>
      Element.with_refs
        (<[field s := List.filter (λ rel, negb (bool_decide (Some rel = key s))) arr]>
           (Element.refs e))
        e
  | None => e
  end.

Definition apply_op (st : list Element.t * bool) (op : BulkOp) : list Element.t * bool :=
  let '(ds, errors) := st in
  match op with
  | Update idx id script =>
      if existsb (addressed idx id) ds
      then ((λ e, if addressed idx id e then run_script script e else e) <$> ds, errors)
      else (ds, true)
  | Delete idx id => (List.filter (λ e, negb (addressed idx id e)) ds, errors)
  end.

Definition elBulk (body : list BulkOp) : M World unit :=
  _ ← emit (ElBulk body);
  ds ← gets docs;
  let '(ds', errors) := fold_left apply_op body (ds, false) in
  _ ← modify (λ w, {| docs := ds'; trace := trace w |});
  if errors then throw (AppError DatabaseError "Error updating elastic") else mret ().

Definition elDeleteInstanceIds (instances : list Element.t) : M World unit :=
  if (0 <? length instances)%nat then
    let bodyDelete :=
      instances ≫= (λ doc, [Delete (Element._index doc) (Element.internal_id doc)]) in
    _ ← emit (CacheDel (Element.internal_id <$> instances));
    elBulk bodyDelete
  else mret ().

Definition cleanup_update (indexCache : list (string * string)) (type : string)
    (cleanup : bool) (target other : option string) : list BulkOp :=
  match target with
  | Some id =>
      match prop_get indexCache id with
      | Some index =>
          if cleanup && negb (bool_decide (index = ""))
          then [Update index id {| field := type; key := other |}]
          else []
      | None => []
      end
  | None => []
  end.

Definition elRemoveRelationConnection (user : User) (relsFromTo : list Impact)
  : M World unit :=
  if (0 <? length relsFromTo)%nat then
    let idsToResolve :=
      uniq (relsFromTo ≫= (λ r,
        (if isFromCleanup r then [Element.fromId (relation r)] else [])
        ++ (if isToCleanup r then [Element.toId (relation r)] else []))) in
    dataIds ← Lookup.elFindByIds user idsToResolve None;
    let indexCache :=
      fold_left (λ o element, obj_set (Element.internal_id element) (Element._index element) o)
                dataIds [] in
    let bodyUpdate :=
      relsFromTo ≫= (λ r,
        let relation := relation r in
        let type := buildRefRelationKey (Element.entity_type relation) in
        cleanup_update indexCache type (isFromCleanup r)
          (Element.fromId relation) (Element.toId relation)
        ++ cleanup_update indexCache type (isToCleanup r)
          (Element.toId relation) (Element.fromId relation)) in
    _ ← emit (CacheDel (Element.internal_id <$> dataIds));
    elBulk bodyUpdate
  else mret ().

(** The cleanups decided for the relationships to remove and the basic
    relationships of the batch. *)
Definition relsFromToImpacts (elements relations : list Element.t)
    (relationsToRemoveMap : JsMap) : list Impact :=
  let basicCleanup :=
    List.filter (λ f, isBasicRelationship (Element.entity_type f)) elements in
  let cleanupRelations := relations ++ basicCleanup in
  List.filter (λ r, isFromCleanup r || isToCleanup r)
    ((λ r,
       let fromWillNotBeRemoved := negb (map_has relationsToRemoveMap (Element.fromId r)) in
       let isFromCleanup :=
         fromWillNotBeRemoved && isImpactedTypeAndSide (Element.entity_type r) ROLE_FROM in
       let toWillNotBeRemoved := negb (map_has relationsToRemoveMap (Element.toId r)) in
       let isToCleanup :=
         toWillNotBeRemoved && isImpactedTypeAndSide (Element.entity_type r) ROLE_TO in
       {| relation := r; isFromCleanup := isFromCleanup; isToCleanup := isToCleanup |})
     <$> cleanupRelations).

Definition elDeleteElements {Loaded} (fuel : nat) (user : User)
    (elements : list Element.t) (loaders : Loaders Loaded) : M World (list Loaded) :=
  if (length elements =? 0)%nat then mret []
  else
    '(relations, relationsToRemoveMap) ← getRelationsToRemove fuel user elements;
    let stixRelations :=
      List.filter (λ r, isStixRelationShipExceptMeta (Element.relationship_type r))
                  relations in
    dependencyDeletions ←
      mapM (λ r, stixLoadById loaders user (Element.internal_id r)) stixRelations;
    let impacts := relsFromToImpacts elements relations relationsToRemoveMap in
    let groupsOfRelsFromTo := splitEvery MAX_SPLIT impacts in
    _ ← mapM (elRemoveRelationConnection user) groupsOfRelsFromTo;
    let groupsOfDeletions := splitEvery MAX_SPLIT relations in
    _ ← mapM elDeleteInstanceIds groupsOfDeletions;
    _ ← elDeleteInstanceIds elements;
    mret dependencyDeletions.

End WithSchema.

End Deletion.

(** ** Sample users, documents and calls *)

Module Samples.
Import Access.

Definition tlp_green : Marking := {| internal_id := "m-green"; definition_type := "TLP" |}.
Definition tlp_red : Marking := {| internal_id := "m-red"; definition_type := "TLP" |}.
Definition pap_amber : Marking := {| internal_id := "m-pap"; definition_type := "PAP" |}.

Definition admin : User :=
  {| capabilities := Some [{| name := "KNOWLEDGE" |}; {| name := "BYPASS" |}];
     allowed_marking := []; all_marking := [tlp_green; tlp_red; pap_amber] |}.

Definition nobody : User :=
  {| capabilities := None; allowed_marking := [];
     all_marking := [tlp_green; tlp_red; pap_amber] |}.

Definition analyst : User :=
  {| capabilities := Some [{| name := "KNOWLEDGE" |}];
     allowed_marking := [tlp_green];
     all_marking := [tlp_green; tlp_red; pap_amber] |}.

Definition element (index id type : string) (ends : option (string * string))
    (marking : option (list string)) (refs : list (string * list string)) : Element.t :=
  {| Element._index := index; Element.internal_id := id;
     Element.standard_id := "standard--" +:+ id;
     Element.entity_type := type;
     Element.relationship_type := match ends with Some _ => Some type | None => None end;
     Element.fromId := fst <$> ends; Element.toId := snd <$> ends;
     Element.object_marking_refs := marking;
     Element.refs := list_to_map refs; Element.level := None |}.

(** Three tools of a malware: E uses X, X uses Y, each relationship
    denormalized on both of its ends. *)
Definition malware : Element.t :=
  element "entities" "E" "Malware" None None [("rel_uses.internal_id", ["X"])].
Definition tool : Element.t :=
  element "entities" "X" "Tool" None None [("rel_uses.internal_id", ["E"; "Y"])].
Definition other_tool : Element.t :=
  element "entities" "Y" "Tool" None None [("rel_uses.internal_id", ["X"])].
Definition uses : Element.t :=
  element "relations" "R" "uses" (Some ("E", "X")) None [].
Definition uses_other : Element.t :=
  element "relations" "S" "uses" (Some ("X", "Y")) None [].

Definition small_world : World :=
  {| docs := [malware; tool; other_tool; uses; uses_other]; trace := [] |}.

(** Two relationships referencing each other: A goes from the entity E to
    the relationship B, and B from the relationship A to the entity X. *)
Definition cyclic_e : Element.t :=
  element "entities" "E" "Malware" None None [("rel_related-to.internal_id", ["B"])].
Definition cyclic_x : Element.t :=
  element "entities" "X" "Tool" None None [("rel_related-to.internal_id", ["A"])].
Definition rel_a : Element.t :=
  element "relations" "A" "related-to" (Some ("E", "B")) None
          [("rel_related-to.internal_id", ["X"])].
Definition rel_b : Element.t :=
  element "relations" "B" "related-to" (Some ("A", "X")) None
          [("rel_related-to.internal_id", ["E"])].

Definition cyclic_world : World :=
  {| docs := [cyclic_e; cyclic_x; rel_a; rel_b]; trace := [] |}.

(** A relationship reachable along two paths: R2 references both the
    entity E and the relationship R1 of that entity. *)
Definition diamond_e : Element.t :=
  element "entities" "E" "Malware" None None [("rel_related-to.internal_id", ["X"; "R1"])].
Definition diamond_x : Element.t :=
  element "entities" "X" "Tool" None None [("rel_related-to.internal_id", ["E"])].
Definition rel_1 : Element.t :=
  element "relations" "R1" "related-to" (Some ("E", "X")) None
          [("rel_related-to.internal_id", ["E"])].
Definition rel_2 : Element.t :=
  element "relations" "R2" "related-to" (Some ("R1", "E")) None [].

Definition diamond_world : World :=
  {| docs := [diamond_e; diamond_x; rel_1; rel_2]; trace := [] |}.

Definition loaders : Deletion.Loaders string :=
  {| Deletion.stixLoadById := λ _ id, mret id |}.

(** A cached report marked red, and a cache holding it. *)
Definition red_report : Element.t :=
  element "entities" "P" "Report" None (Some ["m-red"]) [].
Definition green_report : Element.t :=
  element "entities" "G" "Report" None (Some ["m-green"]) [].

Definition warm_cache : Collaborators := {|
  indexed := indexed (Collaborators := platform_collaborators);
  cacheGet := λ ids, Some [("G", Some green_report); ("P", Some red_report); ("Z", None)];
  getInstanceIds := getInstanceIds (Collaborators := platform_collaborators);
|}.

(** Relationship objects handed to the indexer. *)
Definition endpoint (id type : string) : Codec.Entity.t :=
  {| Codec.Entity.internal_id := id; Codec.Entity.name := Some id;
     Codec.Entity.entity_type := type |}.

Definition thing (from to : option Codec.Entity.t) (fromRole toRole : option string)
  : Codec.Thing.t :=
  {| Codec.Thing.internal_id := "R"; Codec.Thing.entity_type := "uses";
     Codec.Thing.base_type := "RELATION";
     Codec.Thing.from := from; Codec.Thing.fromId := Codec.Entity.internal_id <$> from;
     Codec.Thing.fromRole := fromRole;
     Codec.Thing.to := to; Codec.Thing.toId := Codec.Entity.internal_id <$> to;
     Codec.Thing.toRole := toRole;
     Codec.Thing.fields := {[ "confidence" := VNum 80 ]} |}.

Definition uses_thing : Codec.Thing.t :=
  thing (Some (endpoint "E" "Malware")) (Some (endpoint "X" "Tool"))
        (Some "uses_from") (Some "uses_to").

Definition unresolved_thing : Codec.Thing.t :=
  thing None (Some (endpoint "X" "Tool")) (Some "uses_from") (Some "uses_to").

Definition odd_roles_thing : Codec.Thing.t :=
  thing (Some (endpoint "E" "Malware")) (Some (endpoint "X" "Tool"))
        (Some "source") (Some "target").

(** Pagination calls against an engine that has no index yet, and against
    one that fails for another reason. *)
Definition options (first : Paginate.Count) : Paginate.Options :=
    {| Paginate.ids := None; Paginate.first := first; Paginate.after := None;
       Paginate.orderBy := Some "created_at"; Paginate.orderMode := Some "desc";
       Paginate.types := Some ["Report"];
       Paginate.filters :=
         Some [ {| Paginate.Filter.key := "confidence";
                   Paginate.Filter.values := Some [Some "80"; None];
                   Paginate.Filter.nested := None;
                   Paginate.Filter.operator := Some "gte";
                   Paginate.Filter.filterMode := None |} ];
       Paginate.filterMode := None; Paginate.search := Some "apt 28/fancy";
       Paginate.connectionFormat := None |}.

Definition no_index : list RootCause :=
  [ {| reason := "no such index [opencti_stix_domain_objects]" |};
    {| reason := "No mapping found for [standard_id.keyword] in order to sort on" |} ].

Definition shard_failure : list RootCause :=
  [ {| reason := "no such index [opencti_stix_domain_objects]" |};
    {| reason := "all shards failed" |} ].

Definition rejecting (root_cause : list RootCause)
  : Paginate.Request (SortKey := string) → Paginate.Response (Hit := string) :=
  λ _, Paginate.Rejected root_cause.

Definition histogram_engine : Histogram.Request → Exn + list (string * Z) :=
  λ _, inr [("2021-01", 3%Z); ("2021-02", 5%Z)].

Definition cursor : string → string := λ c, c.

Definition converter : string → Exn + string := inr.

End Samples.

(** ** Streaming listing with a callback *)

Module Listing.
Import Access.

(** What the callback of a listing resolves to: [true], nothing
    ([undefined]), or any other value. *)
Inductive Answer := Yes | Nothing | Another.

(** [callbackResult === true || callbackResult === undefined]. *)
Definition goes_on (r : Answer) : bool :=
  match r with
  | Yes | Nothing => true
  | Another => false
  end.

(** A call that ends as the loop it runs ended. *)
Definition ended {W A} (o : Outcome A) : M W A := λ w, (o, w).

Section WithSchema.
Context `{Schema} `{Collaborators} (conf : Config).
(** The callback works on a state of its own, [Consumer]; it leaves the
    engine's documents alone. *)
Context {Consumer : Type}.

(** What a listing leaves: the array it returns, the state of the
    consumer, and the number of pages asked of the engine. *)
Record Listed := {
  listing : list Element.t;
  consumer : Consumer;
  pages : nat;
}.

(** [publish]: with a callback the elements go to it and its answer
    decides whether the loop goes on; without one they are added to the
    listing. *)
Definition publish (callback : option (list Element.t → Consumer → Answer * Consumer))
    (elements : list Element.t) (listing : list Element.t) (c : Consumer)
  : list Element.t * Consumer * bool :=
  match callback with
  | Some callback =>
      let '(callbackResult, c) := callback elements c in
      (listing, c, goes_on callbackResult)
  | None => (listing ++ elements, c, true)
  end.

(** The [while] loop, entered with both flags set.  [remaining] are the
    matching documents after the cursor; [fuel] bounds the number of turns. *)
Fixpoint loop (fuel : nat)
    (callback : option (list Element.t → Consumer → Answer * Consumer))
    (first : Paginate.Count) (remaining : list Element.t)
    (listing : list Element.t) (c : Consumer) (pages : nat) : Outcome Listed :=
  match fuel with
  | O => OutOfFuel
  | S fuel =>
      let elements := take (Z.to_nat MAX_SEARCH_SIZE) remaining in
      let pages := S pages in
      if (length elements =? 0)%nat || Deletion.shorter_than (length elements) first then
        if (0 <? length elements)%nat then
          let '(listing, c, _) := publish callback elements listing c in
          Return {| listing := listing; consumer := c; pages := pages |}
        else Return {| listing := listing; consumer := c; pages := pages |}
      else
        let '(listing, c, continueProcess) := publish callback elements listing c in
        if continueProcess then
          loop fuel callback first (drop (Z.to_nat MAX_SEARCH_SIZE) remaining) listing c pages
        else Return {| listing := listing; consumer := c; pages := pages |}
  end.

(** [elList] without a starting cursor, over the engine's documents, with
    the callback of the options given apart.  Each page is asked through
    [elPaginate] with [{ ...options, first: MAX_SEARCH_SIZE, after,
    connectionFormat: false }], whose page-size guard must accept it. *)
Definition elList (user : User) (options : Paginate.Options)
    (callback : option (list Element.t → Consumer → Answer * Consumer)) (c : Consumer)
  : M World Listed :=
  let opts := Paginate.with_page (Paginate.Num MAX_SEARCH_SIZE) None false options in
  if (ES_MAX_PAGINATION conf <? Paginate.querySize (Paginate.first_or_default opts))%Z then
    throw (AppError DatabaseError
             ("You cannot ask for more than " +:+ pretty (ES_MAX_PAGINATION conf)
              +:+ " results. If you need more, please use pagination"))
  else
    ds ← gets docs;
    let clauses := Paginate.clauses user opts in
    let query :=
      Query.Bool (Paginate.must clauses) (Paginate.mustnot clauses) [] None in
    let matching := List.filter (λ e, Query.matches (indexed e) query) ds in
    ended (loop (S (length matching)) callback (Paginate.first options) matching [] c 0).

End WithSchema.


End Listing.

(** ** Counting, aggregations and the other lookups *)

(** Further names the module imports from [./utils] and [../schema/general],
    and the runtime's [toLowerCase]. *)
Class Utils := {
  pascalize : string → string;
  isAbstract : string → bool;
  toLowerCase : string → string;
}.

Definition MAX_AGGREGATION_SIZE : Z := 100.
Definition MAX_SEARCH_AGGREGATION_SIZE : Z := 10000.

(** [s.endsWith(suffix)]. *)
Definition str_ends_with (suffix s : string) : bool :=
  String.prefix (String.rev suffix) (String.rev s).

(** *** [elCount] *)

Module Count.
Import Access.

(** The options of a count; an option left out, or [null], is [None]. *)
Record Options := {
  endDate : option string;
  types : option (list string);
  relationshipType : option string;
  authorId : option string;
  fromId : option string;
  toTypes : option (list string);
  isMetaRelationship : option bool;
}.

Record Request := { index : string; must : list Query.t; must_not : list Query.t }.

Inductive Event :=
| LogDebug (message : string)
| Count (query : Request).

Section WithEngine.
Context `{Schema}.
(** The engine's answer to a count: [data.body.count], or a rejection. *)
Context (engine : Request → Exn + Z).

(** The date bound carries the format [strict_date_optional_time], a
    setting of how the engine reads it. *)
Definition end_clause (endDate : option string) : list Query.t :=
  match endDate with
  | Some endDate => [Query.Range "created_at" [("lt", endDate)]]
  | None => []
  end.

Definition types_clause (types : option (list string)) : list Query.t :=
  match types with
  | Some types =>
      if (0 <? length types)%nat then
        let should := (λ typeValue, Query.type_clause typeValue) <$> types in
        [Query.Bool [] [] should (Some 1)]
      else []
  | None => []
  end.

Definition relationship_clause (relationshipType : option string)
    (isMetaRelationship : bool) : list Query.t :=
  match relationshipType with
  | Some relationshipType =>
      if negb isMetaRelationship then
        [Query.Bool [] []
           [Query.MatchPhrase "relationship_type.keyword" relationshipType] None]
      else []
  | None => []
  end.

Definition author_clause (authorId : option string) (isMetaRelationship : bool)
  : list Query.t :=
  match authorId with
  | Some authorId =>
      if negb isMetaRelationship then
        [Query.Bool [] []
           [Query.MatchPhrase (buildRefRelationSearchKey RELATION_CREATED_BY) authorId] None]
      else []
  | None => []
  end.

(** For a meta relationship the id is looked for under the reference key of
    the relationship type; a type left out reaches the key builder as
    [null], which a template literal spells out. *)
Definition from_clause (fromId relationshipType : option string)
    (isMetaRelationship : bool) : list Query.t :=
  match fromId with
  | Some fromId =>
      if isMetaRelationship then
        [Query.Bool [] []
           [Query.MatchPhrase
              (buildRefRelationSearchKey (default "null" relationshipType)) fromId] None]
      else
        [Query.Nested "connections"
           (Query.Bool [Query.MatchPhrase "connections.internal_id.keyword" fromId]
              [] [] None)]
  | None => []
  end.

Definition to_types_clause (toTypes : option (list string)) : list Query.t :=
  match toTypes with
  | Some toTypes =>
      let filters :=
        for_push toTypes (λ t, [Query.MatchPhrase "connections.types.keyword" t]) in
      [Query.Nested "connections" (Query.Bool [] [] filters (Some 1))]
  | None => []
  end.

Definition count_query (user : User) (indexName : string) (options : Options) : Request :=
  let isMetaRelationship := default false (isMetaRelationship options) in
  let markingRestrictions := buildMarkingRestriction user in
  let must := Query.must markingRestrictions in
  let must := must ++ end_clause (endDate options) in
  let must := must ++ types_clause (types options) in
  let must := must ++ relationship_clause (relationshipType options) isMetaRelationship in
  let must := must ++ author_clause (authorId options) isMetaRelationship in
  let must :=
    must ++ from_clause (fromId options) (relationshipType options) isMetaRelationship in
  let must := must ++ to_types_clause (toTypes options) in
  {| index := indexName; must := must;
     must_not := Query.must_not markingRestrictions |}.

Definition elCount (user : User) (indexName : string) (options : Options)
  : M (list Event) Z :=
  let query := count_query user indexName options in
  _ ← modify (λ t, t ++ [LogDebug "[ELASTICSEARCH] countEntities"]);
  _ ← modify (λ t, t ++ [Count query]);
  match engine query with
  | inr count => mret count
  | inl _ => throw (AppError DatabaseError "Count data fail")
  end.

End WithEngine.

End Count.

(** *** [elAggregationCount] *)

Module Aggregation.
Import Access.

Record Request := {
  size : Z;
  must : list Query.t;
  must_not : list Query.t;
  should : list Query.t;
  minimum_should_match : nat;
  terms_field : string;
  terms_size : Z;
}.

Record Bucket := { key : string; doc_count : Z }.

Record Counted := { label : string; value : Z }.

Inductive Event :=
| LogDebug (message : string)
| Search (query : Request).

Section WithEngine.
Context `{Schema} `{Utils}.
Context (engine : Request → Exn + list Bucket).

(** [start && end] on two dates given as texts. *)
Definition haveRange (start end_ : option string) : bool :=
  Paginate.nonempty start && Paginate.nonempty end_.

Definition aggregation_query (user : User) (type aggregationField : string)
    (start end_ : option string) (filters : list Histogram.Filter) : Request :=
  let dateFilter :=
    if haveRange start end_
    then [Query.Range "created_at" [("gte", default "" start); ("lte", default "" end_)]]
    else [] in
  let histoFilters :=
    (λ f,
       let key :=
         if default false (Histogram.isRelation f)
         then buildRefRelationSearchKey
                (if bool_decide (Histogram.type f = "") then "*" else Histogram.type f)
         else Histogram.type f +:+ ".keyword" in
       Query.MultiMatch [key] (Histogram.value f)) <$> filters in
  let must := dateFilter ++ histoFilters in
  let markingRestrictions := buildMarkingRestriction user in
  let must := must ++ Query.must markingRestrictions in
  {| size := MAX_SEARCH_AGGREGATION_SIZE;
     must := must;
     must_not := Query.must_not markingRestrictions;
     should := [ Query.MatchPhrase "entity_type.keyword" type;
                 Query.MatchPhrase "parent_types.keyword" type ];
     minimum_should_match := 1;
     terms_field := aggregationField +:+ ".keyword";
     terms_size := MAX_AGGREGATION_SIZE |}.

Definition elAggregationCount (user : User) (type aggregationField : string)
    (start end_ : option string) (filters : list Histogram.Filter)
  : M (list Event) (list Counted) :=
  let isIdFields := str_ends_with "internal_id" aggregationField in
  let query := aggregation_query user type aggregationField start end_ filters in
  _ ← modify (λ t, t ++ [LogDebug "[ELASTICSEARCH] aggregationCount"]);
  _ ← modify (λ t, t ++ [Search query]);
  match engine query with
  | inr buckets =>
      mret ((λ b, {| label := if isIdFields then key b else pascalize (key b);
                     value := doc_count b |}) <$> buckets)
  | inl _ => throw (AppError DatabaseError "Aggregation fail")
  end.

End WithEngine.

End Aggregation.

(** *** [elFindByFromAndTo], [elLoadById] and [elBatchIds] *)

Module Finders.
Import Access.

Section WithSchema.
Context `{Schema} `{Collaborators}.

Definition from_and_to_query (user : User) (fromId toId relationshipType : string)
  : Query.t :=
  let markingRestrictions := buildMarkingRestriction user in
  let mustTerms := Query.must markingRestrictions in
  let mustTerms :=
    mustTerms
    ++ [Query.Nested "connections"
          (Query.Bool [Query.MatchPhrase "connections.internal_id.keyword" fromId]
             [] [] None)] in
  let mustTerms :=
    mustTerms
    ++ [Query.Nested "connections"
          (Query.Bool [Query.MatchPhrase "connections.internal_id.keyword" toId]
             [] [] None)] in
  let mustTerms := mustTerms ++ [Query.type_clause relationshipType] in
  Query.Bool mustTerms (Query.must_not markingRestrictions) [] None.

(** The relationships between two elements, answered by the engine's
    documents as [Lookup.el_search] has them. *)
Definition elFindByFromAndTo (user : User) (fromId toId relationshipType : string)
  : M World (list Element.t) :=
  ds ← gets docs;
  mret (Lookup.el_search ds (Z.to_nat MAX_SEARCH_SIZE)
          (from_and_to_query user fromId toId relationshipType)).

Definition elLoadById (user : User) (id : option string) (type : option string)
  : M World (option Element.t) :=
  hits ← Lookup.elFindByIds user [id] type;
  if (1 <? length hits)%nat then throw (AppError DatabaseError "Expect only one response")
  else mret (head hits).

(** One slot per asked id: the hit with that internal id, or nothing. *)
Definition elBatchIds (user : User) (ids : list (option string))
  : M World (list (option Element.t)) :=
  hits ← Lookup.elFindByIds user ids None;
  mret ((λ id, find (λ h, bool_decide (Some (Element.internal_id h) = id)) hits) <$> ids).

End WithSchema.

End Finders.

(** *** [elAggregationRelationsCount] *)

Module RelationsCount.
Import Access.

(** The options of the call; an option left out is [None], and [fromId] and
    [field] are [None] for [null] as well. *)
Record Options := {
  startDate : option string;
  endDate : option string;
  toTypes : option (list string);
  dateAttribute : option string;
  fromId : option string;
  field : option string;
  isTo : option bool;
  noDirection : option bool;
}.

(** The request: the query, the [must] of the filter aggregation over the
    connections, and the terms aggregation under it. *)
Record Request := {
  size : Z;
  must : list Query.t;
  must_not : list Query.t;
  filtered : list Query.t;
  terms_size : Z;
  terms_field : string;
}.

(** The engine's answer, as far as it is read: the connections of the
    source of each hit, and the buckets of the terms aggregation. *)
Record Answer := {
  hits : list (list Codec.Connection.t);
  buckets : list Aggregation.Bucket;
}.

Inductive Event :=
| LogDebug (message : string)
| Search (query : Request).

(** [promise.catch(handler)]. *)
Definition catch {W A} (m : M W A) (handler : Exn → M W A) : M W A := λ w,
  match m w with
  | (Throw e, w') => handler e w'
  | r => r
  end.

(** A call on the engine's documents, within a call that also logs. *)
Definition in_world {T A} (m : M World A) : M (World * T) A := λ s,
  let '(o, w) := m s.1 in (o, (w, s.2)).

Section WithEngine.
Context `{Schema} `{Collaborators} `{Utils}.
Context (engine : Request → Exn + Answer).

Definition log (ev : Event) : M (World * list Event) unit :=
  modify (λ s, (s.1, s.2 ++ [ev])).

(** [R.includes(field, ['entity_type', 'internal_id', null])]. *)
Definition supported (field : option string) : bool :=
  match field with
  | Some field => bool_decide (field = "entity_type") || bool_decide (field = "internal_id")
  | None => true
  end.

Definition date_filter (dateAttribute : string) (start end_ : option string)
  : list Query.t :=
  if Paginate.nonempty start && Paginate.nonempty end_ then
    [Query.Range dateAttribute [("gte", default "" start); ("lte", default "" end_)]]
  else if Paginate.nonempty start then
    [Query.Range dateAttribute [("gte", default "" start)]]
  else if Paginate.nonempty end_ then
    [Query.Range dateAttribute [("lte", default "" end_)]]
  else [].

Definition relations_query (user : User) (type : string) (options : Options) : Request :=
  let toTypes := or_empty (toTypes options) in
  let dateAttribute := default "created_at" (dateAttribute options) in
  let isTo := default false (isTo options) in
  let noDirection := default false (noDirection options) in
  let roleFilter :=
    Query.QueryString (if negb isTo then "*_to" else "*_from") false ["connections.role"] in
  let filters := date_filter dateAttribute (startDate options) (endDate options) in
  let filters :=
    if Paginate.nonempty (fromId options) then
      filters
      ++ [Query.Nested "connections"
            (Query.Bool
               [Query.MatchPhrase "connections.internal_id" (default "" (fromId options))]
               [] [] None)]
    else filters in
  let typesFilters := for_push toTypes (λ t, [Query.MatchPhrase "connections.types" t]) in
  let filters :=
    if (0 <? length typesFilters)%nat then
      filters ++ [Query.Nested "connections" (Query.Bool [] [] typesFilters (Some 1))]
    else filters in
  let must := [Query.type_clause type] ++ filters in
  let markingRestrictions := buildMarkingRestriction user in
  let must := must ++ Query.must markingRestrictions in
  {| size := MAX_SEARCH_AGGREGATION_SIZE;
     must := must;
     must_not := Query.must_not markingRestrictions;
     filtered := if (0 <? length typesFilters)%nat && negb noDirection
                 then [roleFilter] else [];
     terms_size := MAX_AGGREGATION_SIZE;
     terms_field := if bool_decide (field options = Some "internal_id")
                    then "connections.internal_id.keyword"
                    else "connections.types.keyword" |}.

(** The types kept from the hits: those of the connections that are
    neither the pivot nor of its type (and of the first asked type, when
    types are asked for), once each, the abstract ones left out, in lower
    case. *)
Definition relation_types (toTypes : list string) (fromId fromType : option string)
    (hits : list (list Codec.Connection.t)) : list string :=
  let connections := mjoin hits in
  let connections :=
    List.filter
      (λ c, negb (bool_decide (Some (Codec.Connection.internal_id c) = fromId))
            && negb (match fromType with
                     | Some fromType => includes (Codec.Connection.types c) fromType
                     | None => false
                     end))
      connections in
  let connections :=
    List.filter
      (λ c, (length toTypes =? 0)%nat
            || match head toTypes with
               | Some t => includes (Codec.Connection.types c) t
               | None => false
               end)
      connections in
  let types := connections ≫= Codec.Connection.types in
  let types := uniq types in
  let types := List.filter (λ f, negb (isAbstract f)) types in
  toLowerCase <$> types.

(** The handler of the answer.  Reading the type of a pivot that was not
    found throws. *)
Definition counted (user : User) (options : Options) (data : Answer)
  : M (World * list Event) (list Aggregation.Counted) :=
  let toTypes := or_empty (toTypes options) in
  let fromId := fromId options in
  if bool_decide (field options = Some "internal_id") then
    let filteredBuckets :=
      List.filter (λ b, negb (bool_decide (Some (Aggregation.key b) = fromId)))
        (buckets data) in
    mret ((λ b, {| Aggregation.label := Aggregation.key b;
                   Aggregation.value := Aggregation.doc_count b |}) <$> filteredBuckets)
  else
    fromType ←
      (if Paginate.nonempty fromId then
         fromEntity ← in_world (Finders.elLoadById user fromId None);
         match fromEntity with
         | Some fromEntity => mret (Some (Element.entity_type fromEntity))
         | None => throw TypeError
         end
       else mret None);
    let types := relation_types toTypes fromId fromType (hits data) in
    let filteredBuckets :=
      List.filter (λ b, includes types (Aggregation.key b)) (buckets data) in
    mret ((λ b, {| Aggregation.label := pascalize (Aggregation.key b);
                   Aggregation.value := Aggregation.doc_count b |}) <$> filteredBuckets).

Definition elAggregationRelationsCount (user : User) (type : string) (options : Options)
  : M (World * list Event) (list Aggregation.Counted) :=
  if negb (supported (field options)) then
    throw (AppError FunctionalError "Unsupported field")
  else
    let query := relations_query user type options in
    _ ← log (LogDebug "[ELASTICSEARCH] aggregationRelationsCount");
    _ ← log (Search query);
    catch (match engine query with
           | inr data => counted user options data
           | inl e => throw e
           end)
          (λ _, throw (AppError DatabaseError "Fail processing AggregationRelationsCount")).

End WithEngine.

End RelationsCount.

(** ** Write orchestrator: preparing and indexing elements *)

Module Indexing.
Import Access.

Definition ES_RETRY_ON_CONFLICT : Z := 5.

(** [isEmptyField] of [./utils], as the lookups read it: [null] and the
    empty text, array and object are empty. *)
Definition isEmptyField (v : value) : bool :=
  match v with
  | VNull => true
  | VStr s => bool_decide (s = "")
  | VArr l => bool_decide (l = [])
  | VObj o => bool_decide (o = ∅)
  | VBool _ | VNum _ => false
  end.

(** [R.dissoc(key, o)]. *)
Definition dissoc {V} (key : string) (o : list (string * V)) : list (string * V) :=
  List.filter (λ kv, negb (bool_decide (kv.1 = key))) o.

(** [{ ...thing, fields }]. *)
Definition with_fields (fields : gmap string value) (thing : Codec.Thing.t) : Codec.Thing.t :=
  {| Codec.Thing.internal_id := Codec.Thing.internal_id thing;
     Codec.Thing.entity_type := Codec.Thing.entity_type thing;
     Codec.Thing.base_type := Codec.Thing.base_type thing;
     Codec.Thing.from := Codec.Thing.from thing;
     Codec.Thing.fromId := Codec.Thing.fromId thing;
     Codec.Thing.fromRole := Codec.Thing.fromRole thing;
     Codec.Thing.to := Codec.Thing.to thing;
     Codec.Thing.toId := Codec.Thing.toId thing;
     Codec.Thing.toRole := Codec.Thing.toRole thing;
     Codec.Thing.fields := fields |}.

(** The attributes of an element that the codec reads by name. *)
Definition named_attributes : list string :=
  ["internal_id"; "entity_type"; "base_type";
   "from"; "fromId"; "fromRole"; "to"; "toId"; "toRole"].

(** A document ready for the index. *)
Inductive Prepared :=
| PreparedRelation (concept : Codec.Concept.t)
| PreparedEntity (thing : Codec.Thing.t).

Definition fields_of (doc : Prepared) : gmap string value :=
  match doc with
  | PreparedRelation concept => Codec.Concept.fields concept
  | PreparedEntity thing => Codec.Thing.fields thing
  end.

Definition internal_id_of (doc : Prepared) : string :=
  match doc with
  | PreparedRelation concept => Codec.Concept.internal_id concept
  | PreparedEntity thing => Codec.Thing.internal_id thing
  end.

(** [R.dissoc('_index', doc)]. *)
Definition without_index (doc : Prepared) : Prepared :=
  match doc with
  | PreparedRelation concept =>
      PreparedRelation
        {| Codec.Concept.internal_id := Codec.Concept.internal_id concept;
           Codec.Concept.entity_type := Codec.Concept.entity_type concept;
           Codec.Concept.base_type := Codec.Concept.base_type concept;
           Codec.Concept.connections := Codec.Concept.connections concept;
           Codec.Concept.fields := delete "_index" (Codec.Concept.fields concept) |}
  | PreparedEntity thing =>
      PreparedEntity (with_fields (delete "_index" (Codec.Thing.fields thing)) thing)
  end.

(** The scripted update that adds references:
    [source] with the ids to add per reference field as [params]. *)
Record AddScript := { source : string; params : list (string * list string) }.

Inductive Op :=
| Index (_index : option value) (_id : string) (doc : Prepared)
| Update (_index : option string) (_id : string) (script : AddScript).

Inductive Event :=
| Bulk (body : list Op)
| CacheDel (ids : list string).

(** An impact of a relationship on one of its ends: the id of the end, the
    type of the relationship and the element on the other side. *)
Record Impact := {
  from : option string;
  relationshipType : string;
  to : option Codec.Entity.t;
}.

Record Target := { relation : string; elements : list string }.

(** A statement of the script [elReplace] writes, and its text. *)
Inductive Statement :=
| Remove (key : string)
| Assign (key : string).

Definition render (s : Statement) : string :=
  match s with
  | Remove key => "ctx._source.remove('" +:+ key +:+ "')"
  | Assign key => "ctx._source['" +:+ key +:+ "'] = params['" +:+ key +:+ "']"
  end.

(** What the engine does to a stored document on one statement: [remove]
    deletes the attribute, an assignment sets it to the parameter of the
    same name. *)
Definition run_statement (params : list (string * value)) (stored : gmap string value)
    (s : Statement) : gmap string value :=
  match s with
  | Remove key => delete key stored
  | Assign key => <[key := default VNull (prop_get params key)]> stored
  end.

(** The update [elReplace] hands to [elUpdate]. *)
Record Replacement := {
  index : option value;
  id : option value;
  retry_on_conflict : Z;
  replace_source : string;
  replace_params : list (string * value);
}.

Section WithSchema.
Context `{Schema} `{Utils}.
(** [isBooleanAttribute] of [../schema/fieldDataAdapter]; the index of a
    resolved end (its [_index], which the codec does not read); and whether
    the engine accepts a bulk request. *)
Context (isBooleanAttribute : string → bool).
Context (index_of : Codec.Entity.t → option string).
Context (accepted : list Op → bool).

(** One attribute of [prepareElementForIndexing]: an array loses its falsy
    entries; a boolean attribute given as a text becomes a boolean, and one
    given as anything else that has no [toLowerCase] throws. *)
Definition prepare_attribute (key : string) (v : value) : Exn + value :=
  match v with
  | VArr items =>
      let filteredArray := List.filter Deletion.truthy items in
      inr (VArr (if (0 <? length filteredArray)%nat then filteredArray else []))
  | _ =>
      if isBooleanAttribute key then
        match v with
        | VBool b => inr (VBool b)
        | VNull => inr (VBool false)
        | VStr s => inr (VBool (bool_decide (toLowerCase s = "true")))
        | _ => inl TypeError
        end
      else inr v
  end.

(** [prepareElementForIndexing] on the attributes of an element, in the
    order [Object.keys] lists them (each key once). *)
Fixpoint prepareElementForIndexing (element : list (string * value))
  : Exn + list (string * value) :=
  match element with
  | [] => inr []
  | (key, v) :: rest =>
      match prepare_attribute key v with
      | inl e => inl e
      | inr v =>
          match prepareElementForIndexing rest with
          | inl e => inl e
          | inr thing => inr ((key, v) :: thing)
          end
      end
  end.

(** The same on an element handed to the indexer.  Its named attributes
    are texts and objects: where none of [named_attributes] is a boolean
    attribute of the schema, they pass as they are. *)
Definition prepare_thing (element : Codec.Thing.t) : Exn + Codec.Thing.t :=
  match prepareElementForIndexing (map_to_list (Codec.Thing.fields element)) with
  | inl e => inl e
  | inr thing => inr (with_fields (list_to_map thing) element)
  end.

Definition prepareEntity (thing : Codec.Thing.t) : Codec.Thing.t :=
  with_fields (delete INTERNAL_FROM_FIELD (delete INTERNAL_TO_FIELD (Codec.Thing.fields thing)))
              thing.

Definition prepare_one (element : Codec.Thing.t) : Exn + Prepared :=
  match prepare_thing element with
  | inl e => inl e
  | inr thing =>
      if bool_decide (Codec.Thing.base_type thing = BASE_TYPE_RELATION) then
        match Codec.prepareRelation thing with
        | inl e => inl e
        | inr concept => inr (PreparedRelation concept)
        end
      else inr (PreparedEntity (prepareEntity thing))
  end.

Fixpoint prepareIndexing (elements : list Codec.Thing.t) : Exn + list Prepared :=
  match elements with
  | [] => inr []
  | element :: rest =>
      match prepare_one element with
      | inl e => inl e
      | inr doc =>
          match prepareIndexing rest with
          | inl e => inl e
          | inr docs => inr (doc :: docs)
          end
      end
  end.

(** An id used as a property name. *)
Definition as_key (id : option string) : string := default "undefined" id.

(** The impacts of the relationships of a batch, in the order of the batch,
    the impact on the from side first. *)
Definition impacts_of (e : Codec.Thing.t) : list Impact :=
  let relationshipType := Codec.Thing.entity_type e in
  (if Deletion.isImpactedRole (as_key (Codec.Thing.fromRole e))
   then [{| from := Codec.Thing.fromId e; relationshipType := relationshipType;
            to := Codec.Thing.to e |}]
   else [])
  ++ (if Deletion.isImpactedRole (as_key (Codec.Thing.toRole e))
      then [{| from := Codec.Thing.toId e; relationshipType := relationshipType;
               to := Codec.Thing.from e |}]
      else []).

Definition relations_of (elements : list Codec.Thing.t) : list Codec.Thing.t :=
  List.filter (λ e, bool_decide (Codec.Thing.base_type e = BASE_TYPE_RELATION)) elements.

Definition impactedEntities (elements : list Codec.Thing.t)
  : list (string * list Impact) :=
  groupBy (λ i, as_key (from i)) (relations_of elements ≫= impacts_of).

(** [cache[e.fromId] = e.from; cache[e.toId] = e.to], for each relationship
    in turn. *)
Definition ends_cache (elements : list Codec.Thing.t)
  : list (string * option Codec.Entity.t) :=
  fold_left
    (λ cache e,
       obj_set (as_key (Codec.Thing.toId e)) (Codec.Thing.to e)
         (obj_set (as_key (Codec.Thing.fromId e)) (Codec.Thing.from e) cache))
    (relations_of elements) [].

(** [data.map(d => d.to.internal_id)]. *)
Fixpoint resolvedData (data : list Impact) : Exn + list string :=
  match data with
  | [] => inr []
  | d :: rest =>
      match to d with
      | None => inl TypeError
      | Some to =>
          match resolvedData rest with
          | inl e => inl e
          | inr ids => inr (Codec.Entity.internal_id to :: ids)
          end
      end
  end.

Fixpoint targetsElements (targetsByRelation : list (string * list Impact))
  : Exn + list Target :=
  match targetsByRelation with
  | [] => inr []
  | (relType, data) :: rest =>
      match resolvedData data with
      | inl e => inl e
      | inr resolved =>
          match targetsElements rest with
          | inl e => inl e
          | inr ts => inr ({| relation := relType; elements := resolved |} :: ts)
          end
      end
  end.

Definition add_script (targets : list Target) : AddScript :=
  let sources :=
    (λ t,
       let field := buildRefRelationKey (relation t) in
       let createIfNotExist :=
         "if (ctx._source['" +:+ field +:+ "'] == null) ctx._source['" +:+ field
         +:+ "'] = [];" in
       let addAllElements :=
         "ctx._source['" +:+ field +:+ "'].addAll(params['" +:+ field +:+ "'])" in
       createIfNotExist +:+ " " +:+ addAllElements) <$> targets in
  let source :=
    if (1 <? length sources)%nat then String.concat ";" sources
    else default "undefined" (head sources) +:+ ";" in
  let params :=
    fold_left (λ params t, obj_set (buildRefRelationKey (relation t)) (elements t) params)
              targets [] in
  {| source := source; params := params |}.

(** The update of one impacted entity: the index of the cached end, the id
    of the entity and the script. *)
Definition element_update (cache : list (string * option Codec.Entity.t))
    (entry : string * list Impact) : Exn + Op :=
  let '(entityId, targets) := entry in
  let entity := default None (prop_get cache entityId) in
  let targetsByRelation := groupBy relationshipType targets in
  match targetsElements targetsByRelation with
  | inl e => inl e
  | inr ts => inr (Update (entity ≫= index_of) entityId (add_script ts))
  end.

Fixpoint elementsToUpdate (cache : list (string * option Codec.Entity.t))
    (impacted : list (string * list Impact)) : Exn + list Op :=
  match impacted with
  | [] => inr []
  | entry :: rest =>
      match element_update cache entry with
      | inl e => inl e
      | inr op =>
          match elementsToUpdate cache rest with
          | inl e => inl e
          | inr ops => inr (op :: ops)
          end
      end
  end.

Definition lift {A} (r : Exn + A) : M (list Event) A :=
  match r with
  | inl e => throw e
  | inr a => mret a
  end.

Definition emit (ev : Event) : M (list Event) unit := modify (λ t, t ++ [ev]).

(** [elBulk]: an answer with item errors, or a rejection, comes out as the
    [DatabaseError] of the rejection handler. *)
Definition elBulk (body : list Op) : M (list Event) unit :=
  _ ← emit (Bulk body);
  if accepted body then mret () else throw (AppError DatabaseError "Error updating elastic").

Definition updated_id (op : Op) : list string :=
  match op with
  | Update _ id _ => [id]
  | Index _ _ _ => []
  end.

Definition elIndexElements (elements : list Codec.Thing.t) : M (list Event) nat :=
  transformedElements ← lift (prepareIndexing elements);
  let body :=
    (λ doc, Index (fields_of doc !! "_index") (internal_id_of doc) (without_index doc))
      <$> transformedElements in
  _ ← (if (0 <? length body)%nat then elBulk body else mret ());
  let cache := ends_cache elements in
  bodyUpdate ← lift (elementsToUpdate cache (impactedEntities elements));
  _ ← (if (0 <? length bodyUpdate)%nat then
         _ ← emit (Bulk bodyUpdate);
         _ ← emit (CacheDel (bodyUpdate ≫= updated_id));
         if accepted bodyUpdate then mret ()
         else throw (AppError DatabaseError "Error updating elastic")
       else mret ());
  mret (length transformedElements).

(** *** [elReplace] *)

(** The statements of the script of a replacement: an empty attribute is
    removed from the stored document, any other is assigned from the
    parameters. *)
Definition statement_of (entry : string * value) : Statement :=
  let '(key, val) := entry in
  if isEmptyField val then Remove key else Assign key.

Definition elReplace (indexName : option value) (documentId : option value)
    (doc : list (string * value)) : Replacement :=
  let doc := dissoc "_index" doc in
  let rawSources := (λ entry, render (statement_of entry)) <$> doc in
  let source := String.concat ";" rawSources in
  {| index := indexName; id := documentId; retry_on_conflict := ES_RETRY_ON_CONFLICT;
     replace_source := source; replace_params := doc |}.

End WithSchema.

End Indexing.

(** ** What a cleanup may do to a document *)

(** A document after cleanups: the same element, where reference arrays
    have lost entries at most. *)
Definition pruned (e e' : Element.t) : Prop :=
  ∃ refs',
    e' = Element.with_refs refs' e
    ∧ ∀ f, match Element.refs e !! f, refs' !! f with
           | Some l, Some l' => l' `sublist_of` l
           | None, None => True
           | _, _ => False
           end.

(** Every document of [ds'] is a pruned document of [ds]. *)
Definition pruned_docs (ds ds' : list Element.t) : Prop :=
  ∀ e', e' ∈ ds' → ∃ e, e ∈ ds ∧ pruned e e'.

(** ** Further sample inputs *)

Module Fixtures.
Import Access.

Definition lower (c : ascii) : ascii :=
  let n := nat_of_ascii c in
  if (65 <=? n)%nat && (n <=? 90)%nat then ascii_of_nat (n + 32) else c.

Definition upper (c : ascii) : ascii :=
  let n := nat_of_ascii c in
  if (97 <=? n)%nat && (n <=? 122)%nat then ascii_of_nat (n - 32) else c.

Fixpoint map_chars (f : ascii → ascii) (s : string) : string :=
  match s with
  | EmptyString => EmptyString
  | String c rest => String (f c) (map_chars f rest)
  end.

(** Sample helpers in the style of the platform's: a first letter in upper
    case for [pascalize], the abstract types of the schema, and lower case
    within the ASCII range. *)
Definition platform_utils : Utils := {|
  pascalize := λ s,
    match s with
    | EmptyString => EmptyString
    | String c rest => String (upper c) (map_chars lower rest)
    end;
  isAbstract := λ t,
    bool_decide (t ∈ ["Basic-Object"; "Stix-Object"; "Stix-Core-Object";
                      "Stix-Domain-Object"; "basic-relationship"; "stix-relationship";
                      "stix-core-relationship"; "stix-meta-relationship"]);
  toLowerCase := map_chars lower;
|}.

Definition isBooleanAttribute : string → bool :=
  λ key, bool_decide (key ∈ ["revoked"; "x_opencti_detection"]).

(** A report marked green, indexed with its marking, and a user holding
    the green and the red marking. *)
Definition marked_report : Element.t :=
  Samples.element "entities" "M" "Report" None (Some ["m-green"])
    [("rel_object-marking.internal_id", ["m-green"])].

Definition senior : User :=
  {| capabilities := Some [{| name := "KNOWLEDGE" |}];
     allowed_marking := [Samples.tlp_green; Samples.tlp_red];
     all_marking := [Samples.tlp_green; Samples.tlp_red; Samples.pap_amber] |}.

Definition library : World :=
  {| docs := [marked_report; Samples.green_report]; trace := [] |}.

(** The marked report as a document whose dates are within every range. *)
Definition dated_report : Query.Document :=
  {| Query.values :=
       Query.values (indexed (Collaborators := platform_collaborators) marked_report);
     Query.query_string := λ _ _ _, false;
     Query.in_range := λ _ _ _, true |}.

Definition reports : Paginate.Options :=
  {| Paginate.ids := None; Paginate.first := Paginate.Num 50; Paginate.after := None;
     Paginate.orderBy := None; Paginate.orderMode := None;
     Paginate.types := Some ["Report"];
     Paginate.filters := None; Paginate.filterMode := None;
     Paginate.search := None; Paginate.connectionFormat := Some false |}.

Definition count_reports : Count.Options :=
  {| Count.endDate := None; Count.types := Some ["Report"];
     Count.relationshipType := None; Count.authorId := None; Count.fromId := None;
     Count.toTypes := None; Count.isMetaRelationship := None |}.


(** Aggregations over the relationships of E. *)
Definition by_field (field : option string) : RelationsCount.Options :=
  {| RelationsCount.startDate := None; RelationsCount.endDate := None;
     RelationsCount.toTypes := Some ["Tool"]; RelationsCount.dateAttribute := None;
     RelationsCount.fromId := Some "E"; RelationsCount.field := field;
     RelationsCount.isTo := None; RelationsCount.noDirection := None |}.

Definition relations_answer : RelationsCount.Answer :=
  {| RelationsCount.hits :=
       [ [ {| Codec.Connection.internal_id := "E"; Codec.Connection.name := Some "E";
              Codec.Connection.types := ["Malware"; "Stix-Domain-Object"];
              Codec.Connection.role := Some "uses_from" |};
           {| Codec.Connection.internal_id := "X"; Codec.Connection.name := Some "X";
              Codec.Connection.types := ["Tool"; "Stix-Domain-Object"];
              Codec.Connection.role := Some "uses_to" |} ] ];
     RelationsCount.buckets :=
       [ {| Aggregation.key := "E"; Aggregation.doc_count := 1 |};
         {| Aggregation.key := "X"; Aggregation.doc_count := 1 |} ] |}.

Definition relations_engine : RelationsCount.Request → Exn + RelationsCount.Answer :=
  λ _, inr relations_answer.

(** Elements handed to the indexer: a report with a text for a boolean, an
    array with a hole and an internal dependency field, and the relationship
    of the samples with its index. *)
Definition report_attributes : list (string * value) :=
  [ ("_index", VStr "entities"); ("name", VStr "Report");
    ("labels", VArr [VStr "apt"; VNull; VStr ""]);
    ("revoked", VStr "TRUE"); ("description", VStr "") ].

Definition report_thing : Codec.Thing.t :=
  {| Codec.Thing.internal_id := "P"; Codec.Thing.entity_type := "Report";
     Codec.Thing.base_type := "ENTITY";
     Codec.Thing.from := None; Codec.Thing.fromId := None; Codec.Thing.fromRole := None;
     Codec.Thing.to := None; Codec.Thing.toId := None; Codec.Thing.toRole := None;
     Codec.Thing.fields :=
       <["i_relations_from" := VObj ∅]> (list_to_map report_attributes) |}.

Definition uses_thing : Codec.Thing.t :=
  Indexing.with_fields
    {[ "_index" := VStr "relations"; "confidence" := VNum 80 ]} Samples.uses_thing.

Definition index_of : Codec.Entity.t → option string := λ _, Some "entities".

Definition accepted : list Indexing.Op → bool := λ _, true.

Definition stored_report : gmap string value :=
  {[ "name" := VStr "Draft"; "description" := VStr "To be written";
     "created" := VStr "2021-01-01" ]}.

End Fixtures.

(** * Properties *)

Import Access.

(** ** Loops and grouping *)

Lemma fold_push_bind {A B} (body : A → list B) (l : list A) (acc : list B) :
  fold_left (λ acc x, acc ++ body x) l acc = acc ++ (l ≫= body).
Proof.
  revert acc. induction l as [|a l IH]; intros acc; simpl.
  - by rewrite app_nil_r.
  - by rewrite IH, <- app_assoc.
Qed.

Lemma elem_of_for_push {A B} (body : A → list B) (l : list A) (y : B) :
  y ∈ for_push l body ↔ ∃ x, x ∈ l ∧ y ∈ body x.
Proof.
  unfold for_push. rewrite fold_push_bind. simpl.
  rewrite list_elem_of_bind. naive_solver.
Qed.

Lemma prop_get_group_add {A} (k k' : string) (x : A) o :
  or_empty (prop_get (group_add k x o) k')
  = or_empty (prop_get o k') ++ (if bool_decide (k = k') then [x] else []).
Proof.
  induction o as [|[k0 g] o IH]; simpl.
  - repeat case_bool_decide; simplify_eq; done.
  - repeat (case_bool_decide; simpl; simplify_eq); try done.
    all: by rewrite ?app_nil_r.
Qed.

Lemma keys_group_add {A} (k k' : string) (x : A) o :
  k' ∈ object_keys (group_add k x o) ↔ k' = k ∨ k' ∈ object_keys o.
Proof.
  unfold object_keys. induction o as [|[k0 g] o IH]; simpl.
  - set_solver.
  - case_bool_decide; simplify_eq; simpl; set_solver.
Qed.

Lemma prop_get_fold_group {A} (key : A → string) (l : list A) o k :
  or_empty (prop_get (fold_left (λ o x, group_add (key x) x o) l o) k)
  = or_empty (prop_get o k) ++ filter (λ x, key x = k) l.
Proof.
  revert o. induction l as [|a l IH]; intros o; simpl.
  - by rewrite app_nil_r.
  - rewrite IH, prop_get_group_add, <- app_assoc. f_equal.
    rewrite filter_cons. by repeat case_decide; case_bool_decide.
Qed.

Lemma keys_fold_group {A} (key : A → string) (l : list A) o k :
  k ∈ object_keys (fold_left (λ o x, group_add (key x) x o) l o)
  ↔ k ∈ object_keys o ∨ ∃ x, x ∈ l ∧ key x = k.
Proof.
  revert o. induction l as [|a l IH]; intros o; simpl.
  - set_solver.
  - rewrite IH, keys_group_add. set_solver.
Qed.

(** Reading a group of [R.groupBy] (with the [|| []] guard) gives the items
    of that key, in order. *)
Lemma groupBy_get {A} (key : A → string) (l : list A) (k : string) :
  or_empty (prop_get (groupBy key l) k) = filter (λ x, key x = k) l.
Proof. unfold groupBy. by rewrite prop_get_fold_group. Qed.

Lemma groupBy_keys {A} (key : A → string) (l : list A) (k : string) :
  k ∈ object_keys (groupBy key l) ↔ ∃ x, x ∈ l ∧ key x = k.
Proof. unfold groupBy. rewrite keys_fold_group. set_solver. Qed.

(** A key listed by [Object.keys] is defined on the object: the unguarded
    read [allGroupedMarkings[markingGroup]] never yields [undefined]. *)
Lemma prop_get_object_keys {V} (o : list (string * V)) (k : string) :
  k ∈ object_keys o → is_Some (prop_get o k).
Proof.
  unfold object_keys. induction o as [|[k0 v] o IH]; simpl.
  - set_solver.
  - case_bool_decide; [eauto|]. set_solver.
Qed.

(** ** Access filter builder *)

Section AccessFacts.
Context `{Schema}.

Lemma isBypass_holds (user : User) : isBypass user = true ↔ holds_bypass user.
Proof.
  unfold isBypass, holds_bypass.
  destruct (find _ _) as [c|] eqn:Hf; split; try done.
  - intros _. apply find_some in Hf as [Hin Hc].
    exists c. rewrite list_elem_of_In. by apply bool_decide_eq_true in Hc.
  - intros (c & Hin & Hc). apply list_elem_of_In in Hin.
    pose proof (find_none _ _ Hf c Hin) as Hn. simpl in Hn.
    by apply bool_decide_eq_false in Hn.
Qed.

(** The ids collected by the per-group loop are exactly the ids of the
    forbidden markings. *)
Lemma mustNotHaveOneOf_forbidden (user : User) (m : string) :
  (∃ markings, markings ∈ mustNotHaveOneOf user ∧ m ∈ markings)
  ↔ ∃ M, forbidden_marking user M ∧ internal_id M = m.
Proof.
  unfold mustNotHaveOneOf, forbidden_marking. split.
  - intros (markings & Hin & Hm).
    apply elem_of_for_push in Hin as (g & Hg & Hres).
    rewrite !groupBy_get in Hres.
    destruct (0 <? _)%nat; [|set_solver].
    apply list_elem_of_singleton in Hres as ->.
    apply list_elem_of_In, filter_In in Hm as [Hall Hnot].
    apply list_elem_of_In, list_elem_of_fmap in Hall as (M & -> & HM).
    apply list_elem_of_filter in HM as [HMg HM].
    exists M. split; [split; [done|]|done].
    intros Ha. apply negb_true_iff, bool_decide_eq_false in Hnot.
    apply Hnot, list_elem_of_fmap. exists M. split; [done|].
    by apply list_elem_of_filter.
  - intros (M & [Hall Hnot] & <-).
    set (g := definition_type M).
    set (res := List.filter
      (λ m, negb (includes
         (internal_id <$> or_empty (prop_get (groupBy definition_type (allowed_marking user)) g)) m))
      (internal_id <$> or_empty (prop_get (groupBy definition_type (all_marking user)) g))).
    assert (Hres : internal_id M ∈ res).
    { unfold res. rewrite !groupBy_get.
      apply list_elem_of_In, filter_In. split.
      - apply list_elem_of_In, list_elem_of_fmap. exists M. split; [done|].
        by apply list_elem_of_filter.
      - apply negb_true_iff, bool_decide_eq_false.
        intros (a & Hid & Ha)%list_elem_of_fmap.
        apply list_elem_of_filter in Ha as [Hag Ha].
        apply Hnot. destruct a, M; simpl in *; fold g in Hag. by simplify_eq. }
    exists res. split; [|done].
    apply elem_of_for_push. exists g. split.
    + apply groupBy_keys. by exists M.
    + fold res. destruct res; [by apply not_elem_of_nil in Hres|]. simpl. set_solver.
Qed.

Lemma forallb_negb_matches (d : Query.Document) (qs : list Query.t) :
  forallb (λ c, negb (Query.matches d c)) qs = true
  ↔ ∀ q, q ∈ qs → Query.matches d q = false.
Proof.
  rewrite forallb_forall. setoid_rewrite list_elem_of_In.
  by setoid_rewrite negb_true_iff.
Qed.

(** A "must not have one of" term matches when the document carries one of
    the listed ids under the field. *)
Lemma matches_any_of (d : Query.Document) (f : string) (ids : list string) :
  Query.matches d (Query.Bool [] [] (Query.Match f <$> ids) (Some 1)) = true
  ↔ ∃ m, m ∈ ids ∧ m ∈ Query.values d f.
Proof.
  cbn [Query.matches forallb andb default]. rewrite Nat.leb_le. split.
  - intros Hlen.
    destruct (List.filter _ _) as [|q qs] eqn:Hf; [simpl in Hlen; lia|].
    assert (Hq : In q (List.filter (Query.matches d) (Query.Match f <$> ids)))
      by (rewrite Hf; left; done).
    apply filter_In in Hq as [Hq Hm].
    apply list_elem_of_In, list_elem_of_fmap in Hq as (m & -> & Hin).
    exists m. split; [done|]. by apply bool_decide_eq_true in Hm.
  - intros (m & Hin & Hd).
    assert (Hq : In (Query.Match f m) (List.filter (Query.matches d) (Query.Match f <$> ids))).
    { apply filter_In. split.
      - apply list_elem_of_In, list_elem_of_fmap. eauto.
      - simpl. by apply bool_decide_eq_true. }
    destruct (List.filter _ _); [done|simpl; lia].
Qed.

Lemma matches_markingBool (user : User) (d : Query.Document) :
  Query.matches d (markingBool user) = true
  ↔ Query.values d (buildRefRelationSearchKey RELATION_OBJECT_MARKING) = []
    ∨ ∀ M, forbidden_marking user M →
        internal_id M ∉ Query.values d (buildRefRelationSearchKey RELATION_OBJECT_MARKING).
Proof.
  set (sk := buildRefRelationSearchKey RELATION_OBJECT_MARKING).
  assert (Hterms :
    forallb (λ c, negb (Query.matches d c)) (mustNotMarkingTerms user) = true
    ↔ ∀ M, forbidden_marking user M → internal_id M ∉ Query.values d sk).
  { rewrite forallb_negb_matches. split.
    - intros Hno M HM Hd.
      destruct (proj2 (mustNotHaveOneOf_forbidden user (internal_id M)))
        as (markings & Hin & Hm); [by exists M|].
      specialize (Hno (Query.Bool [] [] (Query.Match sk <$> markings) (Some 1))).
      rewrite (proj2 (matches_any_of d sk markings)) in Hno by eauto.
      assert (true = false) as Habs; [|done]. apply Hno.
      apply elem_of_for_push. exists markings. split; [done|]. set_solver.
    - intros Hno q Hq. apply elem_of_for_push in Hq as (markings & Hin & Hq).
      apply list_elem_of_singleton in Hq as ->.
      apply not_true_iff_false. rewrite matches_any_of.
      intros (m & Hm & Hd).
      destruct (proj1 (mustNotHaveOneOf_forbidden user m)) as (M & HM & <-); [eauto|].
      by apply (Hno M). }
  unfold markingBool. fold sk. cbn [Query.matches forallb List.filter andb default].
  destruct (bool_decide (Query.values d sk ≠ [])) eqn:Hex; simpl.
  - apply bool_decide_eq_true in Hex.
    destruct (forallb _ (mustNotMarkingTerms user)) eqn:Hall; simpl.
    + split; [|done]. intros _. right. by apply Hterms.
    + split; [done|]. intros [?|Hno]; [done|]. apply Hterms in Hno. congruence.
  - apply bool_decide_eq_false in Hex.
    split; [|by destruct (forallb _ _)]. intros _. left.
    destruct (Query.values d sk); [done|]. by destruct Hex.
Qed.

(** C1. The access filter builder returns empty fragments for a user holding
    the bypass capability; for a user without bypass and without allowed
    markings, exactly one must-not-exist clause on the marking-reference
    field; otherwise fragments under which a document is visible iff it
    carries no marking reference at all or none of the forbidden markings
    (markings of the universe the user lacks), whatever their group. *)
Theorem buildMarkingRestriction_spec (user : User) :
  (holds_bypass user →
     buildMarkingRestriction user = {| Query.must := []; Query.must_not := [] |})
  ∧ (¬ holds_bypass user → allowed_marking user = [] →
     buildMarkingRestriction user
     = {| Query.must := [];
          Query.must_not := [Query.Exists (buildRefRelationKey RELATION_OBJECT_MARKING)] |})
  ∧ (¬ holds_bypass user → allowed_marking user ≠ [] →
     ∀ d : Query.Document,
       Query.visible d (buildMarkingRestriction user) = true
       ↔ Query.values d (buildRefRelationSearchKey RELATION_OBJECT_MARKING) = []
         ∨ ∀ M, forbidden_marking user M →
             internal_id M ∉ Query.values d (buildRefRelationSearchKey RELATION_OBJECT_MARKING)).
Proof.
  unfold buildMarkingRestriction. split; [|split].
  - intros Hb%isBypass_holds. by rewrite Hb.
  - intros Hb Hnil. rewrite <- isBypass_holds in Hb.
    apply not_true_is_false in Hb. by rewrite Hb, Hnil.
  - intros Hb Hne d. rewrite <- isBypass_holds in Hb.
    apply not_true_is_false in Hb. rewrite Hb.
    destruct (allowed_marking user) eqn:Ha; [done|].
    cbn [length Nat.eqb]. rewrite <- (matches_markingBool user d).
    unfold Query.visible. cbn [Query.must Query.must_not forallb].
    by rewrite !andb_true_r.
Qed.

End AccessFacts.

Lemma buildMarkingRestriction_witness :
  buildMarkingRestriction (H := platform_schema) Samples.admin
  = {| Query.must := []; Query.must_not := [] |}
  ∧ buildMarkingRestriction (H := platform_schema) Samples.nobody
    = {| Query.must := [];
         Query.must_not := [Query.Exists "rel_object-marking.internal_id"] |}
  ∧ ∀ d : Query.Document,
      Query.visible d (buildMarkingRestriction (H := platform_schema) Samples.analyst) = true
      ↔ Query.values d "rel_object-marking.internal_id.keyword" = []
        ∨ ∀ M, Access.forbidden_marking Samples.analyst M →
            Access.internal_id M ∉ Query.values d "rel_object-marking.internal_id.keyword".
Proof.
  destruct (buildMarkingRestriction_spec (H := platform_schema) Samples.admin) as [Ha _].
  destruct (buildMarkingRestriction_spec (H := platform_schema) Samples.nobody) as (_ & Hn & _).
  destruct (buildMarkingRestriction_spec (H := platform_schema) Samples.analyst) as (_ & _ & Hy).
  split; [|split].
  - apply Ha. exists {| Access.name := "BYPASS" |}. split; [|done].
    simpl. apply list_elem_of_In. right. by left.
  - apply Hn; [|done]. intros Hb%isBypass_holds. by vm_compute in Hb.
  - apply Hy; [|done]. intros Hb%isBypass_holds. by vm_compute in Hb.
Defined.

(** ** Cache-augmented lookup *)

Section LookupFacts.
Context `{Schema} `{Collaborators}.

Lemma cache_accessible_markings (user : User) (type : option string) (e : Element.t) :
  ¬ holds_bypass user →
  Lookup.cache_accessible user type (Some e) = true →
  ∀ m, m ∈ or_empty (Element.object_marking_refs e) →
       m ∈ internal_id <$> allowed_marking user.
Proof.
  intros Hb Hacc m Hm. rewrite <- isBypass_holds in Hb.
  apply not_true_is_false in Hb. unfold Lookup.cache_accessible in Hacc.
  rewrite Hb in Hacc.
  destruct (_ || _) eqn:Haccess in Hacc; [|done].
  apply orb_true_iff in Haccess as [Hlen|Hall].
  - apply Nat.eqb_eq in Hlen.
    destruct (or_empty _); [by apply not_elem_of_nil in Hm|done].
  - rewrite forallb_forall in Hall.
    apply list_elem_of_In, Hall in Hm. by apply bool_decide_eq_true in Hm.
Qed.

Lemma elem_of_obj_set {V} (k k' : string) (v v' : V) (o : list (string * V)) :
  (k', v') ∈ obj_set k v o → v' = v ∨ (k', v') ∈ o.
Proof.
  induction o as [|[k0 v0] o IH]; simpl.
  - intros [= -> ->]%list_elem_of_singleton. by left.
  - case_bool_decide; set_solver.
Qed.

Lemma accessible_from_cache (user : User) (id : list (option string))
    (type : option string) (k : string) (e : Element.t) :
  (k, e) ∈ Lookup.accessible (Lookup.loadFromCache user id type) →
  ∃ k', (k', Some e) ∈ or_empty (cacheGet id)
        ∧ Lookup.cache_accessible user type (Some e) = true.
Proof.
  unfold Lookup.loadFromCache. simpl.
  set (kept := List.filter _ _).
  assert (Hkept : ∀ kv, kv ∈ kept →
            kv ∈ or_empty (cacheGet id) ∧ Lookup.cache_accessible user type kv.2 = true).
  { intros kv Hkv. by apply list_elem_of_In, filter_In in Hkv as [?%list_elem_of_In ?]. }
  clearbody kept.
  assert (Hgen : ∀ o,
    (k, e) ∈ fold_left
      (λ o kv, match kv.2 with
               | Some v => obj_set (Element.internal_id v) v o
               | None => o
               end) kept o →
    (k, e) ∈ o ∨ ∃ k', (k', Some e) ∈ kept).
  { induction kept as [|[k0 v0] kept IH]; intros o; simpl; [by left|].
    intros Hin. apply IH in Hin as [Hin|(k' & Hin)].
    - destruct v0 as [v0|]; simpl in Hin; [|by left].
      apply elem_of_obj_set in Hin as [->|Hin]; [|by left].
      right. exists k0. by left.
    - right. exists k'. by right.
    - intros kv Hkv. apply Hkept. by right. }
  intros Hin. apply Hgen in Hin as [Hin|(k' & Hin)]; [by apply not_elem_of_nil in Hin|].
  exists k'. by apply (Hkept (k', Some e)).
Qed.

Lemma find_query_visible (user : User) (type : option string) (ids : list string)
    (d : Query.Document) :
  Query.matches d (Lookup.find_query user type ids) = true →
  Query.visible d (buildMarkingRestriction user) = true.
Proof.
  unfold Lookup.find_query, Query.visible.
  cbn [Query.matches]. rewrite !andb_true_iff, !forallb_app, !andb_true_iff.
  naive_solver.
Qed.

Lemma search_groups_hits (user : User) (type : option string)
    (groupIds : list (list string)) (w : World) :
  ∃ hits w',
    Lookup.search_groups user type groupIds w = (Return hits, w')
    ∧ docs w' = docs w
    ∧ ∀ kv, kv ∈ hits →
        kv.2 ∈ docs w
        ∧ Query.visible (indexed kv.2) (buildMarkingRestriction user) = true.
Proof.
  unfold Lookup.search_groups.
  set (step := λ (acc : M World (list (string * Element.t))) workingIds, _).
  assert (Hgen : ∀ (acc : M World (list (string * Element.t))),
    (∃ hits w', acc w = (Return hits, w') ∧ docs w' = docs w
       ∧ ∀ kv, kv ∈ hits → kv.2 ∈ docs w
           ∧ Query.visible (indexed kv.2) (buildMarkingRestriction user) = true) →
    ∃ hits w', fold_left step groupIds acc w = (Return hits, w') ∧ docs w' = docs w
       ∧ ∀ kv, kv ∈ hits → kv.2 ∈ docs w
           ∧ Query.visible (indexed kv.2) (buildMarkingRestriction user) = true).
  { induction groupIds as [|g groupIds IH]; intros acc Hacc; simpl; [done|].
    apply IH. destruct Hacc as (hits & w1 & Hrun & Hdocs & Hhits).
    unfold step. unfold mbind, M_bind. rewrite Hrun. simpl.
    eexists _, _. split; [done|]. split; [done|].
    rewrite Hdocs. clear Hrun.
    set (found := Lookup.el_search _ _ _).
    assert (Hfound : ∀ e, e ∈ found → e ∈ docs w
              ∧ Query.visible (indexed e) (buildMarkingRestriction user) = true).
    { intros e He. unfold found, Lookup.el_search in He.
      apply subseteq_take, list_elem_of_In, filter_In in He as [Hd Hm].
      split; [by apply list_elem_of_In|]. by eapply find_query_visible. }
    clearbody found. revert hits Hhits.
    induction found as [|e found IHf]; intros hits Hhits; simpl; [done|].
    apply IHf.
    - intros e' He'. apply Hfound. by right.
    - intros [k' v'] [->|Hkv]%elem_of_obj_set; [|by apply Hhits].
      apply Hfound. by left. }
  apply Hgen. exists [], w. split; [done|]. split; [done|].
  intros kv Hkv. by apply not_elem_of_nil in Hkv.
Qed.

Lemma elem_of_obj_merge {V} (o1 o2 : list (string * V)) (kv : string * V) :
  kv ∈ obj_merge o1 o2 → (∃ k, (k, kv.2) ∈ o1) ∨ (∃ k, (k, kv.2) ∈ o2).
Proof.
  unfold obj_merge. revert o1.
  induction o2 as [|[k v] o2 IH]; intros o1; simpl.
  - destruct kv. left. eauto.
  - intros Hin. apply IH in Hin as [(k' & Hin)|(k' & Hin)].
    + apply elem_of_obj_set in Hin as [->|Hin]; [|eauto].
      right. exists k. by left.
    + right. exists k'. by right.
Qed.

(** C9. For a user without the bypass capability, a value of the cache is
    kept by [loadFromCache] only if every marking id it carries is one of
    the user's allowed marking ids; so every element [elFindByIds] returns
    is either such a cached value or a hit of the engine, which passed the
    restriction of the index path.  A cached element with a marking the
    user does not hold is never returned from the cache, whatever the group
    of that marking. *)
Theorem elFindByIds_cache_path (user : User) (ids : list (option string))
    (type : option string) (w w' : World) (hits : list Element.t) :
  ¬ holds_bypass user →
  Lookup.elFindByIds user ids type w = (Return hits, w') →
  (∀ k e, (k, e) ∈ Lookup.accessible (Lookup.loadFromCache user ids type) →
     ∀ m, m ∈ or_empty (Element.object_marking_refs e) →
          m ∈ internal_id <$> allowed_marking user)
  ∧ ∀ e, e ∈ hits →
      (∃ k, (k, Some e) ∈ or_empty (cacheGet ids)
            ∧ ∀ m, m ∈ or_empty (Element.object_marking_refs e) →
                   m ∈ internal_id <$> allowed_marking user)
      ∨ (e ∈ docs w
         ∧ Query.visible (indexed e) (buildMarkingRestriction user) = true).
Proof.
  intros Hb Hrun. split.
  - intros k e (k' & _ & Hacc)%accessible_from_cache.
    by apply (cache_accessible_markings user type e).
  - unfold Lookup.elFindByIds in Hrun.
    destruct (length _ =? 0)%nat.
    { injection Hrun as <- <-. intros e He. by apply not_elem_of_nil in He. }
    set (c := Lookup.loadFromCache user ids type) in *.
    assert (Hsearch : ∃ elasticHits,
      hits = object_values (obj_merge (Lookup.accessible c) elasticHits)
      ∧ ∀ kv, kv ∈ elasticHits → kv.2 ∈ docs w
          ∧ Query.visible (indexed kv.2) (buildMarkingRestriction user) = true).
    { unfold mbind, M_bind in Hrun.
      destruct (0 <? length _)%nat.
      - destruct (search_groups_hits user type
                    (splitEvery MAX_SPLIT
                       (List.filter (λ i, negb (includes (Lookup.cached c) i))
                          (omap (λ i, match i with
                                      | Some s => if bool_decide (s = "") then None else Some s
                                      | None => None
                                      end) ids))) w)
          as (eh & w1 & Hsg & _ & Hhits).
        rewrite Hsg in Hrun. injection Hrun as <- <-. eauto.
      - injection Hrun as <- <-. exists []. split; [done|].
        intros kv Hkv. by apply not_elem_of_nil in Hkv. }
    destruct Hsearch as (elasticHits & -> & Hhits).
    intros e He. unfold object_values in He.
    apply list_elem_of_fmap in He as ([k e'] & -> & Hin). simpl.
    apply elem_of_obj_merge in Hin as [(k' & Hin)|(k' & Hin)]; simpl in Hin.
    + left. apply accessible_from_cache in Hin as (k'' & Hc & Hacc).
      exists k''. split; [done|].
      by apply (cache_accessible_markings user type e').
    + right. by apply (Hhits (k', e')).
Qed.

End LookupFacts.

Lemma elFindByIds_cache_path_witness :
  (∀ k e,
     (k, e) ∈ Lookup.accessible
       (Lookup.loadFromCache (H := platform_schema) (H0 := Samples.warm_cache)
          Samples.analyst [Some "G"; Some "P"] None) →
     ∀ m, m ∈ or_empty (Element.object_marking_refs e) →
          m ∈ internal_id <$> allowed_marking Samples.analyst)
  ∧ ∀ e, e ∈ [Samples.green_report] →
      (∃ k, (k, Some e) ∈ or_empty
              (cacheGet (Collaborators := Samples.warm_cache) [Some "G"; Some "P"])
            ∧ ∀ m, m ∈ or_empty (Element.object_marking_refs e) →
                   m ∈ internal_id <$> allowed_marking Samples.analyst)
      ∨ (e ∈ docs Samples.small_world
         ∧ Query.visible (indexed (Collaborators := Samples.warm_cache) e)
             (buildMarkingRestriction (H := platform_schema) Samples.analyst) = true).
Proof.
  apply (@elFindByIds_cache_path platform_schema Samples.warm_cache
           Samples.analyst [Some "G"; Some "P"] None
           Samples.small_world Samples.small_world [Samples.green_report]).
  - intros Hb%isBypass_holds. by vm_compute in Hb.
  - vm_compute. reflexivity.
Defined.

(** The red report is in the cache and asked for, and is not returned. *)
Lemma red_report_filtered :
  fst (Lookup.elFindByIds (H := platform_schema) (H0 := Samples.warm_cache)
         Samples.analyst [Some "G"; Some "P"] None Samples.small_world)
  = Return [Samples.green_report].
Proof. vm_compute. reflexivity. Qed.

(** ** Relation projection codec *)

Lemma role_from_ne_to (t : string) : t +:+ "_from" ≠ t +:+ "_to".
Proof. induction t as [|c t IH]; simpl; [done|]. intros [= Heq]. by apply IH. Qed.

Section CodecFacts.
Context `{Schema}.
Import Codec.

(** C2, as the code has it.  For a relationship of the relation base type
    whose two endpoints are resolved and whose roles are [<entity_type>_from]
    and [<entity_type>_to], decoding the encoded document yields the ids and
    types of the two endpoints, the two roles, and a [relationship_type]
    equal to the [entity_type]; a relationship whose [from] or [to] is null
    is refused by the encoder with a [DatabaseError]. *)
Theorem relation_codec_roundtrip (thing : Thing.t) :
  (∀ f t,
     Thing.base_type thing = BASE_TYPE_RELATION →
     Thing.from thing = Some f → Thing.to thing = Some t →
     Thing.fromRole thing = Some (Thing.entity_type thing +:+ "_from") →
     Thing.toRole thing = Some (Thing.entity_type thing +:+ "_to") →
     ∃ doc rel,
       prepareRelation thing = inr doc
       ∧ elRebuildRelation doc = inr (IsRelation rel)
       ∧ Relation.fromId rel = Entity.internal_id f
       ∧ Relation.fromRole rel = Thing.fromRole thing
       ∧ Relation.fromType rel = Some (Entity.entity_type f)
       ∧ Relation.toId rel = Entity.internal_id t
       ∧ Relation.toRole rel = Thing.toRole thing
       ∧ Relation.toType rel = Some (Entity.entity_type t)
       ∧ Relation.relationship_type rel = Some (Thing.entity_type thing)
       ∧ Relation.entity_type rel = Thing.entity_type thing)
  ∧ (Thing.from thing = None ∨ Thing.to thing = None →
     ∃ message, prepareRelation thing = inl (AppError DatabaseError message)).
Proof.
  split.
  - intros f t Hbase Hfrom Hto HfromRole HtoRole.
    unfold prepareRelation. rewrite Hfrom, Hto, HfromRole, HtoRole.
    eexists _, _. split; [done|].
    unfold elRebuildRelation. cbn [Concept.base_type Concept.connections Concept.entity_type].
    rewrite bool_decide_eq_true_2 by done.
    cbn [find role_is connection_of Connection.role].
    unfold role_is. cbn [Connection.role connection_of].
    rewrite (bool_decide_eq_true_2 (Some _ = Some (Thing.entity_type thing +:+ "_from"))) by done.
    rewrite (bool_decide_eq_false_2 (Some (Thing.entity_type thing +:+ "_from") = Some _))
      by (intros [= Heq]; by apply role_from_ne_to in Heq).
    rewrite bool_decide_eq_true_2 by done.
    simpl. by repeat split.
  - unfold prepareRelation.
    intros [Hn|Hn]; rewrite Hn;
      destruct (Thing.fromRole thing), (Thing.toRole thing), (Thing.from thing);
      eauto.
Qed.

End CodecFacts.

Lemma relation_codec_roundtrip_witness :
  (∃ doc rel,
     Codec.prepareRelation (H := platform_schema) Samples.uses_thing = inr doc
     ∧ Codec.elRebuildRelation (H := platform_schema) doc = inr (Codec.IsRelation rel)
     ∧ Codec.Relation.fromId rel = "E"
     ∧ Codec.Relation.fromRole rel = Some "uses_from"
     ∧ Codec.Relation.fromType rel = Some "Malware"
     ∧ Codec.Relation.toId rel = "X"
     ∧ Codec.Relation.toRole rel = Some "uses_to"
     ∧ Codec.Relation.toType rel = Some "Tool"
     ∧ Codec.Relation.relationship_type rel = Some "uses"
     ∧ Codec.Relation.entity_type rel = "uses")
  ∧ ∃ message,
      Codec.prepareRelation (H := platform_schema) Samples.unresolved_thing
      = inl (AppError DatabaseError message).
Proof.
  split.
  - apply (proj1 (@relation_codec_roundtrip platform_schema Samples.uses_thing)
             (Samples.endpoint "E" "Malware") (Samples.endpoint "X" "Tool"));
      reflexivity.
  - apply (proj2 (@relation_codec_roundtrip platform_schema Samples.unresolved_thing)).
    left. reflexivity.
Defined.

(** C2, as stated, fails twice.  The encoder refuses a relationship with a
    null endpoint with a [DatabaseError], never a [DataIntegrityError]; and a
    relationship with both endpoints resolved and both roles set, but roles
    other than [<entity_type>_from] / [<entity_type>_to], is encoded into a
    document the decoder rejects. *)
Lemma relation_codec_claim_fails :
  (Codec.Thing.from Samples.unresolved_thing = None
   ∧ Codec.prepareRelation (H := platform_schema) Samples.unresolved_thing
     = inl (AppError DatabaseError
              "[ELASTIC] Cant index relation R, error resolving dependency IDs")
   ∧ ¬ ∃ message,
         Codec.prepareRelation (H := platform_schema) Samples.unresolved_thing
         = inl (AppError DataIntegrityError message))
  ∧ (is_Some (Codec.Thing.from Samples.odd_roles_thing)
     ∧ is_Some (Codec.Thing.to Samples.odd_roles_thing)
     ∧ Codec.Thing.fromRole Samples.odd_roles_thing = Some "source"
     ∧ Codec.Thing.toRole Samples.odd_roles_thing = Some "target"
     ∧ ∃ doc,
         Codec.prepareRelation (H := platform_schema) Samples.odd_roles_thing = inr doc
         ∧ Codec.elRebuildRelation (H := platform_schema) doc
           = inl (AppError DatabaseError
                    "[ELASTIC] Something fail in reconstruction of the relation")).
Proof.
  split.
  - split; [done|]. split; [done|]. by intros [message [=]].
  - split; [by eexists|]. split; [by eexists|]. split; [done|]. split; [done|].
    eexists. split; reflexivity.
Qed.

(** ** Pagination engine *)

Lemma filter_all_length {A} (p : A → bool) (l : list A) :
  (length (List.filter p l) <? length l)%nat = false ↔ Forall (λ x, p x = true) l.
Proof.
  rewrite Nat.ltb_ge. induction l as [|x l IH]; simpl.
  - split; [constructor|lia].
  - pose proof (filter_length_le p l) as Hle.
    destruct (p x) eqn:Hp; simpl.
    + rewrite Forall_cons. split; [intros; split; [done|apply IH; lia]|].
      intros [_ Hall]. apply IH in Hall. lia.
    + split; [lia|]. intros [Hx _]%Forall_cons. congruence.
Qed.

Section PaginateFacts.
Context `{Schema} (conf : Config).
Context {SortKey Hit Node : Type}.
Context (cursorToOffset : string → SortKey).
Context (elDataConverter : Hit → Exn + Node).
Context (engine : Paginate.Request (SortKey := SortKey) → Paginate.Response (Hit := Hit)).

#[local] Abbreviation elPaginate :=
  (Paginate.elPaginate conf cursorToOffset elDataConverter engine).
#[local] Abbreviation paginate_query := (Paginate.paginate_query cursorToOffset).

Lemma on_search_error_trace (connectionFormat : bool) (err : Exn)
    (t : list (Paginate.Event (SortKey := SortKey))) :
  ∃ shown,
    snd (Paginate.on_search_error (SortKey := SortKey) (Node := Node)
           connectionFormat err t) = t ++ shown.
Proof.
  destruct err as [c m|root_cause|]; simpl; try (by exists []; rewrite app_nil_r).
  destruct (_ <? _)%nat; [|by exists []; rewrite app_nil_r].
  by eexists [_].
Qed.

(** Within the maximum page size, the request is logged and sent, and the
    engine's answer decides the rest. *)
Lemma elPaginate_within (user : User) (indexName : string)
    (options : Paginate.Options) (t : list Paginate.Event) :
  let query := paginate_query user indexName options in
  let connectionFormat := default true (Paginate.connectionFormat options) in
  let sent := t ++ [Paginate.LogDebug "[ELASTICSEARCH] paginate"; Paginate.Search query] in
  (Paginate.size (Paginate.body query) ≤ ES_MAX_PAGINATION conf)%Z →
  elPaginate user indexName options t
  = match engine query with
    | Paginate.Data hits total =>
        match Paginate.convert_all elDataConverter hits with
        | inr convertedHits =>
            (Return (if connectionFormat
                     then Paginate.Connection
                            {| Paginate.limit := Paginate.first_or_default options;
                               Paginate.searchAfter :=
                                 Paginate.search_after_of cursorToOffset options;
                               Paginate.nodeHits := convertedHits;
                               Paginate.globalCount := total |}
                     else Paginate.Plain convertedHits), sent)
        | inl e => Paginate.on_search_error connectionFormat e sent
        end
    | Paginate.Rejected root_cause =>
        Paginate.on_search_error connectionFormat (ResponseError root_cause) sent
    end.
Proof.
  intros query connectionFormat sent Hsize.
  unfold Paginate.elPaginate. fold query.
  apply Z.ltb_ge in Hsize. rewrite Hsize.
  unfold mbind, M_bind, Paginate.log, Paginate.el_search, modify, mret, M_ret.
  cbn beta iota. unfold mbind, M_bind, Paginate.log, modify. cbn beta iota.
  rewrite <- app_assoc. cbn [app]. fold sent. fold connectionFormat.
  destruct (engine query) as [hits total|root_cause]; [|done].
  by destruct (Paginate.convert_all elDataConverter hits).
Qed.

(** C6, as the code has it.  A call asking for more than the configured
    maximum page size fails with a [DatabaseError], and nothing is sent to
    the engine (the log of requests is unchanged). *)
Theorem elPaginate_oversize (user : User) (indexName : string)
    (options : Paginate.Options) (n : Z) (t : list Paginate.Event) :
  Paginate.first options = Paginate.Num n →
  (ES_MAX_PAGINATION conf < n)%Z →
  ∃ message,
    elPaginate user indexName options t = (Throw (AppError DatabaseError message), t).
Proof.
  intros Hfirst Hmax. unfold Paginate.elPaginate, Paginate.paginate_query.
  cbn [Paginate.body Paginate.size]. unfold Paginate.first_or_default.
  rewrite Hfirst. cbn [Paginate.querySize].
  assert (Hlt : (ES_MAX_PAGINATION conf <? (if (n =? 0)%Z then 10 else n))%Z = true).
  { apply Z.ltb_lt. destruct (n =? 0)%Z eqn:Hn; [apply Z.eqb_eq in Hn|]; lia. }
  rewrite Hlt. by eexists.
Qed.

(** C8. When the engine rejects the search of [elPaginate], the error is
    swallowed and the empty page (or empty list) returned exactly when every
    root cause is a missing-index or missing-mapping condition; otherwise
    the error is logged and re-raised as it is. *)
Theorem elPaginate_search_failure (user : User) (indexName : string)
    (options : Paginate.Options) (root_cause : list RootCause)
    (t : list Paginate.Event) :
  let query := paginate_query user indexName options in
  (Paginate.size (Paginate.body query) ≤ ES_MAX_PAGINATION conf)%Z →
  engine query = Paginate.Rejected root_cause →
  (Forall Paginate.missing_mapping root_cause →
     elPaginate user indexName options t
     = (Return (Paginate.empty_result options),
        t ++ [Paginate.LogDebug "[ELASTICSEARCH] paginate"; Paginate.Search query]))
  ∧ (¬ Forall Paginate.missing_mapping root_cause →
     elPaginate user indexName options t
     = (Throw (ResponseError root_cause),
        t ++ [Paginate.LogDebug "[ELASTICSEARCH] paginate"; Paginate.Search query;
              Paginate.LogError "[ELASTICSEARCH] Paginate fail"
                (ResponseError root_cause)])).
Proof.
  intros query Hsize Hrej.
  assert (Hrun : elPaginate user indexName options t
    = Paginate.on_search_error (default true (Paginate.connectionFormat options))
        (ResponseError root_cause)
        (t ++ [Paginate.LogDebug "[ELASTICSEARCH] paginate"; Paginate.Search query])).
  { rewrite elPaginate_within by done. fold query. by rewrite Hrej. }
  rewrite Hrun. unfold Paginate.on_search_error.
  pose proof (filter_all_length Paginate.is_mapping_cause (reason <$> root_cause)) as Hall.
  rewrite length_fmap in Hall.
  assert (Hiff : Forall (λ x, Paginate.is_mapping_cause x = true) (reason <$> root_cause)
                 ↔ Forall Paginate.missing_mapping root_cause) by apply Forall_fmap.
  split; intros Hcauses.
  - rewrite (proj2 Hall) by by apply Hiff. done.
  - assert (Hlt : (length (List.filter Paginate.is_mapping_cause (reason <$> root_cause))
                   <? length root_cause)%nat = true).
    { apply not_false_iff_true. intros Hf. by apply Hcauses, Hiff, Hall. }
    rewrite Hlt. unfold mbind, M_bind, Paginate.log, modify, throw. cbn beta iota.
    by rewrite <- app_assoc.
Qed.

(** C10. The default page size of 200 is used only when [first] is left
    out: a call passing [first] as [null] or [0] asks the engine for 10
    documents, and a request of size 200 comes from an omitted [first] or an
    explicit 200.  Within the configured maximum the request is sent with
    that size. *)
Theorem elPaginate_page_size (user : User) (indexName : string)
    (options : Paginate.Options) (t : list Paginate.Event) :
  let query := paginate_query user indexName options in
  (Paginate.first options = Paginate.Omitted → Paginate.size (Paginate.body query) = 200%Z)
  ∧ (Paginate.first options = Paginate.Null ∨ Paginate.first options = Paginate.Num 0 →
     Paginate.size (Paginate.body query) = 10%Z)
  ∧ (Paginate.size (Paginate.body query) = 200%Z →
     Paginate.first options = Paginate.Omitted
     ∨ Paginate.first options = Paginate.Num 200)
  ∧ ((Paginate.size (Paginate.body query) ≤ ES_MAX_PAGINATION conf)%Z →
     ∃ shown,
       snd (elPaginate user indexName options t)
       = t ++ [Paginate.LogDebug "[ELASTICSEARCH] paginate"; Paginate.Search query] ++ shown).
Proof.
  intros query. unfold query, Paginate.paginate_query.
  cbn [Paginate.body Paginate.size]. unfold Paginate.first_or_default.
  split; [by intros ->|]. split; [by intros [->| ->]|]. split.
  - destruct (Paginate.first options) as [| |n]; cbn [Paginate.querySize]; try done; [by left|].
    destruct (n =? 0)%Z; [done|]. intros ->. by right.
  - fold (Paginate.first_or_default options). intros Hsize.
    rewrite elPaginate_within by done.
    set (sent := t ++ _).
    assert (Hsent : ∀ (o : Outcome (Paginate.Result (SortKey := SortKey) (Node := Node))
                           * list Paginate.Event),
              (∃ shown, snd o = sent ++ shown) →
              ∃ shown, snd o = t ++ [Paginate.LogDebug "[ELASTICSEARCH] paginate";
                                     Paginate.Search (paginate_query user indexName options)]
                                ++ shown).
    { intros o [shown ->]. exists shown. unfold sent. by rewrite <- app_assoc. }
    apply Hsent.
    destruct (engine _) as [hits total|root_cause].
    + destruct (Paginate.convert_all _ _) as [e|cs].
      * apply on_search_error_trace.
      * exists []. by rewrite app_nil_r.
    + apply on_search_error_trace.
Qed.

End PaginateFacts.

Lemma elPaginate_oversize_witness :
  ∃ message,
    Paginate.elPaginate (H := platform_schema) default_config Samples.cursor Samples.converter
      (Samples.rejecting Samples.no_index)
      Samples.analyst "opencti_stix_domain_objects"
      (Samples.options (Paginate.Num 5001)) []
    = (Throw (AppError DatabaseError message), []).
Proof.
  apply (@elPaginate_oversize platform_schema default_config _ _ _ Samples.cursor
           Samples.converter (Samples.rejecting Samples.no_index)
           Samples.analyst "opencti_stix_domain_objects"
           (Samples.options (Paginate.Num 5001)) 5001 []).
  - reflexivity.
  - reflexivity.
Defined.

(** C6, as stated, fails: the error raised for an oversized page is a
    [DatabaseError], not an out-of-range error. *)
Lemma elPaginate_oversize_class :
  fst (Paginate.elPaginate (H := platform_schema) default_config Samples.cursor Samples.converter
         (Samples.rejecting Samples.no_index)
         Samples.analyst "opencti_stix_domain_objects"
         (Samples.options (Paginate.Num 5001)) [])
  = Throw (AppError DatabaseError
             "You cannot ask for more than 5000 results. If you need more, please use pagination")
  ∧ ¬ ∃ message,
        fst (Paginate.elPaginate (H := platform_schema) default_config Samples.cursor
               Samples.converter (Samples.rejecting Samples.no_index)
               Samples.analyst "opencti_stix_domain_objects"
               (Samples.options (Paginate.Num 5001)) [])
        = Throw (AppError OutOfRangeError message).
Proof.
  split; [by vm_compute|]. intros [message Hm]. vm_compute in Hm. discriminate.
Qed.

Lemma elPaginate_search_failure_witness :
  Paginate.elPaginate (H := platform_schema) default_config Samples.cursor Samples.converter
    (Samples.rejecting Samples.no_index)
    Samples.analyst "opencti_stix_domain_objects" (Samples.options Paginate.Omitted) []
  = (Return (Paginate.empty_result (Samples.options Paginate.Omitted)),
     [] ++ [Paginate.LogDebug "[ELASTICSEARCH] paginate";
            Paginate.Search
              (Paginate.paginate_query (H := platform_schema) Samples.cursor Samples.analyst
                 "opencti_stix_domain_objects" (Samples.options Paginate.Omitted))])
  ∧ Paginate.elPaginate (H := platform_schema) default_config Samples.cursor Samples.converter
      (Samples.rejecting Samples.shard_failure)
      Samples.analyst "opencti_stix_domain_objects" (Samples.options Paginate.Omitted) []
    = (Throw (ResponseError Samples.shard_failure),
       [] ++ [Paginate.LogDebug "[ELASTICSEARCH] paginate";
              Paginate.Search
                (Paginate.paginate_query (H := platform_schema) Samples.cursor Samples.analyst
                   "opencti_stix_domain_objects" (Samples.options Paginate.Omitted));
              Paginate.LogError "[ELASTICSEARCH] Paginate fail"
                (ResponseError Samples.shard_failure)]).
Proof.
  split.
  - apply (@elPaginate_search_failure platform_schema default_config _ _ _ Samples.cursor
             Samples.converter (Samples.rejecting Samples.no_index)
             Samples.analyst "opencti_stix_domain_objects"
             (Samples.options Paginate.Omitted) Samples.no_index []).
    + by vm_compute.
    + reflexivity.
    + repeat constructor.
  - apply (@elPaginate_search_failure platform_schema default_config _ _ _ Samples.cursor
             Samples.converter (Samples.rejecting Samples.shard_failure)
             Samples.analyst "opencti_stix_domain_objects"
             (Samples.options Paginate.Omitted) Samples.shard_failure []).
    + by vm_compute.
    + reflexivity.
    + intros Hall. inversion Hall as [|? ? _ Hrest]. inversion Hrest as [|? ? Hbad _].
      by vm_compute in Hbad.
Defined.

Lemma elPaginate_page_size_witness :
  Paginate.size (Paginate.body
    (Paginate.paginate_query (H := platform_schema) Samples.cursor Samples.analyst
       "opencti_stix_domain_objects" (Samples.options Paginate.Omitted))) = 200%Z
  ∧ Paginate.size (Paginate.body
      (Paginate.paginate_query (H := platform_schema) Samples.cursor Samples.analyst
         "opencti_stix_domain_objects" (Samples.options Paginate.Null))) = 10%Z
  ∧ Paginate.size (Paginate.body
      (Paginate.paginate_query (H := platform_schema) Samples.cursor Samples.analyst
         "opencti_stix_domain_objects" (Samples.options (Paginate.Num 0)))) = 10%Z
  ∧ (Paginate.first (Samples.options (Paginate.Num 200)) = Paginate.Omitted
     ∨ Paginate.first (Samples.options (Paginate.Num 200)) = Paginate.Num 200)
  ∧ ∃ shown,
      snd (Paginate.elPaginate (H := platform_schema) default_config Samples.cursor
             Samples.converter (Samples.rejecting Samples.no_index)
             Samples.analyst "opencti_stix_domain_objects"
             (Samples.options Paginate.Null) [])
      = [] ++ [Paginate.LogDebug "[ELASTICSEARCH] paginate";
               Paginate.Search
                 (Paginate.paginate_query (H := platform_schema) Samples.cursor Samples.analyst
                    "opencti_stix_domain_objects" (Samples.options Paginate.Null))]
           ++ shown.
Proof.
  pose proof (λ o, @elPaginate_page_size platform_schema default_config _ _ _
                     Samples.cursor Samples.converter (Samples.rejecting Samples.no_index)
                     Samples.analyst "opencti_stix_domain_objects"
                     (Samples.options o) []) as Hsize.
  split; [apply (Hsize Paginate.Omitted); reflexivity|].
  split; [apply (Hsize Paginate.Null); left; reflexivity|].
  split; [apply (Hsize (Paginate.Num 0)); right; reflexivity|].
  split; [apply (Hsize (Paginate.Num 200)); reflexivity|].
  apply (Hsize Paginate.Null). by vm_compute.
Defined.

(** ** Date histogram *)

Section HistogramFacts.
Context `{Schema}.
Context (engine : Histogram.Request → Exn + list (string * Z)).

(** C7. A call with an interval other than year, month or day fails with a
    [FunctionalError] and sends nothing to the engine; with one of the three,
    the interval check raises nothing: the request is built with that
    interval, logged and sent, and the outcome is the engine's. *)
Theorem elHistogramCount_interval (user : User) (type : option string)
    (field interval start end_ : string) (toTypes : list string)
    (filters : list Histogram.Filter) (t : list Histogram.Event) :
  (interval ∉ ["year"; "month"; "day"] →
     Histogram.elHistogramCount engine user type field interval start end_ toTypes filters t
     = (Throw (AppError FunctionalError
                 "Unsupported interval, please choose between year, month or day"), t))
  ∧ (interval ∈ ["year"; "month"; "day"] →
     ∃ dateFormat,
       let query :=
         Histogram.histogram_query user type field interval dateFormat
           start end_ toTypes filters in
       Histogram.dateFormatOf interval = inr dateFormat
       ∧ Histogram.elHistogramCount engine user type field interval start end_
           toTypes filters t
         = (match engine query with
            | inl e => Throw e
            | inr buckets =>
                Return ((λ b, {| Histogram.date := b.1; Histogram.value_ := b.2 |})
                        <$> buckets)
            end,
            t ++ [Histogram.LogDebug "[ELASTICSEARCH] histogramCount";
                  Histogram.Search query])).
Proof.
  split.
  - intros Hout. unfold Histogram.elHistogramCount, Histogram.dateFormatOf.
    rewrite !bool_decide_eq_false_2 by set_solver. done.
  - intros Hin.
    assert (Hfmt : ∃ dateFormat, Histogram.dateFormatOf interval = inr dateFormat).
    { unfold Histogram.dateFormatOf. repeat case_bool_decide; eauto. set_solver. }
    destruct Hfmt as [dateFormat Hfmt]. exists dateFormat. split; [done|].
    unfold Histogram.elHistogramCount. rewrite Hfmt.
    unfold mbind, M_bind, modify. cbn beta iota.
    rewrite <- app_assoc. cbn [app].
    by destruct (engine _).
Qed.

End HistogramFacts.

Lemma elHistogramCount_interval_witness :
  Histogram.elHistogramCount (H := platform_schema) Samples.histogram_engine
    Samples.analyst (Some "Report") "created_at" "week" "2021-01-01" "2021-03-01" [] [] []
  = (Throw (AppError FunctionalError
              "Unsupported interval, please choose between year, month or day"), [])
  ∧ ∃ dateFormat,
      let query :=
        Histogram.histogram_query (H := platform_schema) Samples.analyst (Some "Report")
          "created_at" "month" dateFormat "2021-01-01" "2021-03-01" [] [] in
      Histogram.dateFormatOf "month" = inr dateFormat
      ∧ Histogram.elHistogramCount (H := platform_schema) Samples.histogram_engine
          Samples.analyst (Some "Report") "created_at" "month"
          "2021-01-01" "2021-03-01" [] [] []
        = (match Samples.histogram_engine query with
           | inl e => Throw e
           | inr buckets =>
               Return ((λ b, {| Histogram.date := b.1; Histogram.value_ := b.2 |})
                       <$> buckets)
           end,
           [] ++ [Histogram.LogDebug "[ELASTICSEARCH] histogramCount";
                  Histogram.Search query]).
Proof.
  split.
  - apply (@elHistogramCount_interval platform_schema Samples.histogram_engine
             Samples.analyst (Some "Report") "created_at" "week"
             "2021-01-01" "2021-03-01" [] [] []).
    intros Hin. repeat (apply elem_of_cons in Hin as [Hin|Hin]; [discriminate|]).
    by apply not_elem_of_nil in Hin.
  - apply (@elHistogramCount_interval platform_schema Samples.histogram_engine
             Samples.analyst (Some "Report") "created_at" "month"
             "2021-01-01" "2021-03-01" [] [] []).
    apply elem_of_cons. right. apply elem_of_cons. by left.
Defined.

(** ** Cascading deletion engine *)

(** C4. Deleting an empty batch changes nothing and sends nothing: with no
    element, [elDeleteElements] returns the empty list at once, and
    [elDeleteInstanceIds] with no instance sends no bulk request; the
    engine's documents and the log of requests are as before. *)
Theorem delete_empty_batch `{Schema} `{Collaborators} (conf : Config) {Loaded : Type}
    (fuel : nat) (user : User) (loaders : Deletion.Loaders Loaded) (w : World) :
  Deletion.elDeleteElements conf fuel user [] loaders w = (Return [], w)
  ∧ Deletion.elDeleteInstanceIds [] w = (Return (), w).
Proof. split; reflexivity. Qed.

(** ** Cascading deletion engine: the traversal *)

Lemma getRelatedRelations_unfold `{Schema} `{Collaborators} (conf : Config)
    (fuel : nat) (user : User) (targetIds : list string) (level : nat)
    (st : list Element.t * Deletion.JsMap) (w : World) (hits : list Element.t) :
  Deletion.elList conf user (Deletion.related_options targetIds) w = (Return hits, w) →
  Deletion.getRelatedRelations conf (S fuel) user targetIds level st w
  = (let groupResults := splitEvery MAX_JS_PARAMS hits in
     let '(elements, cache, foundRelations) :=
       fold_left (Deletion.collect level) groupResults (st.1, st.2, []) in
     if (0 <? length foundRelations)%nat then
       let groups := splitEvery MAX_SPLIT foundRelations in
       Deletion.foldM
         (λ st gIds, Deletion.getRelatedRelations conf fuel user gIds (level + 1) st)
         groups (elements, cache)
     else mret (elements, cache)) w.
Proof.
  intros Hlist. cbn [Deletion.getRelatedRelations]. unfold mbind at 1, M_bind at 1.
  by rewrite Hlist.
Qed.

(** On two relationships referencing each other, every call of the
    traversal on one of them calls it on the other: no depth suffices. *)
Lemma cyclic_world_diverges (fuel : nat) :
  ∀ (level : nat) (elements : list Element.t) (cache : Deletion.JsMap),
    Deletion.props cache = ∅ →
    fst (Deletion.getRelatedRelations (H := platform_schema) (H0 := platform_collaborators)
           default_config fuel Samples.admin ["A"] level (elements, cache)
           Samples.cyclic_world)
    = OutOfFuel
    ∧ fst (Deletion.getRelatedRelations (H := platform_schema) (H0 := platform_collaborators)
             default_config fuel Samples.admin ["B"] level (elements, cache)
             Samples.cyclic_world)
      = OutOfFuel.
Proof.
  induction fuel as [|fuel IH]; intros level elements cache Hp; [done|].
  rewrite (getRelatedRelations_unfold _ _ _ ["A"] _ _ _ [Samples.rel_b]) by (by vm_compute).
  rewrite (getRelatedRelations_unfold _ _ _ ["B"] _ _ _ [Samples.rel_a]) by (by vm_compute).
  cbv zeta.
  change (splitEvery MAX_JS_PARAMS [Samples.rel_b]) with [[Samples.rel_b]].
  change (splitEvery MAX_JS_PARAMS [Samples.rel_a]) with [[Samples.rel_a]].
  cbn [fold_left Deletion.collect fst snd fmap list_fmap List.filter app].
  unfold Deletion.not_prop. rewrite Hp, !lookup_empty.
  cbn [fold_left length Nat.ltb Nat.leb app List.filter].
  change (splitEvery MAX_SPLIT [Element.internal_id Samples.rel_b]) with [["B"]].
  change (splitEvery MAX_SPLIT [Element.internal_id Samples.rel_a]) with [["A"]].
  cbn [Deletion.foldM]. unfold mbind, M_bind.
  split.
  - destruct (IH (level + 1) (Element.with_level level Samples.rel_b :: elements)
                (Deletion.map_set (Element.internal_id Samples.rel_b) "" cache) Hp)
      as [_ Hrec].
    destruct (Deletion.getRelatedRelations _ _ _ ["B"] _ _ _) as [[]]; by simplify_eq/=.
  - destruct (IH (level + 1) (Element.with_level level Samples.rel_a :: elements)
                (Deletion.map_set (Element.internal_id Samples.rel_a) "" cache) Hp)
      as [Hrec _].
    destruct (Deletion.getRelatedRelations _ _ _ ["A"] _ _ _) as [[]]; by simplify_eq/=.
Qed.

(** The visited test of the traversal reads properties; [set] writes
    entries.  On the map the traversal starts from, the test never filters. *)
Lemma props_map_set_fold (ids : list string) (cache : Deletion.JsMap) :
  Deletion.props (fold_left (λ c id, Deletion.map_set id "" c) ids cache)
  = Deletion.props cache.
Proof.
  revert cache. induction ids as [|id ids IH]; intros cache; [done|].
  cbn [fold_left]. by rewrite IH.
Qed.



Lemma length_append (a b : string) :
  String.length (a +:+ b) = String.length a + String.length b.
Proof.
  induction a as [|c a IH]; [done|].
  change (String c a +:+ b) with (String c (a +:+ b)). cbn [String.length]. by rewrite IH.
Qed.

(** No unimpacted role is a from side: the from end of a relationship is
    always denormalized. *)
Lemma from_side_impacted `{Schema} (type : string) :
  Deletion.isImpactedTypeAndSide type ROLE_FROM = true.
Proof.
  assert (∀ a b : string, a +:+ "_from" ≠ b +:+ "_to") as Hne.
  { intros a b Heq.
    assert (String.get (4 + String.length a) (a +:+ "_from") = Some "m"%char) as Hm
      by (by rewrite <- String.append_correct2).
    assert (String.get (2 + String.length b) (b +:+ "_to") = Some "o"%char) as Ho
      by (by rewrite <- String.append_correct2).
    assert (String.length (a +:+ "_from") = String.length (b +:+ "_to")) as Hlen
      by (by rewrite Heq).
    rewrite !length_append in Hlen. cbn [String.length] in Hlen.
    replace (2 + String.length b) with (4 + String.length a) in Ho by lia.
    rewrite Heq in Hm. congruence. }
  unfold Deletion.isImpactedTypeAndSide, Deletion.UNIMPACTED_ENTITIES_ROLE, includes,
    ROLE_FROM, ROLE_TO.
  apply negb_true_iff, bool_decide_eq_false. intros Hin.
  repeat (apply elem_of_cons in Hin as [Heq|Hin]; [by eapply Hne|]).
  by apply elem_of_nil in Hin.
Qed.

(** The survival test of an end asks the map of discovered relationships
    only: an end that is not in it is cleaned, whatever the batch deletes. *)
Lemma end_outside_map_is_cleaned `{Schema} (elements relations : list Element.t)
    (relationsToRemoveMap : Deletion.JsMap) (r : Element.t) :
  r ∈ relations →
  Deletion.map_has relationsToRemoveMap (Element.fromId r) = false →
  ∃ impact, impact ∈ Deletion.relsFromToImpacts elements relations relationsToRemoveMap
            ∧ Deletion.relation impact = r
            ∧ Deletion.isFromCleanup impact = true.
Proof.
  intros Hr Hmap.
  exists {| Deletion.relation := r; Deletion.isFromCleanup := true;
            Deletion.isToCleanup :=
              negb (Deletion.map_has relationsToRemoveMap (Element.toId r))
              && Deletion.isImpactedTypeAndSide (Element.entity_type r) ROLE_TO |}.
  split; [|done].
  unfold Deletion.relsFromToImpacts. apply list_elem_of_In, filter_In. split; [|done].
  apply list_elem_of_In, list_elem_of_fmap. exists r. split.
  - by rewrite Hmap, from_side_impacted.
  - apply elem_of_app. by left.
Qed.

(** C3, evaluated.  The visited check reads a property of the map object
    where the ids are stored as map entries, so it never filters: on the
    relationships A and B referencing each other the traversal started from
    A exceeds every depth; and where it does end, a relationship reachable
    along two paths (R2, through the entity and through R1) is queued again,
    listed twice and deleted twice. *)
Theorem getRelatedRelations_revisits :
  (∀ fuel,
     fst (Deletion.getRelationsToRemove (H := platform_schema)
            (H0 := platform_collaborators) default_config
            fuel Samples.admin [Samples.rel_a] Samples.cyclic_world)
     = OutOfFuel)
  ∧ (∃ relations relationsToRemoveMap,
       fst (Deletion.getRelationsToRemove (H := platform_schema)
              (H0 := platform_collaborators) default_config
              3 Samples.admin [Samples.diamond_e] Samples.diamond_world)
       = Return (relations, relationsToRemoveMap)
       ∧ Element.internal_id <$> relations = ["R2"; "R1"; "R2"]
       ∧ Element.level <$> relations = [Some 1; Some 0; Some 0])
  ∧ trace (snd (Deletion.elDeleteElements (H := platform_schema)
                  (H0 := platform_collaborators) default_config
                  3 Samples.admin [Samples.diamond_e] Samples.loaders
                  Samples.diamond_world)) !! 4
    = Some (ElBulk [ Delete "relations" "R2"; Delete "relations" "R1";
                     Delete "relations" "R2" ]).
Proof.
  split; [|split].
  - intros fuel. unfold Deletion.getRelationsToRemove.
    by apply (cyclic_world_diverges fuel 0 [] Deletion.new_Map).
  - eexists _, _. split; [by vm_compute|]. split; by vm_compute.
  - by vm_compute.
Qed.

(** C5, evaluated.  Deleting the entity E, source of the relationship R
    towards X: the survival test looks only at the relationships found by the
    traversal, so the deleted entity itself counts as remaining; a cleanup is
    decided for it and an update sent to it, before it is deleted.  On the
    end that does remain, X, the script removes E and leaves Y. *)
Theorem cleanup_queued_on_deleted_target :
  Deletion.relsFromToImpacts (H := platform_schema)
    [Samples.malware] [Element.with_level 0 Samples.uses]
    (Deletion.map_set "R" "" Deletion.new_Map)
  = [ {| Deletion.relation := Element.with_level 0 Samples.uses;
         Deletion.isFromCleanup := true; Deletion.isToCleanup := true |} ]
  ∧ Element.fromId Samples.uses = Some (Element.internal_id Samples.malware)
  ∧ fst (Deletion.elDeleteElements (H := platform_schema) (H0 := platform_collaborators)
           default_config 3 Samples.admin [Samples.malware] Samples.loaders
           Samples.small_world)
    = Return ["R"]
  ∧ trace (snd (Deletion.elDeleteElements (H := platform_schema)
                  (H0 := platform_collaborators) default_config
                  3 Samples.admin [Samples.malware] Samples.loaders Samples.small_world))
    = [ CacheSet ["E"; "X"]; CacheDel ["E"; "X"];
        ElBulk [ Update "entities" "E"
                   {| field := "rel_uses.internal_id"; key := Some "X" |};
                 Update "entities" "X"
                   {| field := "rel_uses.internal_id"; key := Some "E" |} ];
        CacheDel ["R"]; ElBulk [Delete "relations" "R"];
        CacheDel ["E"]; ElBulk [Delete "entities" "E"] ]
  ∧ (λ e, (Element.internal_id e, Element.refs e !! "rel_uses.internal_id"))
      <$> docs (snd (Deletion.elDeleteElements (H := platform_schema)
                       (H0 := platform_collaborators) default_config
                       3 Samples.admin [Samples.malware] Samples.loaders
                       Samples.small_world))
    = [ ("X", Some ["Y"]); ("Y", Some ["X"]); ("S", None) ].
Proof. repeat split; by vm_compute. Qed.
(** * Further properties of the module *)

(** A successful sequence is a success of each part. *)
Lemma bind_Return {W A B} (m : M W A) (f : A → M W B) (w w' : W) (b : B) :
  (m ≫= f) w = (Return b, w') →
  ∃ a w1, m w = (Return a, w1) ∧ f a w1 = (Return b, w').
Proof.
  unfold mbind, M_bind. destruct (m w) as [[a|e|] w1]; [eauto|done..].
Qed.


(** ** What the queries of the read paths match *)

Lemma forallb_matches (d : Query.Document) (qs : list Query.t) :
  forallb (Query.matches d) qs = true ↔ ∀ q, q ∈ qs → Query.matches d q = true.
Proof. rewrite forallb_forall. by setoid_rewrite list_elem_of_In. Qed.

(** A [bool] query of alternatives with [minimum_should_match: 1]. *)
Lemma matches_one_of (d : Query.Document) (should : list Query.t) :
  Query.matches d (Query.Bool [] [] should (Some 1)) = true
  ↔ ∃ q, q ∈ should ∧ Query.matches d q = true.
Proof.
  cbn [Query.matches forallb andb default]. rewrite Nat.leb_le. split.
  - intros Hlen. destruct (List.filter _ _) as [|q qs] eqn:Hf; [cbn in Hlen; lia|].
    assert (Hq : In q (List.filter (Query.matches d) should)) by (rewrite Hf; by left).
    apply filter_In in Hq as [Hq Hm]. exists q. by rewrite list_elem_of_In.
  - intros (q & Hin & Hm).
    assert (Hq : In q (List.filter (Query.matches d) should)).
    { apply filter_In. by rewrite <- list_elem_of_In. }
    destruct (List.filter _ _); [done|cbn; lia].
Qed.

Lemma matches_type_clause (d : Query.Document) (type : string) :
  Query.matches d (Query.type_clause type) = true
  ↔ type ∈ Query.values d "entity_type.keyword"
    ∨ type ∈ Query.values d "parent_types.keyword".
Proof.
  unfold Query.type_clause. rewrite matches_one_of. split.
  - intros (q & Hq & Hm). apply elem_of_cons in Hq as [->|Hq].
    + left. by apply bool_decide_eq_true in Hm.
    + apply list_elem_of_singleton in Hq as ->. right. by apply bool_decide_eq_true in Hm.
  - intros [Hin|Hin].
    + eexists. split; [by left|]. by apply bool_decide_eq_true.
    + eexists. split; [right; by left|]. by apply bool_decide_eq_true.
Qed.

(** A [bool] query holding the fragments of a restriction among its
    clauses only matches documents that pass the restriction. *)
Lemma restricted_by (d : Query.Document) (r : Query.Restriction)
    (must must_not should : list Query.t) (msm : option nat) :
  Query.must r ⊆ must → Query.must_not r ⊆ must_not →
  Query.matches d (Query.Bool must must_not should msm) = true →
  Query.visible d r = true.
Proof.
  intros Hmust Hnot. cbn [Query.matches].
  intros [[Hm Hn]%andb_true_iff _]%andb_true_iff.
  unfold Query.visible. apply andb_true_iff. split.
  - apply forallb_matches. intros q Hq. rewrite forallb_matches in Hm. by apply Hm, Hmust.
  - apply forallb_forall. intros q Hq. rewrite forallb_forall in Hn.
    apply Hn. by apply list_elem_of_In, Hnot, list_elem_of_In.
Qed.


(** ** Pagination engine: what the request always carries *)

Section PaginateRequest.
Context `{Schema}.

(** No turn of the loop over a filter's values removes a must-not clause. *)
Lemma value_step_mustnot (key operator : string) (vs : list (option string))
    (mustnot valuesFiltering : list Query.t) :
  ∃ more,
    (fold_left (Paginate.value_step key operator) vs (mustnot, valuesFiltering)).1
    = mustnot ++ more.
Proof.
  revert mustnot valuesFiltering.
  induction vs as [|v vs IH]; intros mustnot valuesFiltering; cbn [fold_left].
  - exists []. by rewrite app_nil_r.
  - destruct v as [v|]; cbn [Paginate.value_step].
    + repeat case_bool_decide; apply IH.
    + destruct (IH (mustnot ++ [Query.Exists key]) valuesFiltering) as [more ->].
      exists (Query.Exists key :: more). by rewrite <- app_assoc.
Qed.

Lemma filter_step_mustnot (fs : list Paginate.Filter.t) (mustnot mustFilters : list Query.t) :
  ∃ more, (fold_left Paginate.filter_step fs (mustnot, mustFilters)).1 = mustnot ++ more.
Proof.
  revert mustnot mustFilters.
  induction fs as [|f fs IH]; intros mustnot mustFilters; cbn [fold_left].
  - exists []. by rewrite app_nil_r.
  - unfold Paginate.filter_step at 2. destruct (Paginate.Filter.nested f); [apply IH|].
    destruct (value_step_mustnot (Paginate.Filter.key f)
                (default "eq" (Paginate.Filter.operator f))
                (or_empty (Paginate.Filter.values f)) mustnot []) as [more Hmore].
    destruct (fold_left (Paginate.value_step _ _) _ _) as [mustnot' valuesFiltering].
    cbn [fst] in Hmore. subst mustnot'.
    destruct (IH (mustnot ++ more)
                (mustFilters ++ [Query.Bool [] [] valuesFiltering
                   (Paginate.min_match (default "or" (Paginate.Filter.filterMode f))
                      valuesFiltering)])) as [more' ->].
    exists (more ++ more'). by rewrite app_assoc.
Qed.

(** The fragments of the access filter head the two lists of the request. *)
Lemma clauses_restriction (user : User) (options : Paginate.Options) :
  ∃ must mustnot,
    Paginate.must (Paginate.clauses user options)
    = Query.must (buildMarkingRestriction user) ++ must
    ∧ Paginate.mustnot (Paginate.clauses user options)
      = Query.must_not (buildMarkingRestriction user) ++ mustnot.
Proof.
  unfold Paginate.clauses.
  destruct (filter_step_mustnot
              (List.filter Paginate.valid_filter (or_empty (Paginate.filters options)))
              (Query.must_not (buildMarkingRestriction user)) []) as [more Hmore].
  destruct (fold_left Paginate.filter_step _ _) as [mustnot mustFilters].
  cbn [fst] in Hmore. subst mustnot.
  repeat match goal with
         | |- context [if ?b then _ else _] => destruct b
         end; cbn [Paginate.must Paginate.mustnot];
    eexists _, _; (split; [|reflexivity]); rewrite <- ?app_assoc; reflexivity.
Qed.

End PaginateRequest.

Section PaginateMore.
Context `{Schema} (conf : Config).
Context {SortKey Hit Node : Type}.
Context (cursorToOffset : string → SortKey).

(** X1. Whatever the options (ids, types, filters in either mode, search,
    ordering), the query [elPaginate] sends only matches documents that pass
    the marking restriction of the user. *)
Theorem elPaginate_restricted (user : User) (indexName : string)
    (options : Paginate.Options) (d : Query.Document) :
  let query := Paginate.paginate_query cursorToOffset user indexName options in
  Query.matches d (Query.Bool (Paginate.query_must (Paginate.body query))
                              (Paginate.query_must_not (Paginate.body query)) [] None)
  = true →
  Query.visible d (buildMarkingRestriction user) = true.
Proof.
  intros query. unfold query, Paginate.paginate_query.
  cbn [Paginate.body Paginate.query_must Paginate.query_must_not].
  destruct (clauses_restriction user options) as (must & mustnot & -> & ->).
  apply restricted_by; set_solver.
Qed.

End PaginateMore.

Section PaginateOrder.
Context `{Schema} (conf : Config).
Context {SortKey Hit Node : Type}.
Context (cursorToOffset : string → SortKey).

(** X2. The request always sorts on exactly one key.  With an [orderBy],
    it is that attribute (its keyword sub-field unless it is a date or a
    number) in the asked mode, ascending when none is given, and only
    documents holding a value under that key match; without one, a search
    sorts on the score, descending, and any other call on the standard id,
    ascending. *)
Theorem elPaginate_ordering (user : User) (indexName : string)
    (options : Paginate.Options) :
  let query := Paginate.paginate_query cursorToOffset user indexName options in
  let orderBy := default "" (Paginate.orderBy options) in
  let orderKeyword :=
    if includes dateAttributes orderBy || includes numericOrBooleanAttributes orderBy
    then orderBy else orderBy +:+ ".keyword" in
  if Paginate.nonempty (Paginate.orderBy options) then
    Paginate.sort (Paginate.body query)
    = [(orderKeyword, default "asc" (Paginate.orderMode options))]
    ∧ ∀ d : Query.Document,
        Query.matches d (Query.Bool (Paginate.query_must (Paginate.body query))
                                    (Paginate.query_must_not (Paginate.body query)) [] None)
        = true →
        Query.values d orderKeyword ≠ []
  else if Paginate.nonempty (Paginate.search options) then
    Paginate.sort (Paginate.body query) = [("_score", "desc")]
  else
    Paginate.sort (Paginate.body query) = [("standard_id.keyword", "asc")].
Proof.
  intros query orderBy orderKeyword. unfold query, Paginate.paginate_query.
  cbn [Paginate.body Paginate.sort Paginate.query_must Paginate.query_must_not].
  unfold Paginate.clauses.
  destruct (fold_left Paginate.filter_step _ _) as [mustnot mustFilters].
  destruct (Paginate.nonempty (Paginate.orderBy options)) eqn:Horder.
  - fold orderBy. fold orderKeyword. cbn [Paginate.ordering Paginate.must Paginate.mustnot].
    split; [done|]. intros d. cbn [Query.matches].
    intros [[Hmust _]%andb_true_iff _]%andb_true_iff.
    rewrite forallb_app in Hmust. apply andb_true_iff in Hmust as [_ Hlast].
    cbn [forallb Query.matches] in Hlast. rewrite andb_true_r in Hlast.
    by apply bool_decide_eq_true in Hlast.
  - by destruct (Paginate.nonempty (Paginate.search options)).
Qed.

End PaginateOrder.

Lemma elPaginate_restricted_witness :
  Query.visible (indexed (Collaborators := platform_collaborators) Fixtures.marked_report)
    (buildMarkingRestriction (H := platform_schema) Samples.analyst) = true.
Proof.
  apply (@elPaginate_restricted platform_schema string Samples.cursor
           Samples.analyst "opencti_stix_domain_objects" Fixtures.reports
           (indexed (Collaborators := platform_collaborators) Fixtures.marked_report)).
  vm_compute. reflexivity.
Defined.

(** ** Escaping the text searched for *)

Lemma escape_cons (c : ascii) (s : string) :
  Paginate.specialElasticCharsEscape (String c s)
  = if Paginate.is_special c
    then String backslash (String c (Paginate.specialElasticCharsEscape s))
    else String c (Paginate.specialElasticCharsEscape s).
Proof.
  unfold Paginate.specialElasticCharsEscape. cbn [replace_chars].
  by destruct (Paginate.is_special c).
Qed.

Lemma backslash_special : Paginate.is_special backslash = true.
Proof. by vm_compute. Qed.

(** X3. Escaping loses nothing: two texts with the same escaped form are
    the same text.  A text without reserved characters is its own escaped
    form, and escaping adds exactly one character per reserved character. *)
Theorem specialElasticCharsEscape_injective (query : string) :
  (∀ other, Paginate.specialElasticCharsEscape query
            = Paginate.specialElasticCharsEscape other → query = other)
  ∧ String.length (Paginate.specialElasticCharsEscape query)
    = String.length query
      + length (List.filter Paginate.is_special (String.list_ascii_of_string query))
  ∧ (List.filter Paginate.is_special (String.list_ascii_of_string query) = [] →
     Paginate.specialElasticCharsEscape query = query).
Proof.
  split; [|split].
  - induction query as [|c query IH]; intros other.
    + destruct other as [|c' other]; [done|]. rewrite escape_cons.
      by destruct (Paginate.is_special c').
    + destruct other as [|c' other].
      * rewrite escape_cons. by destruct (Paginate.is_special c).
      * rewrite !escape_cons.
        destruct (Paginate.is_special c) eqn:Hc, (Paginate.is_special c') eqn:Hc'.
        -- intros [= -> Heq]. f_equal. by apply IH.
        -- intros [= <- _]. by rewrite backslash_special in Hc'.
        -- intros [= -> _]. by rewrite backslash_special in Hc.
        -- intros [= -> Heq]. f_equal. by apply IH.
  - induction query as [|c query IH]; [done|]. rewrite escape_cons.
    cbn [String.list_ascii_of_string List.filter].
    destruct (Paginate.is_special c); cbn [String.length length]; rewrite IH; lia.
  - induction query as [|c query IH]; [done|]. rewrite escape_cons.
    cbn [String.list_ascii_of_string List.filter].
    destruct (Paginate.is_special c); [done|]. intros Hnone. by rewrite IH.
Qed.

(** ** Listing *)

Section ListingFacts.
Context `{Schema} `{Collaborators} (conf : Config).





End ListingFacts.

Section ListingCallback.
Context `{Schema} `{Collaborators} (conf : Config).
Context {Consumer : Type}.

(** With a callback, nothing is ever added to the listing. *)
Lemma loop_callback_listing (callback : list Element.t → Consumer → Listing.Answer * Consumer)
    (first : Paginate.Count) (fuel : nat) (remaining listing : list Element.t)
    (c : Consumer) (pages : nat) (r : Listing.Listed) :
  Listing.loop fuel (Some callback) first remaining listing c pages = Return r →
  Listing.listing r = listing.
Proof.
  revert remaining c pages. induction fuel as [|fuel IH]; intros remaining c pages; [done|].
  cbn [Listing.loop Listing.publish].
  destruct (_ || _).
  - destruct (0 <? _)%nat; [destruct (callback _ c)|]; by intros [= <-].
  - destruct (callback _ c) as [a c']. destruct (Listing.goes_on a); [apply IH|by intros [= <-]].
Qed.

End ListingCallback.

Section ListingRecording.
Context `{Schema} `{Collaborators} (conf : Config).



End ListingRecording.

Section ListingStop.
Context `{Schema} `{Collaborators} (conf : Config).
Context {Consumer : Type}.


End ListingStop.




(** ** Access filter builder: more markings, more documents *)

Section AccessMore.
Context `{Schema}.

Lemma visible_with_markings (user : User) (d : Query.Document) :
  ¬ holds_bypass user → allowed_marking user ≠ [] →
  Query.visible d (buildMarkingRestriction user) = true
  ↔ Query.values d (buildRefRelationSearchKey RELATION_OBJECT_MARKING) = []
    ∨ ∀ M, forbidden_marking user M →
        internal_id M ∉ Query.values d (buildRefRelationSearchKey RELATION_OBJECT_MARKING).
Proof.
  intros Hbypass Hallowed. unfold buildMarkingRestriction.
  destruct (isBypass user) eqn:Hb; [by apply isBypass_holds in Hb|].
  destruct (length (allowed_marking user) =? 0)%nat eqn:Hlen.
  { apply Nat.eqb_eq in Hlen. by destruct (allowed_marking user). }
  unfold Query.visible. cbn [Query.must Query.must_not forallb].
  rewrite !andb_true_r. apply matches_markingBool.
Qed.

(** X7. Granting markings never hides a document.  Between two users
    without the bypass capability over the same universe of markings, the
    second holding every marking of the first (who holds at least one), every
    document that passes the restriction of the first passes that of the
    second. *)
Theorem buildMarkingRestriction_monotone (user1 user2 : User) (d : Query.Document) :
  ¬ holds_bypass user1 →
  allowed_marking user1 ≠ [] →
  allowed_marking user1 ⊆ allowed_marking user2 →
  all_marking user2 ⊆ all_marking user1 →
  Query.visible d (buildMarkingRestriction user1) = true →
  Query.visible d (buildMarkingRestriction user2) = true.
Proof.
  intros Hb1 Ha1 Hallowed Hall Hvis.
  destruct (isBypass user2) eqn:Hb2.
  { unfold buildMarkingRestriction. by rewrite Hb2. }
  assert (¬ holds_bypass user2) as Hnb2.
  { intros Hh. apply isBypass_holds in Hh. congruence. }
  assert (allowed_marking user2 ≠ []) as Ha2.
  { destruct (allowed_marking user1) as [|M l] eqn:E; [done|].
    intros Hnil. specialize (Hallowed M). rewrite Hnil in Hallowed.
    eapply not_elem_of_nil, Hallowed. left. }
  apply visible_with_markings in Hvis; [|done..].
  apply visible_with_markings; [done..|].
  destruct Hvis as [Hnone|Hno]; [by left|right].
  intros M [HM Hlack]. apply Hno. split; [by apply Hall|]. intros Hin. by apply Hlack, Hallowed.
Qed.

End AccessMore.

Lemma buildMarkingRestriction_monotone_witness :
  Query.visible (indexed (Collaborators := platform_collaborators) Fixtures.marked_report)
    (buildMarkingRestriction (H := platform_schema) Fixtures.senior) = true.
Proof.
  apply (@buildMarkingRestriction_monotone platform_schema Samples.analyst Fixtures.senior
           (indexed (Collaborators := platform_collaborators) Fixtures.marked_report)).
  - intros Hb%isBypass_holds. by vm_compute in Hb.
  - discriminate.
  - intros M HM. apply elem_of_cons. left.
    by apply list_elem_of_singleton in HM.
  - intros M HM. exact HM.
  - vm_compute. reflexivity.
Defined.

(** ** Relation projection codec: when decoding fails *)

Section CodecMore.
Context `{Schema}.
Import Codec.

Lemma find_role (r : string) (connections : list Connection.t) :
  is_Some (find (role_is r) connections)
  ↔ ∃ c, c ∈ connections ∧ Connection.role c = Some r.
Proof.
  split.
  - intros [c Hc]. apply find_some in Hc as [Hin Hrole].
    exists c. split; [by apply list_elem_of_In|]. by apply bool_decide_eq_true in Hrole.
  - intros (c & Hin & Hrole). destruct (find _ _) eqn:Hf; [done|].
    apply list_elem_of_In in Hin. pose proof (find_none _ _ Hf c Hin) as Hno.
    unfold role_is in Hno. by rewrite bool_decide_eq_true_2 in Hno.
Qed.

(** X8. Decoding succeeds exactly when the document is not of the
    relation base type, or holds a connection with the role
    [<entity_type>_from] and one with the role [<entity_type>_to]; a document
    that is not a relationship comes back as it is, a decoded relationship
    takes its ends from the first connection of each role, and the only
    failure is the [DatabaseError] of the reconstruction. *)
Theorem elRebuildRelation_outcome (concept : Concept.t) :
  let from_role := Concept.entity_type concept +:+ "_from" in
  let to_role := Concept.entity_type concept +:+ "_to" in
  let has r := ∃ c, c ∈ Concept.connections concept ∧ Connection.role c = Some r in
  match elRebuildRelation concept with
  | inr (Unchanged c) => Concept.base_type concept ≠ BASE_TYPE_RELATION ∧ c = concept
  | inr (IsRelation r) =>
      Concept.base_type concept = BASE_TYPE_RELATION
      ∧ (∃ fromC toC,
           find (role_is from_role) (Concept.connections concept) = Some fromC
           ∧ find (role_is to_role) (Concept.connections concept) = Some toC
           ∧ Relation.fromId r = Connection.internal_id fromC
           ∧ Relation.toId r = Connection.internal_id toC
           ∧ Relation.fromRole r = Some from_role
           ∧ Relation.toRole r = Some to_role)
      ∧ Relation.relationship_type r = Some (Concept.entity_type concept)
      ∧ Relation.fields r = Concept.fields concept
  | inl e =>
      Concept.base_type concept = BASE_TYPE_RELATION
      ∧ (¬ has from_role ∨ ¬ has to_role)
      ∧ e = AppError DatabaseError "[ELASTIC] Something fail in reconstruction of the relation"
  end.
Proof.
  intros from_role to_role has. unfold elRebuildRelation.
  case_bool_decide as Hbase; [|done].
  fold from_role. fold to_role.
  pose proof (find_role from_role (Concept.connections concept)) as Hfrom.
  pose proof (find_role to_role (Concept.connections concept)) as Hto.
  destruct (find (role_is from_role) _) as [fromC|] eqn:Hf;
    destruct (find (role_is to_role) _) as [toC|] eqn:Ht; cbn.
  - split; [done|]. split; [|done]. exists fromC, toC.
    apply find_some in Hf as [_ Hf]. apply find_some in Ht as [_ Ht].
    apply bool_decide_eq_true in Hf, Ht. done.
  - split; [done|]. split; [|done]. right. intros Hhas. apply Hto in Hhas. by destruct Hhas.
  - split; [done|]. split; [|done]. left. intros Hhas. apply Hfrom in Hhas. by destruct Hhas.
  - split; [done|]. split; [|done]. left. intros Hhas. apply Hfrom in Hhas. by destruct Hhas.
Qed.

End CodecMore.

Section CountFacts.
Context `{Schema}.

(** X9. Whatever the options, the query of a count only matches documents
    that pass the marking restriction of the user; with types asked for, it
    matches only documents of one of them (by type or by parent type), and
    with a [fromId] outside a meta relationship only documents holding that
    id among their connections. *)
Theorem elCount_scope (user : User) (indexName : string) (options : Count.Options)
    (d : Query.Document) :
  let query := Count.count_query user indexName options in
  Query.matches d (Query.Bool (Count.must query) (Count.must_not query) [] None) = true →
  Query.visible d (buildMarkingRestriction user) = true
  ∧ (∀ types, Count.types options = Some types → types ≠ [] →
       ∃ type, type ∈ types
               ∧ (type ∈ Query.values d "entity_type.keyword"
                  ∨ type ∈ Query.values d "parent_types.keyword"))
  ∧ (∀ fromId, Count.fromId options = Some fromId →
       default false (Count.isMetaRelationship options) = false →
       fromId ∈ Query.values d "connections.internal_id.keyword").
Proof.
  intros query Hm. split; [|split].
  - revert Hm. apply restricted_by; [|done].
    unfold query, Count.count_query. cbn [Count.must]. set_solver.
  - intros types Htypes Hne.
    cbn [Query.matches] in Hm. apply andb_true_iff in Hm as [[Hm _]%andb_true_iff _].
    rewrite forallb_matches in Hm.
    specialize (Hm (Query.Bool [] [] (Query.type_clause <$> types) (Some 1))).
    rewrite matches_one_of in Hm. destruct Hm as (q & Hq & Hmq).
    + unfold query, Count.count_query. cbn [Count.must].
      unfold Count.types_clause at 1. rewrite Htypes.
      destruct types; [done|]. cbn [length Nat.ltb Nat.leb]. set_solver.
    + apply list_elem_of_fmap in Hq as (type & -> & Hin).
      exists type. split; [done|]. by apply matches_type_clause.
  - intros fromId Hfrom Hmeta.
    cbn [Query.matches] in Hm. apply andb_true_iff in Hm as [[Hm _]%andb_true_iff _].
    rewrite forallb_matches in Hm.
    specialize (Hm (Query.Nested "connections"
      (Query.Bool [Query.MatchPhrase "connections.internal_id.keyword" fromId] [] [] None))).
    cbn [Query.matches forallb] in Hm. rewrite !andb_true_r in Hm.
    eapply bool_decide_eq_true_1, Hm.
    unfold query, Count.count_query. cbn [Count.must].
    unfold Count.from_clause at 1. rewrite Hfrom, Hmeta. set_solver.
Qed.

End CountFacts.

Section FinderFacts.
Context `{Schema} `{Collaborators}.

Lemma from_and_to_matches (user : User) (fromId toId relationshipType : string)
    (d : Query.Document) :
  Query.matches d (Finders.from_and_to_query user fromId toId relationshipType) = true
  ↔ Query.visible d (buildMarkingRestriction user) = true
    ∧ fromId ∈ Query.values d "connections.internal_id.keyword"
    ∧ toId ∈ Query.values d "connections.internal_id.keyword"
    ∧ (relationshipType ∈ Query.values d "entity_type.keyword"
       ∨ relationshipType ∈ Query.values d "parent_types.keyword").
Proof.
  unfold Finders.from_and_to_query, Query.visible.
  cbn [Query.matches]. rewrite <- !app_assoc. cbn [app].
  rewrite forallb_app. cbn [forallb]. fold (Query.matches d (Query.type_clause relationshipType)).
  cbn [Query.matches forallb Query.msm_default default List.filter length Nat.leb].
  assert (∀ m, Query.msm_default m [] = 0) as -> by (by intros []). cbn [Nat.leb].
  rewrite !andb_true_r, !andb_true_iff, !bool_decide_eq_true, matches_type_clause.
  naive_solver.
Qed.

(** X10. On an engine that answers, the lookup of the relationships
    between two elements leaves the engine as it is and is blind to the
    direction: asked with the two ids swapped it returns the same list.  It
    returns at most [MAX_SEARCH_SIZE] documents of the engine, each of which
    passes the marking restriction of the user, holds both ids among its
    connections, and is of the asked type (by type or by parent type). *)
Theorem elFindByFromAndTo_hits (user : User) (fromId toId relationshipType : string)
    (w : World) :
  ∃ hits,
    Finders.elFindByFromAndTo user fromId toId relationshipType w = (Return hits, w)
    ∧ Finders.elFindByFromAndTo user toId fromId relationshipType w = (Return hits, w)
    ∧ (Z.of_nat (length hits) ≤ MAX_SEARCH_SIZE)%Z
    ∧ ∀ e, e ∈ hits →
        e ∈ docs w
        ∧ Query.visible (indexed e) (buildMarkingRestriction user) = true
        ∧ fromId ∈ Query.values (indexed e) "connections.internal_id.keyword"
        ∧ toId ∈ Query.values (indexed e) "connections.internal_id.keyword"
        ∧ (relationshipType ∈ Query.values (indexed e) "entity_type.keyword"
           ∨ relationshipType ∈ Query.values (indexed e) "parent_types.keyword").
Proof.
  eexists. split; [reflexivity|]. split; [|split].
  - unfold Finders.elFindByFromAndTo, mbind, M_bind, gets, mret, M_ret. cbn beta iota.
    do 2 f_equal. unfold Lookup.el_search. f_equal.
    induction (docs w) as [|e ds IH]; [done|]. cbn [List.filter]. rewrite IH.
    assert (Query.matches (indexed e)
              (Finders.from_and_to_query user toId fromId relationshipType)
            = Query.matches (indexed e)
                (Finders.from_and_to_query user fromId toId relationshipType))
      as ->; [|done].
    apply eq_true_iff_eq. rewrite !from_and_to_matches. naive_solver.
  - unfold Lookup.el_search. rewrite length_take. unfold MAX_SEARCH_SIZE. lia.
  - intros e He. unfold Lookup.el_search in He.
    apply subseteq_take, list_elem_of_In, filter_In in He as [Hd Hm].
    apply from_and_to_matches in Hm. split; [by apply list_elem_of_In|done].
Qed.

(** Where the elements of a lookup by ids come from: the cache, having
    passed its filter, or the engine, having passed the restriction. *)
Lemma elFindByIds_hits (user : User) (ids : list (option string))
    (type : option string) (w : World) :
  ∃ hits w',
    Lookup.elFindByIds user ids type w = (Return hits, w')
    ∧ docs w' = docs w
    ∧ ∀ e, e ∈ hits →
        (∃ k, (k, Some e) ∈ or_empty (cacheGet ids)
              ∧ Lookup.cache_accessible user type (Some e) = true)
        ∨ (e ∈ docs w
           ∧ Query.visible (indexed e) (buildMarkingRestriction user) = true).
Proof.
  unfold Lookup.elFindByIds. destruct (_ =? _)%nat.
  { eexists _, _. split; [done|]. split; [done|]. intros e He. by apply not_elem_of_nil in He. }
  set (c := Lookup.loadFromCache user ids type).
  assert (Hsearch : ∃ elasticHits w',
    (if (0 <? length (List.filter (λ i, negb (includes (Lookup.cached c) i))
                        (omap (λ i, match i with
                                    | Some s => if bool_decide (s = "") then None else Some s
                                    | None => None
                                    end) ids)))%nat
     then Lookup.search_groups user type
            (splitEvery MAX_SPLIT
               (List.filter (λ i, negb (includes (Lookup.cached c) i))
                  (omap (λ i, match i with
                              | Some s => if bool_decide (s = "") then None else Some s
                              | None => None
                              end) ids)))
     else mret []) w = (Return elasticHits, w')
    ∧ docs w' = docs w
    ∧ ∀ kv, kv ∈ elasticHits → kv.2 ∈ docs w
        ∧ Query.visible (indexed kv.2) (buildMarkingRestriction user) = true).
  { destruct (0 <? length _)%nat.
    - apply search_groups_hits.
    - exists [], w. split; [done|]. split; [done|].
      intros kv Hkv. by apply not_elem_of_nil in Hkv. }
  destruct Hsearch as (elasticHits & w' & Hrun & Hdocs & Hhits).
  unfold mbind, M_bind. rewrite Hrun. eexists _, _. split; [reflexivity|]. split; [done|].
  intros e He. unfold object_values in He.
  apply list_elem_of_fmap in He as ([k e'] & -> & Hin). cbn [snd].
  apply elem_of_obj_merge in Hin as [(k' & Hin)|(k' & Hin)]; cbn [snd] in Hin.
  - left. by apply accessible_from_cache in Hin.
  - right. by apply (Hhits (k', e')).
Qed.

(** X11. On an engine that answers, a batch lookup returns one slot per
    asked id, in the order asked, and leaves the engine's documents as they
    are.  A filled slot holds an element whose internal id is the asked id
    (an element found through another of its ids fills no slot), which
    either is a cached value that passed the filter of the cache or a
    document of the engine that passes the marking restriction of the
    user. *)
Theorem elBatchIds_aligned (user : User) (ids : list (option string)) (w : World) :
  ∃ batch w',
    Finders.elBatchIds user ids w = (Return batch, w')
    ∧ docs w' = docs w
    ∧ length batch = length ids
    ∧ ∀ i e, batch !! i = Some (Some e) →
        ids !! i = Some (Some (Element.internal_id e))
        ∧ ((∃ k, (k, Some e) ∈ or_empty (cacheGet ids)
                 ∧ Lookup.cache_accessible user None (Some e) = true)
           ∨ (e ∈ docs w
              ∧ Query.visible (indexed e) (buildMarkingRestriction user) = true)).
Proof.
  unfold Finders.elBatchIds.
  destruct (elFindByIds_hits user ids None w) as (hits & w' & Hrun & Hdocs & Hhits).
  unfold mbind, M_bind. rewrite Hrun. eexists _, _. split; [reflexivity|].
  split; [done|]. split; [by rewrite length_fmap|].
  intros i e Hi. rewrite list_lookup_fmap in Hi.
  destruct (ids !! i) as [id|]; [|done]. cbn in Hi. injection Hi as Hfind.
  apply find_some in Hfind as [Hin Hid]. apply bool_decide_eq_true in Hid.
  split; [by rewrite Hid|]. by apply Hhits, list_elem_of_In.
Qed.

(** X12. On an engine that answers, loading by id returns the only
    element found for the id, nothing when none is found, and fails with a
    [DatabaseError] when the id designates more than one element.  The element found is a cached
    value that passed the filter of the cache, or a document of the engine
    that passes the marking restriction of the user. *)
Theorem elLoadById_outcome (user : User) (id : option string) (type : option string)
    (w : World) :
  ∃ w',
    docs w' = docs w
    ∧ ((Finders.elLoadById user id type w = (Return None, w')
        ∧ Lookup.elFindByIds user [id] type w = (Return [], w'))
       ∨ (∃ e,
            Finders.elLoadById user id type w = (Return (Some e), w')
            ∧ Lookup.elFindByIds user [id] type w = (Return [e], w')
            ∧ ((∃ k, (k, Some e) ∈ or_empty (cacheGet [id])
                     ∧ Lookup.cache_accessible user type (Some e) = true)
               ∨ (e ∈ docs w
                  ∧ Query.visible (indexed e) (buildMarkingRestriction user) = true)))
       ∨ (∃ hits,
            Finders.elLoadById user id type w
            = (Throw (AppError DatabaseError "Expect only one response"), w')
            ∧ Lookup.elFindByIds user [id] type w = (Return hits, w')
            ∧ 1 < length hits)).
Proof.
  destruct (elFindByIds_hits user [id] type w) as (hits & w' & Hrun & Hdocs & Hhits).
  exists w'. split; [done|].
  unfold Finders.elLoadById, mbind, M_bind. rewrite Hrun.
  destruct hits as [|e [|e' hits]].
  - by left.
  - right; left. exists e. split; [done|]. split; [done|]. apply Hhits. by left.
  - right; right. eexists. split; [done|]. split; [done|]. cbn. lia.
Qed.

End FinderFacts.

(** ** Aggregations *)

Section AggregationFacts.
Context `{Schema} `{Utils}.
Context (engine : Aggregation.Request → Exn + list Aggregation.Bucket).

(** X13. The terms aggregation counts only documents that pass the marking
    restriction of the user and are of the asked type (by type or by parent
    type).  Its result has one entry per bucket of the engine, in the
    engine's order, with the bucket's count; the label is the bucket's key
    as it is when the aggregated field ends in [internal_id], and its
    pascalized form otherwise.  A rejection by the engine comes out as a
    [DatabaseError]. *)
Theorem elAggregationCount_outcome (user : User) (type aggregationField : string)
    (start end_ : option string) (filters : list Histogram.Filter)
    (t : list Aggregation.Event) :
  let query := Aggregation.aggregation_query user type aggregationField start end_ filters in
  let sent := t ++ [Aggregation.LogDebug "[ELASTICSEARCH] aggregationCount";
                    Aggregation.Search query] in
  (∀ d : Query.Document,
     Query.matches d
       (Query.Bool (Aggregation.must query) (Aggregation.must_not query)
          (Aggregation.should query) (Some (Aggregation.minimum_should_match query)))
     = true →
     Query.visible d (buildMarkingRestriction user) = true
     ∧ (type ∈ Query.values d "entity_type.keyword"
        ∨ type ∈ Query.values d "parent_types.keyword"))
  ∧ match engine query with
    | inr buckets =>
        ∃ counts,
          Aggregation.elAggregationCount engine user type aggregationField start end_
            filters t = (Return counts, sent)
          ∧ Aggregation.value <$> counts = Aggregation.doc_count <$> buckets
          ∧ Aggregation.label <$> counts
            = (if str_ends_with "internal_id" aggregationField
               then Aggregation.key <$> buckets
               else (λ b, pascalize (Aggregation.key b)) <$> buckets)
    | inl _ =>
        Aggregation.elAggregationCount engine user type aggregationField start end_
          filters t = (Throw (AppError DatabaseError "Aggregation fail"), sent)
    end.
Proof.
  intros query sent. split.
  - intros d Hm. split.
    + revert Hm. apply restricted_by; [|done].
      unfold query, Aggregation.aggregation_query. cbn [Aggregation.must]. set_solver.
    + cbn [Query.matches] in Hm. apply andb_true_iff in Hm as [_ Hmsm].
      cbn [Aggregation.should Aggregation.minimum_should_match query
           Aggregation.aggregation_query default] in Hmsm.
      apply matches_type_clause. unfold Query.type_clause.
      cbn [Query.matches forallb andb default]. done.
  - unfold Aggregation.elAggregationCount. fold query.
    unfold mbind, M_bind, modify. cbn beta iota. rewrite <- app_assoc. cbn [app]. fold sent.
    destruct (engine query) as [e|buckets]; [done|].
    eexists. split; [reflexivity|]. rewrite <- !list_fmap_compose. split; [done|].
    by destruct (str_ends_with _ _).
Qed.

End AggregationFacts.

Section HistogramScope.
Context `{Schema}.

(** X14. The date histogram counts only documents that pass the marking
    restriction of the user and whose date field is within the two bounds;
    with a type, only documents of that type (by type or by parent type). *)
Theorem elHistogramCount_scope (user : User) (type : option string)
    (field interval dateFormat start end_ : string) (toTypes : list string)
    (filters : list Histogram.Filter) (d : Query.Document) :
  let query :=
    Histogram.histogram_query user type field interval dateFormat start end_
      toTypes filters in
  Query.matches d (Query.Bool (Histogram.must query) (Histogram.must_not query) [] None)
  = true →
  Query.visible d (buildMarkingRestriction user) = true
  ∧ Query.in_range d field "gte" start = true
  ∧ Query.in_range d field "lte" end_ = true
  ∧ (∀ t, type = Some t → t ≠ "" →
       t ∈ Query.values d "entity_type.keyword"
       ∨ t ∈ Query.values d "parent_types.keyword").
Proof.
  intros query Hm.
  assert (Hmust : ∀ q, q ∈ Histogram.must query → Query.matches d q = true).
  { cbn [Query.matches] in Hm. apply andb_true_iff in Hm as [[Hm _]%andb_true_iff _].
    by apply forallb_matches. }
  split; [|split; [|split]].
  - revert Hm. apply restricted_by; [|done].
    unfold query, Histogram.histogram_query. cbn [Histogram.must]. set_solver.
  - specialize (Hmust (Query.Range field [("gte", start); ("lte", end_)])).
    cbn [Query.matches forallb fst snd] in Hmust.
    apply andb_true_iff in Hmust as [Hg _]; [done|].
    unfold query, Histogram.histogram_query. cbn [Histogram.must].
    repeat match goal with |- context [if ?b then _ else _] => destruct b end;
      destruct type; repeat case_bool_decide; set_solver.
  - specialize (Hmust (Query.Range field [("gte", start); ("lte", end_)])).
    cbn [Query.matches forallb fst snd] in Hmust.
    apply andb_true_iff in Hmust as [_ [Hl _]%andb_true_iff]; [done|].
    unfold query, Histogram.histogram_query. cbn [Histogram.must].
    repeat match goal with |- context [if ?b then _ else _] => destruct b end;
      destruct type; repeat case_bool_decide; set_solver.
  - intros t -> Ht. apply matches_type_clause, Hmust.
    unfold query, Histogram.histogram_query. cbn [Histogram.must].
    rewrite bool_decide_eq_false_2 by done.
    destruct (0 <? _)%nat; set_solver.
Qed.

End HistogramScope.

Section RelationsCountFacts.
Context `{Schema} `{Collaborators} `{Utils}.
Context (engine : RelationsCount.Request → Exn + RelationsCount.Answer).

(** X15. A [field] other than [entity_type] and [internal_id] fails with a
    [FunctionalError] before anything is logged, sent to the engine or
    looked up. *)
Theorem elAggregationRelationsCount_unsupported (user : User) (type : string)
    (options : RelationsCount.Options) (field : string)
    (s : World * list RelationsCount.Event) :
  RelationsCount.field options = Some field →
  field ∉ ["entity_type"; "internal_id"] →
  RelationsCount.elAggregationRelationsCount engine user type options s
  = (Throw (AppError FunctionalError "Unsupported field"), s).
Proof.
  intros Hfield Hout. unfold RelationsCount.elAggregationRelationsCount.
  unfold RelationsCount.supported. rewrite Hfield.
  rewrite !bool_decide_eq_false_2 by set_solver. done.
Qed.

Lemma in_world_log {A} (m : M World A) (s : World * list RelationsCount.Event) :
  (RelationsCount.in_world m s).2.2 = s.2.
Proof. unfold RelationsCount.in_world. by destruct (m s.1). Qed.


(** X17. Aggregated by [internal_id], the result is the engine's buckets
    in their order, each under its key, without the bucket of the pivot:
    no label is the [fromId], and no other bucket is left out. *)
Theorem elAggregationRelationsCount_by_id (user : User) (type : string)
    (options : RelationsCount.Options) (data : RelationsCount.Answer)
    (s : World * list RelationsCount.Event) :
  RelationsCount.field options = Some "internal_id" →
  engine (RelationsCount.relations_query user type options) = inr data →
  ∃ counts s',
    RelationsCount.elAggregationRelationsCount engine user type options s
    = (Return counts, s')
    ∧ s'.1 = s.1
    ∧ (∀ c, c ∈ counts → Some (Aggregation.label c) ≠ RelationsCount.fromId options)
    ∧ (∀ label value,
         {| Aggregation.label := label; Aggregation.value := value |} ∈ counts
         ↔ {| Aggregation.key := label; Aggregation.doc_count := value |}
             ∈ RelationsCount.buckets data
           ∧ Some label ≠ RelationsCount.fromId options)
    ∧ Aggregation.label <$> counts
      `sublist_of` Aggregation.key <$> RelationsCount.buckets data.
Proof.
  intros Hfield Hengine. unfold RelationsCount.elAggregationRelationsCount.
  unfold RelationsCount.supported. rewrite Hfield. cbn [negb orb bool_decide].
  rewrite (bool_decide_eq_true_2 ("internal_id" = "internal_id")) by done.
  rewrite orb_true_r. cbn [negb].
  unfold mbind, M_bind, RelationsCount.log, modify, RelationsCount.catch. cbn beta iota.
  rewrite Hengine. unfold RelationsCount.counted.
  rewrite Hfield, bool_decide_eq_true_2 by done. unfold mret, M_ret.
  eexists _, _. split; [reflexivity|]. split; [done|].
  set (kept := List.filter _ _).
  assert (Hkept : ∀ b, b ∈ kept ↔ b ∈ RelationsCount.buckets data
                          ∧ Some (Aggregation.key b) ≠ RelationsCount.fromId options).
  { intros b. unfold kept. rewrite list_elem_of_In, filter_In, <- list_elem_of_In.
    by rewrite negb_true_iff, bool_decide_eq_false. }
  split; [|split].
  - intros c (b & -> & Hb)%list_elem_of_fmap. by apply Hkept in Hb as [_ Hb].
  - intros label value. rewrite list_elem_of_fmap. split.
    + intros (b & [= -> ->] & Hb). apply Hkept in Hb. by destruct b.
    + intros Hb. eexists {| Aggregation.key := label; Aggregation.doc_count := value |}.
      split; [done|]. by apply Hkept.
  - rewrite <- list_fmap_compose. apply fmap_sublist.
    unfold kept. clear. induction (RelationsCount.buckets data) as [|b l IH]; [done|].
    cbn [List.filter]. destruct (negb _); by constructor.
Qed.

End RelationsCountFacts.

Lemma elCount_scope_witness :
  Query.visible (indexed (Collaborators := platform_collaborators) Fixtures.marked_report)
    (buildMarkingRestriction (H := platform_schema) Samples.analyst) = true
  ∧ (∀ types, Count.types Fixtures.count_reports = Some types → types ≠ [] →
       ∃ type, type ∈ types
               ∧ (type ∈ Query.values
                           (indexed (Collaborators := platform_collaborators)
                              Fixtures.marked_report) "entity_type.keyword"
                  ∨ type ∈ Query.values
                             (indexed (Collaborators := platform_collaborators)
                                Fixtures.marked_report) "parent_types.keyword"))
  ∧ (∀ fromId, Count.fromId Fixtures.count_reports = Some fromId →
       default false (Count.isMetaRelationship Fixtures.count_reports) = false →
       fromId ∈ Query.values
                  (indexed (Collaborators := platform_collaborators) Fixtures.marked_report)
                  "connections.internal_id.keyword").
Proof.
  apply (@elCount_scope platform_schema Samples.analyst "opencti_stix_domain_objects"
           Fixtures.count_reports
           (indexed (Collaborators := platform_collaborators) Fixtures.marked_report)).
  vm_compute. reflexivity.
Defined.

Lemma elHistogramCount_scope_witness :
  Query.visible Fixtures.dated_report
    (buildMarkingRestriction (H := platform_schema) Samples.analyst) = true
  ∧ Query.in_range Fixtures.dated_report "created_at" "gte" "2021-01-01" = true
  ∧ Query.in_range Fixtures.dated_report "created_at" "lte" "2021-03-01" = true
  ∧ (∀ t, Some "Report" = Some t → t ≠ "" →
       t ∈ Query.values Fixtures.dated_report "entity_type.keyword"
       ∨ t ∈ Query.values Fixtures.dated_report "parent_types.keyword").
Proof.
  apply (@elHistogramCount_scope platform_schema Samples.analyst (Some "Report")
           "created_at" "month" "yyyy-MM" "2021-01-01" "2021-03-01" [] []
           Fixtures.dated_report).
  vm_compute. reflexivity.
Defined.

Lemma elAggregationRelationsCount_unsupported_witness :
  RelationsCount.elAggregationRelationsCount (H := platform_schema)
    (H0 := platform_collaborators) (H1 := Fixtures.platform_utils)
    Fixtures.relations_engine Samples.analyst "uses" (Fixtures.by_field (Some "name"))
    (Samples.small_world, [])
  = (Throw (AppError FunctionalError "Unsupported field"), (Samples.small_world, [])).
Proof.
  apply (@elAggregationRelationsCount_unsupported platform_schema platform_collaborators
           Fixtures.platform_utils Fixtures.relations_engine Samples.analyst "uses"
           (Fixtures.by_field (Some "name")) "name" (Samples.small_world, [])).
  - reflexivity.
  - intros Hin. repeat (apply elem_of_cons in Hin as [Hin|Hin]; [discriminate|]).
    by apply not_elem_of_nil in Hin.
Defined.


Lemma elAggregationRelationsCount_by_id_witness :
  ∃ counts s',
    RelationsCount.elAggregationRelationsCount (H := platform_schema)
      (H0 := platform_collaborators) (H1 := Fixtures.platform_utils)
      Fixtures.relations_engine Samples.analyst "uses"
      (Fixtures.by_field (Some "internal_id")) (Samples.small_world, [])
    = (Return counts, s')
    ∧ s'.1 = Samples.small_world
    ∧ (∀ c, c ∈ counts → Some (Aggregation.label c) ≠ Some "E")
    ∧ (∀ label value,
         {| Aggregation.label := label; Aggregation.value := value |} ∈ counts
         ↔ {| Aggregation.key := label; Aggregation.doc_count := value |}
             ∈ RelationsCount.buckets Fixtures.relations_answer
           ∧ Some label ≠ Some "E")
    ∧ Aggregation.label <$> counts
      `sublist_of` Aggregation.key <$> RelationsCount.buckets Fixtures.relations_answer.
Proof.
  apply (@elAggregationRelationsCount_by_id platform_schema platform_collaborators
           Fixtures.platform_utils Fixtures.relations_engine Samples.analyst "uses"
           (Fixtures.by_field (Some "internal_id")) Fixtures.relations_answer
           (Samples.small_world, [])); reflexivity.
Defined.

(** ** Cascading deletion engine: what a deletion leaves *)

(** Bulk deletions remove the documents they address, whatever their
    order, and report no item in error. *)
Lemma apply_deletes (instances : list Element.t) (ds : list Element.t) (errors : bool) :
  fold_left Deletion.apply_op
    (instances ≫= (λ doc, [Delete (Element._index doc) (Element.internal_id doc)]))
    (ds, errors)
  = (List.filter
       (λ e, negb (existsb (λ doc, Deletion.addressed (Element._index doc)
                                     (Element.internal_id doc) e) instances)) ds,
     errors).
Proof.
  revert ds. induction instances as [|doc instances IH]; intros ds; cbn.
  - f_equal. induction ds as [|e ds IHds]; [done|]. cbn. by rewrite <- IHds.
  - rewrite IH. f_equal. induction ds as [|e ds IHds]; [done|]. cbn.
    destruct (Deletion.addressed _ _ e); cbn; [done|].
    destruct (existsb _ instances); cbn; by rewrite IHds.
Qed.

(** Deleting a non-empty list of instances always succeeds, with one cache
    invalidation and one bulk request of one delete per instance; the engine
    then holds its former documents except those an instance addresses. *)
Lemma elDeleteInstanceIds_run (instances : list Element.t) (w : World) :
  instances ≠ [] →
  Deletion.elDeleteInstanceIds instances w
  = (Return (),
     {| docs :=
          List.filter
            (λ e, negb (existsb (λ doc, Deletion.addressed (Element._index doc)
                                          (Element.internal_id doc) e) instances))
            (docs w);
        trace :=
          trace w
          ++ [ CacheDel (Element.internal_id <$> instances);
               ElBulk ((λ doc, Delete (Element._index doc) (Element.internal_id doc))
                       <$> instances) ] |}).
Proof.
  intros Hne. unfold Deletion.elDeleteInstanceIds.
  destruct instances as [|i instances]; [done|]. cbn [length Nat.ltb Nat.leb].
  unfold Deletion.elBulk, emit, mbind, M_bind, modify, gets. cbn beta iota.
  cbn [docs trace]. rewrite apply_deletes. cbn beta iota. cbn [docs trace].
  unfold mret, M_ret. f_equal. f_equal. rewrite <- app_assoc. cbn [app]. do 3 f_equal.
Qed.

(** Whatever the list, the documents left are those no instance addresses. *)
Lemma elDeleteInstanceIds_docs (instances : list Element.t) (w : World) :
  ∃ w',
    Deletion.elDeleteInstanceIds instances w = (Return (), w')
    ∧ docs w'
      = List.filter
          (λ e, negb (existsb (λ doc, Deletion.addressed (Element._index doc)
                                        (Element.internal_id doc) e) instances))
          (docs w).
Proof.
  destruct instances as [|i instances].
  - exists w. split; [done|]. cbn. induction (docs w) as [|e ds IH]; [done|].
    cbn. by rewrite <- IH.
  - eexists. by rewrite elDeleteInstanceIds_run.
Qed.

Lemma filter_filter_addressed (xs ys : list Element.t) (ds : list Element.t) :
  List.filter
    (λ e, negb (existsb (λ doc, Deletion.addressed (Element._index doc)
                                  (Element.internal_id doc) e) ys))
    (List.filter
       (λ e, negb (existsb (λ doc, Deletion.addressed (Element._index doc)
                                     (Element.internal_id doc) e) xs)) ds)
  = List.filter
      (λ e, negb (existsb (λ doc, Deletion.addressed (Element._index doc)
                                    (Element.internal_id doc) e) (xs ++ ys))) ds.
Proof.
  induction ds as [|e ds IH]; [done|]. cbn [List.filter]. rewrite existsb_app.
  destruct (existsb _ xs); cbn [negb orb]; [done|]. cbn [List.filter].
  destruct (existsb _ ys); cbn [negb]; by rewrite IH.
Qed.

(** Deleting group after group leaves the documents that no instance of
    any group addresses. *)
Lemma mapM_elDeleteInstanceIds (groups : list (list Element.t)) (w : World) :
  ∃ us w',
    mapM Deletion.elDeleteInstanceIds groups w = (Return us, w')
    ∧ docs w'
      = List.filter
          (λ e, negb (existsb (λ doc, Deletion.addressed (Element._index doc)
                                        (Element.internal_id doc) e) (mjoin groups)))
          (docs w).
Proof.
  revert w. induction groups as [|g groups IH]; intros w.
  - exists [], w. split; [done|]. cbn. induction (docs w) as [|e ds IHd]; [done|].
    cbn. by rewrite <- IHd.
  - destruct (elDeleteInstanceIds_docs g w) as (w1 & Hg & Hdocs1).
    destruct (IH w1) as (us & w' & Hrest & Hdocs).
    exists (() :: us), w'. split.
    + cbn [mapM]. unfold mbind, M_bind. rewrite Hg, Hrest. done.
    + rewrite Hdocs, Hdocs1. apply filter_filter_addressed.
Qed.

Lemma chunks_join {A} (n : N) (cur : list A) (k : N) (l : list A) :
  k = N.of_nat (length cur) → (k < n)%N →
  mjoin (chunks n cur k l) = rev cur ++ l.
Proof.
  revert cur k. induction l as [|x l IH]; intros cur k Hk Hn; cbn [chunks].
  - destruct cur as [|a cur]; [done|].
    change (mjoin [rev (a :: cur)]) with (rev (a :: cur) ++ []). by rewrite !app_nil_r.
  - destruct (k + 1 =? n)%N eqn:Hfull.
    + change (mjoin (rev (x :: cur) :: chunks n [] 0 l))
        with (rev (x :: cur) ++ mjoin (chunks n [] 0 l)).
      rewrite (IH [] 0%N); [|done|lia]. cbn [rev app].
      by rewrite <- app_assoc.
    + apply N.eqb_neq in Hfull. rewrite IH.
      * cbn [rev]. by rewrite <- app_assoc.
      * cbn [length]. lia.
      * lia.
Qed.

(** The pieces of [R.splitEvery] put end to end are the list. *)
Lemma splitEvery_join {A} (n : N) (l : list A) :
  (0 < n)%N → mjoin (splitEvery n l) = l.
Proof. intros Hn. unfold splitEvery. by rewrite chunks_join. Qed.

Section DeletionFacts.
Context `{Schema} `{Collaborators} (conf : Config).

(** X18. Deleting elements that are not relationships themselves and that
    no relationship references (the listing of the relationships connected
    to them is empty): nothing else is looked up or updated, the result is
    empty, and the engine loses exactly the documents the elements address,
    by one cache invalidation and one bulk request of deletes. *)
Theorem elDeleteElements_unreferenced {Loaded : Type} (fuel : nat) (user : User)
    (elements : list Element.t) (loaders : Deletion.Loaders Loaded) (w : World) :
  elements ≠ [] →
  Forall (λ e, isBasicRelationship (Element.entity_type e) = false) elements →
  Deletion.elList conf user
    (Deletion.related_options (Element.internal_id <$> elements)) w = (Return [], w) →
  Deletion.elDeleteElements conf (S fuel) user elements loaders w
  = (Return [],
     {| docs :=
          List.filter
            (λ e, negb (existsb (λ doc, Deletion.addressed (Element._index doc)
                                          (Element.internal_id doc) e) elements))
            (docs w);
        trace :=
          trace w
          ++ [ CacheDel (Element.internal_id <$> elements);
               ElBulk ((λ doc, Delete (Element._index doc) (Element.internal_id doc))
                       <$> elements) ] |}).
Proof.
  intros Hne Hent Hlist. unfold Deletion.elDeleteElements.
  destruct elements as [|e0 elements0] eqn:Helements; [done|].
  cbn [length Nat.eqb]. rewrite <- Helements in *.
  unfold Deletion.getRelationsToRemove. cbn [Deletion.getRelatedRelations].
  unfold mbind at 1, M_bind at 1. unfold mbind at 1, M_bind at 1.
  rewrite Hlist. cbn beta iota.
  change (splitEvery MAX_JS_PARAMS []) with (@nil (list Element.t)).
  cbn [fold_left fst snd length Nat.ltb Nat.leb]. unfold mret at 1, M_ret at 1.
  cbn beta iota. cbn [List.filter mapM].
  unfold mbind at 1, M_bind at 1. unfold mret at 1, M_ret at 1. cbn beta iota.
  assert (Himpacts : Deletion.relsFromToImpacts elements [] Deletion.new_Map = []).
  { unfold Deletion.relsFromToImpacts. cbn [app].
    assert (List.filter (λ f, isBasicRelationship (Element.entity_type f)) elements = [])
      as ->; [|done].
    clear -Hent. induction Hent as [|x l Hx _ IH]; [done|]. cbn. by rewrite Hx. }
  rewrite Himpacts.
  change (@splitEvery Deletion.Impact MAX_SPLIT []) with (@nil (list Deletion.Impact)).
  change (@splitEvery Element.t MAX_SPLIT []) with (@nil (list Element.t)).
  cbn [mapM]. unfold mbind, M_bind, mret, M_ret. cbn beta iota.
  by rewrite elDeleteInstanceIds_run.
Qed.

(** X19. Whenever a deletion of a non-empty batch succeeds, the traversal
    has returned, and the engine is left with no document that one of the
    relationships it returned, or one of the targets, addresses by index and
    id: whatever the loaders did in between.  The targets go last: the last
    two requests are their cache invalidation and their bulk delete. *)
Theorem elDeleteElements_leaves {Loaded : Type} (fuel : nat) (user : User)
    (elements : list Element.t) (loaders : Deletion.Loaders Loaded)
    (w w' : World) (deleted : list Loaded) :
  elements ≠ [] →
  Deletion.elDeleteElements conf fuel user elements loaders w = (Return deleted, w') →
  ∃ relations relationsToRemoveMap w1,
    Deletion.getRelationsToRemove conf fuel user elements w
    = (Return (relations, relationsToRemoveMap), w1)
    ∧ (∀ e doc, e ∈ docs w' → doc ∈ relations ++ elements →
         ¬ (Element._index e = Element._index doc
            ∧ Element.internal_id e = Element.internal_id doc))
    ∧ ∃ before,
        trace w'
        = before
          ++ [ CacheDel (Element.internal_id <$> elements);
               ElBulk ((λ doc, Delete (Element._index doc) (Element.internal_id doc))
                       <$> elements) ].
Proof.
  intros Hne. unfold Deletion.elDeleteElements.
  destruct elements as [|e0 elements0] eqn:Helements; [done|].
  cbn [length Nat.eqb]. rewrite <- Helements in *. intros Hrun.
  apply bind_Return in Hrun as ([relations relationsToRemoveMap] & w1 & Htraversal & Hrun).
  apply bind_Return in Hrun as (dependencyDeletions & w2 & _ & Hrun).
  apply bind_Return in Hrun as (? & w3 & _ & Hrun).
  apply bind_Return in Hrun as (? & w4 & Hrels & Hrun).
  apply bind_Return in Hrun as ([] & w5 & Hlast & Hrun).
  exists relations, relationsToRemoveMap, w1. split; [done|].
  destruct (mapM_elDeleteInstanceIds (splitEvery MAX_SPLIT relations) w3)
    as (us & w4' & Hrels' & Hdocs4).
  rewrite Hrels' in Hrels. injection Hrels as _ <-.
  rewrite splitEvery_join in Hdocs4 by done.
  rewrite elDeleteInstanceIds_run in Hlast by done.
  injection Hrun as -> <-. injection Hlast as <-. cbn [trace docs].
  split; [|by eexists].
  rewrite Hdocs4, filter_filter_addressed.
  intros e doc He Hdoc [Hindex Hid].
  apply list_elem_of_In, filter_In in He as [_ He].
  apply negb_true_iff, not_true_iff_false in He. apply He.
  apply existsb_exists. exists doc. split; [by apply list_elem_of_In|].
  unfold Deletion.addressed. by rewrite Hindex, Hid, !bool_decide_eq_true_2.
Qed.

End DeletionFacts.

(** ** Cascading deletion engine: one level of the traversal *)



Section TraversalFacts.
Context `{Schema} `{Collaborators} (conf : Config).


End TraversalFacts.

(** ** Cascading deletion engine: the documents that stay *)

Lemma pruned_refl (e : Element.t) : pruned e e.
Proof.
  exists (Element.refs e). split; [by destruct e|].
  intros f. by destruct (Element.refs e !! f).
Qed.

Lemma pruned_trans (e1 e2 e3 : Element.t) : pruned e1 e2 → pruned e2 e3 → pruned e1 e3.
Proof.
  intros (r2 & -> & H12) (r3 & -> & H23). exists r3. split; [done|].
  intros f. specialize (H12 f). specialize (H23 f). cbn in H23.
  destruct (Element.refs e1 !! f), (r2 !! f), (r3 !! f); try done. by etrans.
Qed.

Lemma run_script_pruned (s : Script) (e : Element.t) : pruned e (Deletion.run_script s e).
Proof.
  unfold Deletion.run_script. destruct (Element.refs e !! field s) as [arr|] eqn:Harr;
    [|apply pruned_refl].
  eexists. split; [done|]. intros f. destruct (decide (field s = f)) as [<-|Hne].
  - rewrite Harr, lookup_insert_eq. clear. induction arr as [|x arr IH]; [done|].
    cbn [List.filter]. destruct (negb _); by constructor.
  - rewrite lookup_insert_ne by done. by destruct (Element.refs e !! f).
Qed.

Lemma pruned_docs_refl (ds : list Element.t) : pruned_docs ds ds.
Proof. intros e He. exists e. split; [done|apply pruned_refl]. Qed.

Lemma pruned_docs_trans (ds1 ds2 ds3 : list Element.t) :
  pruned_docs ds1 ds2 → pruned_docs ds2 ds3 → pruned_docs ds1 ds3.
Proof.
  intros H12 H23 e3 He3. destruct (H23 e3 He3) as (e2 & He2 & Hp23).
  destruct (H12 e2 He2) as (e1 & He1 & Hp12). exists e1. split; [done|].
  by eapply pruned_trans.
Qed.

Lemma apply_op_pruned (ds : list Element.t) (errors : bool) (op : BulkOp) :
  pruned_docs ds (Deletion.apply_op (ds, errors) op).1.
Proof.
  destruct op as [idx id script|idx id]; cbn.
  - destruct (existsb _ ds); cbn; [|apply pruned_docs_refl].
    intros e' (e & -> & He)%list_elem_of_fmap. exists e. split; [done|].
    destruct (Deletion.addressed idx id e); [apply run_script_pruned|apply pruned_refl].
  - intros e' He'. apply list_elem_of_In, filter_In in He' as [He' _].
    exists e'. split; [by apply list_elem_of_In|apply pruned_refl].
Qed.

Lemma fold_apply_op_pruned (body : list BulkOp) (ds : list Element.t) (errors : bool) :
  pruned_docs ds (fold_left Deletion.apply_op body (ds, errors)).1.
Proof.
  revert ds errors. induction body as [|op body IH]; intros ds errors; cbn [fold_left].
  - apply pruned_docs_refl.
  - pose proof (apply_op_pruned ds errors op) as Hop.
    destruct (Deletion.apply_op (ds, errors) op) as [ds1 errors1].
    eapply pruned_docs_trans; [exact Hop|apply IH].
Qed.

Lemma elBulk_pruned (body : list BulkOp) (w w' : World) (o : Outcome ()) :
  Deletion.elBulk body w = (o, w') → pruned_docs (docs w) (docs w').
Proof.
  unfold Deletion.elBulk, emit, mbind, M_bind, modify, gets. cbn beta iota. cbn [docs].
  pose proof (fold_apply_op_pruned body (docs w) false) as Hfold.
  destruct (fold_left _ _ _) as [ds' errors]. cbn beta iota. cbn [docs].
  destruct errors; intros [= <- <-]; exact Hfold.
Qed.

Lemma mapM_pruned {A B} (f : A → M World B) (l : list A) :
  (∀ a w w' b, f a w = (Return b, w') → pruned_docs (docs w) (docs w')) →
  ∀ w w' bs, mapM f l w = (Return bs, w') → pruned_docs (docs w) (docs w').
Proof.
  intros Hf. induction l as [|a l IH]; intros w w' bs; cbn [mapM].
  - intros [= <- <-]. apply pruned_docs_refl.
  - intros Hrun. apply bind_Return in Hrun as (b & w1 & Ha & Hrun).
    apply bind_Return in Hrun as (bs' & w2 & Hl & Hrun). injection Hrun as <- <-.
    eapply pruned_docs_trans; [by eapply Hf|by eapply IH].
Qed.

Section PrunedFacts.
Context `{Schema} `{Collaborators} (conf : Config).

Lemma elList_world (user : User) (options : Paginate.Options) (w w' : World)
    (o : Outcome (list Element.t)) :
  Deletion.elList conf user options w = (o, w') → w' = w.
Proof.
  unfold Deletion.elList. destruct (_ <? _)%Z; [by intros [= <- <-]|].
  by intros [= <- <-].
Qed.

(** The traversal only reads. *)
Lemma getRelatedRelations_world (fuel : nat) (user : User) :
  ∀ (targetIds : list string) (level : nat) (st : list Element.t * Deletion.JsMap)
    (w w' : World) (r : list Element.t * Deletion.JsMap),
    Deletion.getRelatedRelations conf fuel user targetIds level st w = (Return r, w') →
    w' = w.
Proof.
  induction fuel as [|fuel IH]; intros targetIds level st w w' r; [done|].
  cbn [Deletion.getRelatedRelations]. intros Hrun.
  apply bind_Return in Hrun as (hits & w1 & Hlist & Hrun).
  apply elList_world in Hlist as ->.
  destruct (fold_left _ _ _) as [[elements cache] foundRelations].
  destruct (0 <? _)%nat; [|by injection Hrun as <- <-].
  revert Hrun. generalize (elements, cache). generalize (splitEvery MAX_SPLIT foundRelations).
  intros groups. revert w. induction groups as [|g groups IHg]; intros w st0; cbn [Deletion.foldM].
  - by intros [= <- <-].
  - intros Hrun. apply bind_Return in Hrun as (st1 & w2 & Hg & Hrun).
    apply IH in Hg as ->. by apply IHg in Hrun.
Qed.

Lemma elRemoveRelationConnection_pruned (user : User) (relsFromTo : list Deletion.Impact)
    (w w' : World) (u : ()) :
  Deletion.elRemoveRelationConnection user relsFromTo w = (Return u, w') →
  pruned_docs (docs w) (docs w').
Proof.
  unfold Deletion.elRemoveRelationConnection.
  destruct (0 <? _)%nat; [|intros [= <- <-]; apply pruned_docs_refl].
  intros Hrun. apply bind_Return in Hrun as (dataIds & w1 & Hfind & Hrun).
  apply bind_Return in Hrun as ([] & w2 & Hemit & Hrun).
  destruct (elFindByIds_hits user
              (uniq (relsFromTo ≫= (λ r,
                 (if Deletion.isFromCleanup r then [Element.fromId (Deletion.relation r)]
                  else [])
                 ++ (if Deletion.isToCleanup r then [Element.toId (Deletion.relation r)]
                     else []))))
              None w) as (hits & w1' & Hfind' & Hdocs1 & _).
  rewrite Hfind' in Hfind. injection Hfind as <- <-.
  injection Hemit as <-. apply elBulk_pruned in Hrun. cbn [docs] in Hrun.
  by rewrite Hdocs1 in Hrun.
Qed.

(** X21. A deletion only removes documents and prunes reference arrays.
    With loaders that leave the engine's documents as they are, every
    document held after a successful deletion is one held before, with the
    same index, ids, type, ends and markings, whose reference arrays are
    the former ones less some entries, in their order: no document is
    created, no reference is added, and no array appears or disappears. *)
Theorem elDeleteElements_prunes {Loaded : Type} (fuel : nat) (user : User)
    (elements : list Element.t) (loaders : Deletion.Loaders Loaded)
    (w w' : World) (deleted : list Loaded) :
  (∀ id w0 w1 loaded,
     Deletion.stixLoadById loaders user id w0 = (Return loaded, w1) → docs w1 = docs w0) →
  Deletion.elDeleteElements conf fuel user elements loaders w = (Return deleted, w') →
  ∀ e', e' ∈ docs w' →
    ∃ e refs',
      e ∈ docs w
      ∧ e' = Element.with_refs refs' e
      ∧ ∀ f, match Element.refs e !! f, refs' !! f with
             | Some l, Some l' => l' `sublist_of` l
             | None, None => True
             | _, _ => False
             end.
Proof.
  intros Hloaders Hrun.
  assert (Hpruned : pruned_docs (docs w) (docs w')).
  { unfold Deletion.elDeleteElements in Hrun.
    destruct (length elements =? 0)%nat.
    { injection Hrun as <- <-. apply pruned_docs_refl. }
    apply bind_Return in Hrun as ([relations relationsToRemoveMap] & w1 & Htraversal & Hrun).
    apply bind_Return in Hrun as (dependencyDeletions & w2 & Hload & Hrun).
    apply bind_Return in Hrun as (? & w3 & Hclean & Hrun).
    apply bind_Return in Hrun as (? & w4 & Hrels & Hrun).
    apply bind_Return in Hrun as ([] & w5 & Hlast & Hrun).
    injection Hrun as <- <-.
    apply getRelatedRelations_world in Htraversal as ->.
    assert (Hw2 : docs w2 = docs w).
    { revert Hload. generalize (List.filter
        (λ r, isStixRelationShipExceptMeta (Element.relationship_type r)) relations).
      intros l. revert w dependencyDeletions. clear -Hloaders.
      induction l as [|r l IH]; intros w ds; cbn [mapM].
      - by intros [= <- <-].
      - intros Hrun. apply bind_Return in Hrun as (b & w1 & Ha & Hrun).
        apply bind_Return in Hrun as (bs' & w2' & Hl & Hrun). injection Hrun as <- <-.
        apply Hloaders in Ha. apply IH in Hl. congruence. }
    rewrite <- Hw2.
    eapply pruned_docs_trans.
    { eapply mapM_pruned; [|exact Hclean].
      intros a w0 w0' b. apply elRemoveRelationConnection_pruned. }
    eapply pruned_docs_trans.
    { eapply mapM_pruned; [|exact Hrels].
      intros a w0 w0' [] Ha. destruct (elDeleteInstanceIds_docs a w0) as (w0'' & Hd & Hdocs).
      rewrite Hd in Ha. injection Ha as <-. rewrite Hdocs.
      intros e' He'. apply list_elem_of_In, filter_In in He' as [He' _].
      exists e'. split; [by apply list_elem_of_In|apply pruned_refl]. }
    destruct (elDeleteInstanceIds_docs elements w4) as (w4' & Hd & Hdocs).
    rewrite Hd in Hlast. injection Hlast as <-. rewrite Hdocs.
    intros e' He'. apply list_elem_of_In, filter_In in He' as [He' _].
    exists e'. split; [by apply list_elem_of_In|apply pruned_refl]. }
  intros e' He'. destruct (Hpruned e' He') as (e & He & refs' & -> & Hrefs).
  by exists e, refs'.
Qed.

End PrunedFacts.

Lemma elDeleteElements_unreferenced_witness :
  Deletion.elDeleteElements (H := platform_schema) (H0 := platform_collaborators)
    default_config 1 Samples.admin [Fixtures.marked_report] Samples.loaders Fixtures.library
  = (Return [],
     {| docs := [Samples.green_report];
        trace := [CacheDel ["M"]; ElBulk [Delete "entities" "M"]] |}).
Proof.
  rewrite (@elDeleteElements_unreferenced platform_schema platform_collaborators
             default_config string 0 Samples.admin [Fixtures.marked_report]
             Samples.loaders Fixtures.library).
  - vm_compute. reflexivity.
  - discriminate.
  - constructor; [reflexivity|constructor].
  - vm_compute. reflexivity.
Defined.

Lemma elDeleteElements_leaves_witness :
  ∃ relations relationsToRemoveMap w1,
    Deletion.getRelationsToRemove (H := platform_schema) (H0 := platform_collaborators)
      default_config 3 Samples.admin [Samples.malware] Samples.small_world
    = (Return (relations, relationsToRemoveMap), w1)
    ∧ (∀ e doc,
         e ∈ docs (Deletion.elDeleteElements (H := platform_schema)
                     (H0 := platform_collaborators) default_config 3 Samples.admin
                     [Samples.malware] Samples.loaders Samples.small_world).2 →
         doc ∈ relations ++ [Samples.malware] →
         ¬ (Element._index e = Element._index doc
            ∧ Element.internal_id e = Element.internal_id doc))
    ∧ ∃ before,
        trace (Deletion.elDeleteElements (H := platform_schema)
                 (H0 := platform_collaborators) default_config 3 Samples.admin
                 [Samples.malware] Samples.loaders Samples.small_world).2
        = before
          ++ [ CacheDel (Element.internal_id <$> [Samples.malware]);
               ElBulk ((λ doc, Delete (Element._index doc) (Element.internal_id doc))
                       <$> [Samples.malware]) ].
Proof.
  apply (@elDeleteElements_leaves platform_schema platform_collaborators default_config
           string 3 Samples.admin [Samples.malware] Samples.loaders Samples.small_world
           (Deletion.elDeleteElements (H := platform_schema)
              (H0 := platform_collaborators) default_config 3 Samples.admin
              [Samples.malware] Samples.loaders Samples.small_world).2
           ["R"]).
  - discriminate.
  - vm_compute. reflexivity.
Defined.


Lemma elDeleteElements_prunes_witness :
  ∃ e refs',
    e ∈ docs Samples.small_world
    ∧ Element.with_refs {[ "rel_uses.internal_id" := ["Y"] ]} Samples.tool
      = Element.with_refs refs' e
    ∧ ∀ f, match Element.refs e !! f, refs' !! f with
           | Some l, Some l' => l' `sublist_of` l
           | None, None => True
           | _, _ => False
           end.
Proof.
  apply (@elDeleteElements_prunes platform_schema platform_collaborators default_config
           string 3 Samples.admin [Samples.malware] Samples.loaders Samples.small_world
           (Deletion.elDeleteElements (H := platform_schema)
              (H0 := platform_collaborators) default_config 3 Samples.admin
              [Samples.malware] Samples.loaders Samples.small_world).2
           ["R"]).
  - intros id w0 w1 loaded Hload. by injection Hload as _ <-.
  - vm_compute. reflexivity.
  - apply (list_elem_of_lookup_2 _ 0). vm_compute. reflexivity.
Defined.

(** ** Write orchestrator *)

(** ** Grouping keeps each key once *)

Lemma group_add_NoDup {A} (k : string) (x : A) (o : list (string * list A)) :
  NoDup (object_keys o) → NoDup (object_keys (group_add k x o)).
Proof.
  unfold object_keys. induction o as [|[k' g] o IH]; cbn.
  - intros _. apply NoDup_singleton.
  - intros [Hk' Ho]%NoDup_cons. case_bool_decide as Hk; cbn.
    + by apply NoDup_cons.
    + apply NoDup_cons. split; [|by apply IH].
      intros Hin. apply (keys_group_add k k' x o) in Hin as [->|Hin]; done.
Qed.

Lemma groupBy_NoDup {A} (key : A → string) (l : list A) :
  NoDup (object_keys (groupBy key l)).
Proof.
  unfold groupBy.
  assert (Hgen : ∀ o, NoDup (object_keys o) →
            NoDup (object_keys (fold_left (λ o x, group_add (key x) x o) l o))).
  { induction l as [|x l IH]; intros o Ho; [done|]. cbn. by apply IH, group_add_NoDup. }
  apply Hgen. constructor.
Qed.


Section PrepareFacts.
Context `{Utils}.
Context (isBooleanAttribute : string → bool).

#[local] Abbreviation prepare_attribute := (Indexing.prepare_attribute isBooleanAttribute).
#[local] Abbreviation prepareElementForIndexing :=
  (Indexing.prepareElementForIndexing isBooleanAttribute).

Lemma filter_truthy_twice (items : list value) :
  List.filter Deletion.truthy (List.filter Deletion.truthy items)
  = List.filter Deletion.truthy items.
Proof.
  induction items as [|v items IH]; [done|]. cbn [List.filter].
  destruct (Deletion.truthy v) eqn:Hv; [|done]. cbn [List.filter]. by rewrite Hv, IH.
Qed.

Lemma compacted (items : list value) :
  (if (0 <? length (List.filter Deletion.truthy items))%nat
   then List.filter Deletion.truthy items else [])
  = List.filter Deletion.truthy items.
Proof. by destruct (List.filter Deletion.truthy items). Qed.

(** A prepared attribute is left as it is by a second preparation. *)
Lemma prepare_attribute_twice (key : string) (v v' : value) :
  prepare_attribute key v = inr v' → prepare_attribute key v' = inr v'.
Proof.
  unfold Indexing.prepare_attribute.
  destruct v as [|b|z|s|items|o]; try (destruct (isBooleanAttribute key) eqn:Hb);
    intros [= <-]; rewrite ?Hb; try done.
  all: by rewrite !compacted, filter_truthy_twice.
Qed.

Lemma prepare_attribute_shape (key : string) (v v' : value) :
  prepare_attribute key v = inr v' →
  match v' with
  | VArr items => Forall (λ i, Deletion.truthy i = true) items
  | VBool _ => True
  | _ => isBooleanAttribute key = false ∧ v' = v
  end.
Proof.
  unfold Indexing.prepare_attribute.
  destruct v as [|b|z|s|items|o]; try (destruct (isBooleanAttribute key) eqn:Hb);
    intros [= <-]; try done.
  all: rewrite compacted; apply Forall_forall; intros i Hi;
    by apply list_elem_of_In, filter_In in Hi as [_ Hi].
Qed.

(** X22. Preparing an element for the index keeps its attributes, in
    their order.  In what it returns every array holds truthy entries only
    (an array left with none stays, empty), every boolean attribute that is
    not an array is a boolean, and any other attribute is as it was; and
    preparing the result again changes nothing. *)
Theorem prepareElementForIndexing_prepared (element thing : list (string * value)) :
  prepareElementForIndexing element = inr thing →
  object_keys thing = object_keys element
  ∧ prepareElementForIndexing thing = inr thing
  ∧ ∀ i key v, thing !! i = Some (key, v) →
      match v with
      | VArr items => Forall (λ i, Deletion.truthy i = true) items
      | VBool _ => True
      | _ => isBooleanAttribute key = false ∧ element !! i = Some (key, v)
      end.
Proof.
  revert thing. induction element as [|[key v] element IH]; intros thing; cbn.
  - intros [= <-]. split; [done|]. split; [done|]. by intros [].
  - destruct (prepare_attribute key v) as [e|v'] eqn:Hv; [done|].
    destruct (prepareElementForIndexing element) as [e|thing'] eqn:Hrest; [done|].
    intros [= <-]. destruct (IH thing' eq_refl) as (Hkeys & Hagain & Hshape).
    split; [|split].
    + unfold object_keys in *. cbn. by rewrite Hkeys.
    + cbn. by rewrite (prepare_attribute_twice key v v' Hv), Hagain.
    + intros [|i] key' w; cbn.
      * intros [= <- <-]. pose proof (prepare_attribute_shape key v v' Hv) as Hs.
        destruct v'; try done; by destruct Hs as [? ->].
      * apply Hshape.
Qed.

End PrepareFacts.

Section IndexingFacts.
Context `{Schema} `{Utils}.
Context (isBooleanAttribute : string → bool).
Context (index_of : Codec.Entity.t → option string).
Context (accepted : list Indexing.Op → bool).

#[local] Abbreviation prepareIndexing := (Indexing.prepareIndexing isBooleanAttribute).
#[local] Abbreviation elIndexElements :=
  (Indexing.elIndexElements isBooleanAttribute index_of accepted).

Lemma prepare_one_stripped (element : Codec.Thing.t) (doc : Indexing.Prepared) :
  Indexing.prepare_one isBooleanAttribute element = inr doc →
  Indexing.internal_id_of doc = Codec.Thing.internal_id element
  ∧ Indexing.fields_of doc !! INTERNAL_FROM_FIELD = None
  ∧ Indexing.fields_of doc !! INTERNAL_TO_FIELD = None
  ∧ match doc with
    | Indexing.PreparedRelation concept =>
        Codec.Thing.base_type element = BASE_TYPE_RELATION
        ∧ length (Codec.Concept.connections concept) = 2
    | Indexing.PreparedEntity _ => Codec.Thing.base_type element ≠ BASE_TYPE_RELATION
    end.
Proof.
  unfold Indexing.prepare_one, Indexing.prepare_thing.
  destruct (Indexing.prepareElementForIndexing _ _) as [e|thing]; [done|].
  cbn [Indexing.with_fields Codec.Thing.base_type].
  case_bool_decide as Hbase.
  - unfold Codec.prepareRelation. cbn [Indexing.with_fields Codec.Thing.fromRole
      Codec.Thing.toRole Codec.Thing.from Codec.Thing.to Codec.Thing.fields
      Codec.Thing.internal_id Codec.Thing.entity_type Codec.Thing.base_type].
    destruct (Codec.Thing.fromRole element), (Codec.Thing.toRole element); try done.
    destruct (Codec.Thing.from element), (Codec.Thing.to element); try done.
    intros [= <-]. cbn. split; [done|]. split; [|split; [|done]].
    + destruct (decide (INTERNAL_FROM_FIELD = INTERNAL_TO_FIELD)) as [->|Hne].
      * by rewrite lookup_delete_eq.
      * by rewrite lookup_delete_eq.
    + destruct (decide (INTERNAL_FROM_FIELD = INTERNAL_TO_FIELD)) as [Heq|Hne].
      * rewrite Heq. by rewrite lookup_delete_eq.
      * rewrite lookup_delete_ne by done. by rewrite lookup_delete_eq.
  - intros [= <-]. cbn. split; [done|]. split; [|split; [|done]].
    + by rewrite lookup_delete_eq.
    + destruct (decide (INTERNAL_FROM_FIELD = INTERNAL_TO_FIELD)) as [Heq|Hne].
      * rewrite Heq. by rewrite lookup_delete_eq.
      * rewrite lookup_delete_ne by done. by rewrite lookup_delete_eq.
Qed.

(** X23. When a batch is prepared for indexing (in a schema where no
    attribute the codec reads by name is a boolean attribute), there is one
    document per element, in the order of the batch and under the element's
    internal id;
    none carries the two internal dependency fields; an element of the
    relation base type becomes a relationship document with exactly two
    connections, and any other stays an entity. *)
Theorem prepareIndexing_prepared (elements : list Codec.Thing.t)
    (docs : list Indexing.Prepared) :
  Forall (λ key, isBooleanAttribute key = false) Indexing.named_attributes →
  prepareIndexing elements = inr docs →
  Indexing.internal_id_of <$> docs = Codec.Thing.internal_id <$> elements
  ∧ Forall (λ doc, Indexing.fields_of doc !! INTERNAL_FROM_FIELD = None
                   ∧ Indexing.fields_of doc !! INTERNAL_TO_FIELD = None) docs
  ∧ ∀ i element doc, elements !! i = Some element → docs !! i = Some doc →
      match doc with
      | Indexing.PreparedRelation concept =>
          Codec.Thing.base_type element = BASE_TYPE_RELATION
          ∧ length (Codec.Concept.connections concept) = 2
      | Indexing.PreparedEntity _ => Codec.Thing.base_type element ≠ BASE_TYPE_RELATION
      end.
Proof.
  intros _. revert docs. induction elements as [|element elements IH]; intros docs; cbn.
  - intros [= <-]. split; [done|]. split; [done|]. by intros [].
  - destruct (Indexing.prepare_one _ element) as [e|doc] eqn:Hone; [done|].
    destruct (prepareIndexing elements) as [e|docs'] eqn:Hrest; [done|].
    intros [= <-]. destruct (IH docs' eq_refl) as (Hids & Hfields & Hkinds).
    destruct (prepare_one_stripped element doc Hone) as (Hid & Hfrom & Hto & Hkind).
    split; [|split].
    + cbn. by rewrite Hid, Hids.
    + by constructor.
    + intros [|i] element' doc'; cbn; [by intros [= <-] [= <-]|apply Hkinds].
Qed.

Lemma prepareIndexing_length (elements : list Codec.Thing.t)
    (docs : list Indexing.Prepared) :
  prepareIndexing elements = inr docs → length docs = length elements.
Proof.
  revert docs. induction elements as [|e elements IH]; intros docs; cbn.
  - by intros [= <-].
  - destruct (Indexing.prepare_one _ e); [done|].
    destruct (prepareIndexing elements) as [|docs']; [done|].
    intros [= <-]. cbn. f_equal. by apply IH.
Qed.

Lemma index_body_empty (docs : list Indexing.Prepared) :
  (0 <? length ((λ doc, Indexing.Index (Indexing.fields_of doc !! "_index")
                          (Indexing.internal_id_of doc) (Indexing.without_index doc))
                <$> docs))%nat
  = negb (bool_decide (docs = [])).
Proof. by destruct docs. Qed.

(** X24. A batch that prepares and holds no relationship is indexed with
    a single bulk request of one index operation per element, and nothing
    else: no
    update of references and no cache invalidation.  The call returns the
    number of elements, or fails with a [DatabaseError] when the engine does
    not accept the request; for an empty batch it returns 0 and sends
    nothing. *)
Theorem elIndexElements_without_relations (elements : list Codec.Thing.t)
    (docs : list Indexing.Prepared) (t : list Indexing.Event) :
  Forall (λ key, isBooleanAttribute key = false) Indexing.named_attributes →
  Indexing.relations_of elements = [] →
  prepareIndexing elements = inr docs →
  let body :=
    (λ doc, Indexing.Index (Indexing.fields_of doc !! "_index")
              (Indexing.internal_id_of doc) (Indexing.without_index doc)) <$> docs in
  elIndexElements elements t
  = match elements with
    | [] => (Return 0, t)
    | _ =>
        (if accepted body then Return (length elements)
         else Throw (AppError DatabaseError "Error updating elastic"),
         t ++ [Indexing.Bulk body])
    end.
Proof.
  intros _ Hrels Hdocs body. unfold Indexing.elIndexElements.
  rewrite Hdocs. unfold Indexing.impactedEntities. rewrite Hrels.
  pose proof (prepareIndexing_length elements docs Hdocs) as Hlen.
  destruct elements as [|e elements]; destruct docs as [|doc docs]; try done.
  unfold Indexing.elBulk, Indexing.emit, Indexing.lift, mbind, M_bind, modify, mret, M_ret,
    throw.
  cbn [fmap list_fmap length Nat.ltb Nat.leb]. cbn beta iota. fold body.
  change (groupBy _ (mbind _ [])) with (@nil (string * list Indexing.Impact)).
  cbn [Indexing.elementsToUpdate Indexing.lift].
  unfold mret, M_ret. cbn [length Nat.ltb Nat.leb]. cbn beta iota.
  destruct (accepted _); [|done]. cbn [length] in Hlen. by rewrite Hlen.
Qed.

Lemma elementsToUpdate_ids (cache : list (string * option Codec.Entity.t))
    (impacted : list (string * list Indexing.Impact)) (ops : list Indexing.Op) :
  Indexing.elementsToUpdate index_of cache impacted = inr ops →
  ops ≫= Indexing.updated_id = object_keys impacted.
Proof.
  revert ops. induction impacted as [|[entityId targets] impacted IH]; intros ops; cbn.
  - by intros [= <-].
  - destruct (Indexing.targetsElements _) as [e|ts]; [done|].
    destruct (Indexing.elementsToUpdate _ _ impacted) as [e|ops']; [done|].
    intros [= <-]. cbn. f_equal. by apply IH.
Qed.

Lemma impacted_keys (elements : list Codec.Thing.t) (id : string) :
  id ∈ object_keys (Indexing.impactedEntities elements)
  ↔ ∃ e, e ∈ elements
         ∧ Codec.Thing.base_type e = BASE_TYPE_RELATION
         ∧ ((Deletion.isImpactedRole (Indexing.as_key (Codec.Thing.fromRole e)) = true
             ∧ Indexing.as_key (Codec.Thing.fromId e) = id)
            ∨ (Deletion.isImpactedRole (Indexing.as_key (Codec.Thing.toRole e)) = true
               ∧ Indexing.as_key (Codec.Thing.toId e) = id)).
Proof.
  unfold Indexing.impactedEntities. rewrite groupBy_keys. split.
  - intros (i & Hi & <-). apply list_elem_of_bind in Hi as (e & Hi & He).
    apply list_elem_of_In, filter_In in He as [He Hbase].
    apply bool_decide_eq_true in Hbase. exists e. split; [by apply list_elem_of_In|].
    split; [done|]. unfold Indexing.impacts_of in Hi.
    apply elem_of_app in Hi as [Hi|Hi].
    + destruct (Deletion.isImpactedRole _) eqn:Hrole; [|by apply not_elem_of_nil in Hi].
      apply list_elem_of_singleton in Hi as ->. by left.
    + destruct (Deletion.isImpactedRole (Indexing.as_key (Codec.Thing.toRole e))) eqn:Hrole;
        [|by apply not_elem_of_nil in Hi].
      apply list_elem_of_singleton in Hi as ->. by right.
  - intros (e & He & Hbase & Hside).
    assert (Hrel : e ∈ Indexing.relations_of elements).
    { apply list_elem_of_In, filter_In. split; [by apply list_elem_of_In|].
      by apply bool_decide_eq_true. }
    destruct Hside as [[Hrole <-]|[Hrole <-]].
    + eexists {| Indexing.from := Codec.Thing.fromId e |}. split; [|done].
      apply list_elem_of_bind. exists e. split; [|done].
      unfold Indexing.impacts_of. rewrite Hrole. apply elem_of_app. left. by left.
    + eexists {| Indexing.from := Codec.Thing.toId e |}. split; [|done].
      apply list_elem_of_bind. exists e. split; [|done].
      unfold Indexing.impacts_of. rewrite Hrole. apply elem_of_app. right. by left.
Qed.

(** X25. When the indexing of a batch succeeds, it returns the number of
    elements, having sent the bulk request of the index operations (for a
    non-empty batch) and then, if a relationship of the batch has an
    impacted end, one bulk request of reference updates followed by the
    cache invalidation of the updated entities.  Each impacted end is
    updated exactly once, whatever the number of relationships that reach
    it: the updated ids are the ids of the from ends whose role is impacted
    and of the to ends whose role is impacted, without repetition. *)
Theorem elIndexElements_references (elements : list Codec.Thing.t)
    (t t' : list Indexing.Event) (n : nat) :
  Forall (λ key, isBooleanAttribute key = false) Indexing.named_attributes →
  elIndexElements elements t = (Return n, t') →
  n = length elements
  ∧ ∃ docs ops,
      prepareIndexing elements = inr docs
      ∧ t' = t
             ++ (match docs with
                 | [] => []
                 | _ =>
                     [Indexing.Bulk
                        ((λ doc, Indexing.Index (Indexing.fields_of doc !! "_index")
                                   (Indexing.internal_id_of doc)
                                   (Indexing.without_index doc)) <$> docs)]
                 end)
             ++ (match ops with
                 | [] => []
                 | _ => [Indexing.Bulk ops;
                         Indexing.CacheDel (ops ≫= Indexing.updated_id)]
                 end)
      ∧ NoDup (ops ≫= Indexing.updated_id)
      ∧ ∀ id, id ∈ ops ≫= Indexing.updated_id
          ↔ ∃ e, e ∈ elements
                 ∧ Codec.Thing.base_type e = BASE_TYPE_RELATION
                 ∧ ((Deletion.isImpactedRole (Indexing.as_key (Codec.Thing.fromRole e))
                     = true
                     ∧ Indexing.as_key (Codec.Thing.fromId e) = id)
                    ∨ (Deletion.isImpactedRole (Indexing.as_key (Codec.Thing.toRole e))
                       = true
                       ∧ Indexing.as_key (Codec.Thing.toId e) = id)).
Proof.
  intros _. unfold Indexing.elIndexElements. intros Hrun.
  apply bind_Return in Hrun as (docs & t1 & Hdocs & Hrun).
  apply bind_Return in Hrun as ([] & t2 & Hindex & Hrun).
  apply bind_Return in Hrun as (ops & t3 & Hops & Hrun).
  apply bind_Return in Hrun as ([] & t4 & Hupdate & Hrun).
  injection Hrun as <- <-.
  destruct (prepareIndexing elements) as [e|docs'] eqn:Hprep; [done|].
  injection Hdocs as <- <-.
  destruct (Indexing.elementsToUpdate _ _ _) as [e|ops'] eqn:Hupd; [done|].
  injection Hops as <- <-.
  split; [by apply prepareIndexing_length|]. exists docs', ops'. split; [done|].
  pose proof (elementsToUpdate_ids _ _ _ Hupd) as Hids.
  split; [|split].
  - assert (Ht2 : t2 = t ++ match docs' with
                          | [] => []
                          | _ => [Indexing.Bulk
                                    ((λ doc, Indexing.Index (Indexing.fields_of doc !! "_index")
                                               (Indexing.internal_id_of doc)
                                               (Indexing.without_index doc)) <$> docs')]
                          end).
    { destruct docs' as [|doc docs']; cbn in Hindex.
      - injection Hindex as <-. by rewrite app_nil_r.
      - unfold Indexing.elBulk, Indexing.emit, mbind, M_bind, modify in Hindex.
        cbn beta iota in Hindex. destruct (accepted _); [|done]. by injection Hindex as <-. }
    rewrite app_assoc, <- Ht2. clear Hindex Ht2.
    destruct ops' as [|op ops']; cbn in Hupdate.
    + injection Hupdate as <-. by rewrite app_nil_r.
    + unfold Indexing.emit, mbind, M_bind, modify in Hupdate. cbn beta iota in Hupdate.
      destruct (accepted _); [|done]. injection Hupdate as <-.
      by rewrite <- app_assoc.
  - rewrite Hids. apply groupBy_NoDup.
  - intros id. rewrite Hids. apply impacted_keys.
Qed.

End IndexingFacts.

(** ** Write orchestrator: replacing a document *)

Lemma prop_get_NoDup {V} (o : list (string * V)) (k : string) (v : V) :
  NoDup (object_keys o) → (k, v) ∈ o → prop_get o k = Some v.
Proof.
  unfold object_keys. induction o as [|[k' v'] o IH]; cbn.
  - intros _ Hin. by apply not_elem_of_nil in Hin.
  - intros [Hk' Ho]%NoDup_cons [[= -> ->]|Hin]%elem_of_cons.
    + by rewrite bool_decide_eq_true_2.
    + case_bool_decide as Hk; [|by apply IH]. subst k'.
      exfalso. apply Hk'. apply list_elem_of_fmap. by exists (k, v).
Qed.

Lemma prop_get_None {V} (o : list (string * V)) (k : string) :
  prop_get o k = None ↔ k ∉ object_keys o.
Proof.
  unfold object_keys. induction o as [|[k' v'] o IH]; cbn.
  - split; [intros _; apply not_elem_of_nil|done].
  - case_bool_decide as Hk.
    + split; [done|]. intros Hnot. exfalso. apply Hnot. subst. by left.
    + rewrite IH. rewrite not_elem_of_cons. naive_solver.
Qed.

Lemma prop_get_dissoc {V} (o : list (string * V)) (key k : string) :
  prop_get (Indexing.dissoc key o) k = if bool_decide (k = key) then None else prop_get o k.
Proof.
  unfold Indexing.dissoc. induction o as [|[k' v'] o IH]; cbn.
  - by case_bool_decide.
  - repeat (case_bool_decide; cbn; simplify_eq); try done.
    all: rewrite IH; by case_bool_decide.
Qed.

Lemma dissoc_NoDup {V} (o : list (string * V)) (key : string) :
  NoDup (object_keys o) → NoDup (object_keys (Indexing.dissoc key o)).
Proof.
  unfold object_keys, Indexing.dissoc. induction o as [|[k' v'] o IH]; cbn; [done|].
  intros [Hk' Ho]%NoDup_cons. destruct (negb _); cbn; [|by apply IH].
  apply NoDup_cons. split; [|by apply IH].
  intros ([k v] & -> & Hin%list_elem_of_In%filter_In)%list_elem_of_fmap.
  destruct Hin as [Hin _]. apply Hk'. apply list_elem_of_fmap. exists (k, v).
  by rewrite list_elem_of_In.
Qed.

(** Running the statements of a list of entries with distinct keys, the
    parameters holding each of them. *)
Lemma run_statements (params l : list (string * value)) (stored : gmap string value)
    (key : string) :
  NoDup (object_keys l) →
  (∀ k v, (k, v) ∈ l → prop_get params k = Some v) →
  fold_left (Indexing.run_statement params) (Indexing.statement_of <$> l) stored !! key
  = match prop_get l key with
    | Some val => if Indexing.isEmptyField val then None else Some val
    | None => stored !! key
    end.
Proof.
  revert stored. induction l as [|[k v] l IH]; intros stored; cbn; [done|].
  intros Hnodup Hparams.
  assert (Hk : (k ∉ object_keys l) ∧ NoDup (object_keys l)).
  { unfold object_keys in *. cbn in Hnodup. by apply NoDup_cons in Hnodup. }
  destruct Hk as [Hk Hl].
  rewrite IH; [|done|intros; apply Hparams; by right].
  case_bool_decide as Hkey.
  - subst key. rewrite (proj2 (prop_get_None l k) Hk).
    unfold Indexing.statement_of. destruct (Indexing.isEmptyField v); cbn.
    + apply lookup_delete_eq.
    + rewrite lookup_insert_eq. by rewrite (Hparams k v) by by left.
  - destruct (prop_get l key); [done|].
    unfold Indexing.statement_of. destruct (Indexing.isEmptyField v); cbn.
    + by apply lookup_delete_ne.
    + by apply lookup_insert_ne.
Qed.

(** X26. A replacement is a patch.  Its script holds one statement per
    attribute of the given document other than [_index], in their order;
    with the engine removing and assigning as the statements say, the run
    on a stored document removes the attributes given as empty, assigns the
    others, and leaves every attribute that the given document does not
    mention, and [_index], as stored. *)
Theorem elReplace_patch (indexName documentId : option value)
    (doc : list (string * value)) (stored : gmap string value) :
  NoDup (object_keys doc) →
  let update := Indexing.elReplace indexName documentId doc in
  let statements := Indexing.statement_of <$> Indexing.dissoc "_index" doc in
  Indexing.replace_source update = String.concat ";" (Indexing.render <$> statements)
  ∧ ∀ key,
      fold_left (Indexing.run_statement (Indexing.replace_params update)) statements stored
        !! key
      = match prop_get doc key with
        | Some val =>
            if bool_decide (key = "_index") then stored !! key
            else if Indexing.isEmptyField val then None else Some val
        | None => stored !! key
        end.
Proof.
  intros Hnodup update statements. split.
  - unfold update, Indexing.elReplace, statements. cbn. by rewrite <- list_fmap_compose.
  - intros key. unfold update, Indexing.elReplace, statements. cbn [Indexing.replace_params].
    rewrite run_statements.
    + rewrite prop_get_dissoc. case_bool_decide; [|done]. by destruct (prop_get doc key).
    + by apply dissoc_NoDup.
    + intros k v Hin. apply prop_get_NoDup; [by apply dissoc_NoDup|done].
Qed.

Lemma prepareElementForIndexing_prepared_witness :
  ∃ thing,
    Indexing.prepareElementForIndexing (H0 := Fixtures.platform_utils)
      Fixtures.isBooleanAttribute Fixtures.report_attributes = inr thing
    ∧ object_keys thing = object_keys Fixtures.report_attributes
    ∧ Indexing.prepareElementForIndexing (H0 := Fixtures.platform_utils)
        Fixtures.isBooleanAttribute thing = inr thing.
Proof.
  destruct (Indexing.prepareElementForIndexing (H0 := Fixtures.platform_utils)
              Fixtures.isBooleanAttribute Fixtures.report_attributes)
    as [e|thing] eqn:Hthing; [by vm_compute in Hthing|].
  exists thing. split; [done|].
  destruct (@prepareElementForIndexing_prepared Fixtures.platform_utils
              Fixtures.isBooleanAttribute Fixtures.report_attributes thing Hthing)
    as (Hkeys & Hagain & _).
  by split.
Defined.

Lemma named_attributes_plain :
  Forall (λ key, Fixtures.isBooleanAttribute key = false) Indexing.named_attributes.
Proof. repeat constructor. Qed.

Lemma prepareIndexing_prepared_witness :
  ∃ docs,
    Indexing.prepareIndexing (H := platform_schema) (H0 := Fixtures.platform_utils)
      Fixtures.isBooleanAttribute [Fixtures.report_thing; Fixtures.uses_thing] = inr docs
    ∧ Indexing.internal_id_of <$> docs = ["P"; "R"]
    ∧ Forall (λ doc, Indexing.fields_of doc !! "i_relations_from" = None
                     ∧ Indexing.fields_of doc !! "i_relations_to" = None) docs.
Proof.
  destruct (Indexing.prepareIndexing (H := platform_schema) (H0 := Fixtures.platform_utils)
              Fixtures.isBooleanAttribute [Fixtures.report_thing; Fixtures.uses_thing])
    as [e|docs] eqn:Hdocs; [by vm_compute in Hdocs|].
  exists docs. split; [done|].
  destruct (@prepareIndexing_prepared platform_schema Fixtures.platform_utils
              Fixtures.isBooleanAttribute [Fixtures.report_thing; Fixtures.uses_thing] docs
              named_attributes_plain Hdocs) as (Hids & Hfields & _).
  by split.
Defined.

Lemma elIndexElements_without_relations_witness :
  ∃ docs,
    Indexing.prepareIndexing (H := platform_schema) (H0 := Fixtures.platform_utils)
      Fixtures.isBooleanAttribute [Fixtures.report_thing] = inr docs
    ∧ Indexing.elIndexElements (H := platform_schema) (H0 := Fixtures.platform_utils)
        Fixtures.isBooleanAttribute Fixtures.index_of Fixtures.accepted
        [Fixtures.report_thing] []
      = (Return 1,
         [] ++ [Indexing.Bulk
                  ((λ doc, Indexing.Index (Indexing.fields_of doc !! "_index")
                             (Indexing.internal_id_of doc) (Indexing.without_index doc))
                   <$> docs)]).
Proof.
  destruct (Indexing.prepareIndexing (H := platform_schema) (H0 := Fixtures.platform_utils)
              Fixtures.isBooleanAttribute [Fixtures.report_thing])
    as [e|docs] eqn:Hdocs; [by vm_compute in Hdocs|].
  exists docs. split; [done|].
  exact (@elIndexElements_without_relations platform_schema Fixtures.platform_utils
           Fixtures.isBooleanAttribute Fixtures.index_of Fixtures.accepted
           [Fixtures.report_thing] docs [] named_attributes_plain eq_refl Hdocs).
Defined.

Lemma elIndexElements_references_witness :
  ∃ docs ops,
    Indexing.prepareIndexing (H := platform_schema) (H0 := Fixtures.platform_utils)
      Fixtures.isBooleanAttribute [Fixtures.report_thing; Fixtures.uses_thing] = inr docs
    ∧ ops ≫= Indexing.updated_id = ["E"; "X"]
    ∧ NoDup (ops ≫= Indexing.updated_id).
Proof.
  destruct (Indexing.elIndexElements (H := platform_schema) (H0 := Fixtures.platform_utils)
              Fixtures.isBooleanAttribute Fixtures.index_of Fixtures.accepted
              [Fixtures.report_thing; Fixtures.uses_thing] [])
    as [[n| |] t'] eqn:Hrun; [|by vm_compute in Hrun..].
  destruct (@elIndexElements_references platform_schema Fixtures.platform_utils
              Fixtures.isBooleanAttribute Fixtures.index_of Fixtures.accepted
              [Fixtures.report_thing; Fixtures.uses_thing] [] t' n
              named_attributes_plain Hrun) as (_ & docs & ops & Hdocs & Ht' & Hnodup & Hids).
  exists docs, ops. split; [done|]. split; [|done].
  vm_compute in Hrun. injection Hrun as _ <-.
  vm_compute in Hdocs. injection Hdocs as <-.
  destruct ops as [|op ops]; [discriminate Ht'|].
  cbn [app] in Ht'. injection Ht' as _ _ Hids'. exact (eq_sym Hids').
Defined.

Lemma elReplace_patch_witness :
  let update := Indexing.elReplace (Some (VStr "entities")) (Some (VStr "P"))
                  Fixtures.report_attributes in
  let statements :=
    Indexing.statement_of <$> Indexing.dissoc "_index" Fixtures.report_attributes in
  Indexing.replace_source update = String.concat ";" (Indexing.render <$> statements)
  ∧ ∀ key,
      fold_left (Indexing.run_statement (Indexing.replace_params update)) statements
        Fixtures.stored_report !! key
      = match prop_get Fixtures.report_attributes key with
        | Some val =>
            if bool_decide (key = "_index") then Fixtures.stored_report !! key
            else if Indexing.isEmptyField val then None else Some val
        | None => Fixtures.stored_report !! key
        end.
Proof.
  apply (@elReplace_patch (Some (VStr "entities")) (Some (VStr "P"))
           Fixtures.report_attributes Fixtures.stored_report).
  unfold object_keys. cbn. repeat (apply NoDup_cons; split; [by vm_compute; set_solver|]).
  apply NoDup_nil_2.
Defined.

